(** * trace-mark: the annotation interaction engine of [src/App.tsx]

    A shallow embedding of the annotation model, the pointer-driven
    handlers and the geometry helpers of the viewer component.

    Conventions of the embedding.
    - A JavaScript [number] holding a coordinate, a size or a style value is
      a real number (type [R]); the arithmetic of the handlers is read over
      the reals, of which the run-time doubles are approximations.
    - An entity id is the integer [Date.now()] returned when the entity was
      minted (type [Z]).  Every handler that calls [Date.now()] takes the
      value read from the clock as its argument [now].
    - A React state cell [const [x, setX] = useState(..)] and a ref
      [xRef.current] are fields of the record [State]; the setter [setX] is
      the function that replaces that field, and a handler is the
      composition of the setters it calls, in program order.
    - What a handler reads from the DOM (the pointer position of the event,
      the bounding rectangle of the canvas, whether the canvas is mounted)
      is an argument of the handler.  The viewer element, on which the
      pointer handlers are registered, is mounted whenever one of them runs.
    - Events are handled one after the other, each on the state left by the
      one before: the updates queued by a handler are applied before the
      next event is handled.  The one update that reads refs when it runs,
      that of a pointer move during a drag, is also given for the case that
      it runs later ([handleMouseMoveDeferred]). *)

From Stdlib Require Import Reals Lra Lia ZArith List Bool String Sorted.
Import ListNotations.

Open Scope R_scope.

(** ** Numbers *)

(** [Math.hypot(a, b)]. *)
Definition hypot (a b : R) : R := sqrt (a * a + b * b).

(** [Math.round(x)]: the nearest integer, a tie going up. *)
Definition round (x : R) : Z := Int_part (x + / 2).

(** [v || 1] on a number: [0] is falsy. *)
Definition orOne (v : R) : R := if Req_dec_T v 0 then 1 else v.

(** Comparisons of numbers as the booleans of the source's conditions. *)
Definition Rltb (a b : R) : bool := if Rlt_dec a b then true else false.
Definition Rgtb (a b : R) : bool := Rltb b a.

(** ** Types of the annotations *)

Module LineStyle.
Inductive t := solid | dashed | dotted | dotdash | wavy.
End LineStyle.
Abbreviation LineStyle := LineStyle.t.

Module Line.
Record t := mk {
  id : Z;
  (* normalized coords (0-1) relative to canvas width/height *)
  x1 : R;
  y1 : R;
  x2 : R;
  y2 : R;
  style : LineStyle;
  thickness : R;
  arrowEnd : bool;
  color : string
}.
End Line.
Abbreviation Line := Line.t.

Module ToolMode.
Inductive t := hand | select | line | area | text.
Definition eqb (a b : t) : bool :=
  match a, b with
  | hand, hand | select, select | line, line | area, area | text, text => true
  | _, _ => false
  end.
End ToolMode.
Abbreviation ToolMode := ToolMode.t.

Module AreaShapeType.
Inductive t := rect | circle | triangle | freeform.
End AreaShapeType.
Abbreviation AreaShapeType := AreaShapeType.t.

Module TextFont.
Inductive t := system | serif | mono.
End TextFont.
Abbreviation TextFont := TextFont.t.

Module TextBox.
Record t := mk {
  id : Z;
  (* normalized top-left + size (0-1, relative to canvas) *)
  x : R;
  y : R;
  width : R;
  height : R;
  text : string;
  textColor : string;
  fontSize : R;
  fontFamily : TextFont;
  bold : bool;
  italic : bool;
  underline : bool;
  backgroundColor : string;
  solidBackground : bool
}.
End TextBox.
Abbreviation TextBox := TextBox.t.

Module OutlineStyle.
Inductive t := solid | dashed | cloud | zigzag.
End OutlineStyle.
Abbreviation OutlineStyle := OutlineStyle.t.

Module Point.
Record t := mk { x : R; y : R }.
End Point.
Abbreviation Point := Point.t.

Module AreaShape.
Record t := mk {
  id : Z;
  type : AreaShapeType;
  (* normalized points (0-1) *)
  points : list Point;
  outlineStyle : OutlineStyle;
  thickness : R;
  color : string;
  fillOpacity : R
}.
End AreaShape.
Abbreviation AreaShape := AreaShape.t.

(** ** Geometry helpers *)

(** The commands of an SVG path; a [d] string is the list of its commands,
    the numbers kept as numbers. *)
Inductive PathCmd :=
| M (x y : R)
| Q (cx cy x y : R)
| L (x y : R)
| Zclose.

(** The loop counter [i = 1 .. n]. *)
Definition upto (n : Z) : list Z := map Z.of_nat (seq 1 (Z.to_nat n)).

(** [makeWavyPath(x1, y1, x2, y2, amplitude = 4, wavelength = 12)].

    [wavyLength] and [wavySegments] are its constants [length] and
    [segments].  With [wavelength = 0] the quotient is [Infinity], the loop
    bound is [Infinity] and the call never returns a string: [None]. *)
Definition wavyLength (x1 y1 x2 y2 : R) : R :=
  let dx := x2 - x1 in
  let dy := y2 - y1 in
  orOne (hypot dx dy).

Definition wavySegments (x1 y1 x2 y2 wavelength : R) : Z :=
  let length := wavyLength x1 y1 x2 y2 in
  Z.max 2 (round (length / wavelength)).

Definition makeWavyPath (x1 y1 x2 y2 amplitude wavelength : R)
  : option (list PathCmd) :=
  let dx := x2 - x1 in
  let dy := y2 - y1 in
  let length := wavyLength x1 y1 x2 y2 in
  if Req_dec_T wavelength 0 then None else
  let segments := wavySegments x1 y1 x2 y2 wavelength in
  let stepX := dx / IZR segments in
  let stepY := dy / IZR segments in
  let nx := - dy / length in
  let ny := dx / length in
  Some (M x1 y1 ::
        map (fun i =>
               let px := x1 + stepX * IZR i in
               let py := y1 + stepY * IZR i in
               let sign := if Z.even i then -1 else 1 in
               let offset := sign * amplitude in
               let cx := px + nx * offset in
               let cy := py + ny * offset in
               Q cx cy px py)
            (upto segments)).

(** [buildFreeformPath(pts, width, height)]. *)
Definition buildFreeformPath (pts : list Point) (width height : R)
  : list PathCmd :=
  match pts with
  | [] => []
  | first :: rest =>
      M (Point.x first * width) (Point.y first * height)
        :: map (fun p => L (Point.x p * width) (Point.y p * height)) rest
        ++ [Zclose]
  end.

(** The main element drawn for an area by the [areas.map] of the overlay. *)
Inductive AreaElement :=
| PathEl (d : list PathCmd)
| RectEl (x y width height : R)
| CircleEl (cx cy r : R)
| PolygonEl (points : list (R * R)).

Record CanvasSize := mkCanvasSize { cs_width : R; cs_height : R }.

Definition areaMainElement (canvasSize : CanvasSize) (area : AreaShape)
  : option AreaElement :=
  match AreaShape.points area with
  | [] => None
  | _ =>
    match AreaShape.type area with
    | AreaShapeType.freeform =>
        Some (PathEl (buildFreeformPath (AreaShape.points area)
                        (cs_width canvasSize) (cs_height canvasSize)))
    | ty =>
        match AreaShape.points area with
        | p1 :: p2 :: _ =>
            let x1 := Point.x p1 * cs_width canvasSize in
            let y1 := Point.y p1 * cs_height canvasSize in
            let x2 := Point.x p2 * cs_width canvasSize in
            let y2 := Point.y p2 * cs_height canvasSize in
            match ty with
            | AreaShapeType.rect =>
                let rx := Rmin x1 x2 in
                let ry := Rmin y1 y2 in
                let rw := Rabs (x2 - x1) in
                let rh := Rabs (y2 - y1) in
                Some (RectEl rx ry rw rh)
            | AreaShapeType.circle =>
                let cx := (x1 + x2) / 2 in
                let cy := (y1 + y2) / 2 in
                let r := hypot (x2 - x1) (y2 - y1) / 2 in
                Some (CircleEl cx cy r)
            | _ =>
                Some (PolygonEl [(x1, y1); (x2, y1); (x2, y2)])
            end
        | _ => None
        end
    end
  end.

(** ** The state of the component *)

(** What the handlers read of a loaded document. *)
Record PDFDocumentProxy := mkDoc { numPages : Z }.

(** [e.clientX], [e.clientY]. *)
Record MouseEvent := mkMouseEvent { clientX : R; clientY : R }.

(** [canvasRef.current.getBoundingClientRect()]. *)
Module DOMRect.
Record t := mk { left : R; top : R; width : R; height : R }.
End DOMRect.
Abbreviation DOMRect := DOMRect.t.

(** The modes of [dragModeRef] and [areaDragModeRef]; [end_] is ["end"]. *)
Module DragMode.
Inductive t := none | move | start | end_.
Definition eqb (a b : t) : bool :=
  match a, b with
  | none, none | move, move | start, start | end_, end_ => true
  | _, _ => false
  end.
End DragMode.
Abbreviation DragMode := DragMode.t.

Module TextDragMode.
Inductive t := none | move | corner.
Definition eqb (a b : t) : bool :=
  match a, b with
  | none, none | move, move | corner, corner => true
  | _, _ => false
  end.
End TextDragMode.
Abbreviation TextDragMode := TextDragMode.t.

(** The snapshots kept in [dragStartRef], [areaDragStartRef] and
    [textDragStartRef]. *)
Module LineDragStart.
Record t := mk {
  mouseX : R; mouseY : R;
  x1 : R; y1 : R; x2 : R; y2 : R
}.
End LineDragStart.

Module AreaDragStart.
Record t := mk { mouseX : R; mouseY : R; points : list Point }.
End AreaDragStart.

Module TextDragStart.
Record t := mk {
  mouseX : R; mouseY : R;
  x : R; y : R; width : R; height : R
}.
End TextDragStart.

Inductive Clipboard :=
| ClipLine (item : Line)
| ClipArea (item : AreaShape)
| ClipText (item : TextBox).

(** The state cells and refs of [App], under their names in the source.
    The hover ids and the scroll origin of a pan only decorate and scroll the
    view and are left out. *)
Record State := mkState {
  pdfDoc : option PDFDocumentProxy;
  pageNum : Z;
  scale : R;
  totalPages : option Z;
  canvasSize : option CanvasSize;
  tool : ToolMode;
  (* line tool state *)
  lines : list Line;
  lineStyle : LineStyle;
  lineWidth : R;
  arrowEnd : bool;
  isDrawingLine : bool;
  currentLineId : option Z;
  lineColor : string;
  selectedLineId : option Z;
  (* area selection tool state *)
  areas : list AreaShape;
  areaShapeType : AreaShapeType;
  areaOutlineStyle : OutlineStyle;
  areaThickness : R;
  areaFillOpacity : R;
  isDrawingArea : bool;
  currentAreaId : option Z;
  selectedAreaId : option Z;
  clipboard : option Clipboard;
  (* text tool state *)
  textBoxes : list TextBox;
  selectedTextId : option Z;
  editingTextId : option Z;
  textColor : string;
  textFont : TextFont;
  textSize : R;
  textBold : bool;
  textItalic : bool;
  textUnderline : bool;
  textBgColor : string;
  textBgSolid : bool;
  (* panning refs (hand tool) *)
  isPanningRef : bool;
  (* dragging existing line *)
  dragModeRef : DragMode;
  dragLineIdRef : option Z;
  dragStartRef : option LineDragStart.t;
  (* dragging existing area *)
  areaDragModeRef : DragMode;
  areaDragIdRef : option Z;
  areaDragStartRef : option AreaDragStart.t;
  (* dragging text boxes *)
  textDragModeRef : TextDragMode;
  textDragIdRef : option Z;
  textDragStartRef : option TextDragStart.t
}.

(** The state after the first render: the initial values of the cells. *)
Definition initialState : State := {|
  pdfDoc := None; pageNum := 1; scale := 1; totalPages := None;
  canvasSize := None; tool := ToolMode.hand;
  lines := []; lineStyle := LineStyle.solid; lineWidth := 2;
  arrowEnd := false; isDrawingLine := false; currentLineId := None;
  lineColor := "#f97316"; selectedLineId := None;
  areas := []; areaShapeType := AreaShapeType.rect;
  areaOutlineStyle := OutlineStyle.solid; areaThickness := 2;
  areaFillOpacity := 2 / 10; isDrawingArea := false; currentAreaId := None;
  selectedAreaId := None; clipboard := None;
  textBoxes := []; selectedTextId := None; editingTextId := None;
  textColor := "#000000ff"; textFont := TextFont.system; textSize := 14;
  textBold := false; textItalic := false; textUnderline := false;
  textBgColor := "#facc15"; textBgSolid := false;
  isPanningRef := false;
  dragModeRef := DragMode.none; dragLineIdRef := None; dragStartRef := None;
  areaDragModeRef := DragMode.none; areaDragIdRef := None;
  areaDragStartRef := None;
  textDragModeRef := TextDragMode.none; textDragIdRef := None;
  textDragStartRef := None
|}.

(** *** Setters

    [setX v] replaces the cell [x] and keeps every other one.  Each setter
    is read off the record rebuilt from its own projections. *)
Definition rebuild (s : State) : State :=
  mkState (pdfDoc s) (pageNum s) (scale s) (totalPages s) (canvasSize s)
    (tool s)
    (lines s) (lineStyle s) (lineWidth s) (arrowEnd s) (isDrawingLine s)
    (currentLineId s) (lineColor s) (selectedLineId s)
    (areas s) (areaShapeType s) (areaOutlineStyle s) (areaThickness s)
    (areaFillOpacity s) (isDrawingArea s) (currentAreaId s)
    (selectedAreaId s) (clipboard s)
    (textBoxes s) (selectedTextId s) (editingTextId s)
    (textColor s) (textFont s) (textSize s) (textBold s) (textItalic s)
    (textUnderline s) (textBgColor s) (textBgSolid s)
    (isPanningRef s)
    (dragModeRef s) (dragLineIdRef s) (dragStartRef s)
    (areaDragModeRef s) (areaDragIdRef s) (areaDragStartRef s)
    (textDragModeRef s) (textDragIdRef s) (textDragStartRef s).

Ltac setter proj :=
  let v := fresh "v" in
  let s := fresh "s" in
  intros v s;
  let body := eval cbv beta delta [rebuild] in (rebuild s) in
  match eval pattern (proj s) in body with
  | ?f _ => let r := eval cbv beta in (f v) in exact r
  end.

Definition setPdfDoc : option PDFDocumentProxy -> State -> State := ltac:(setter pdfDoc).
Definition setPageNum : Z -> State -> State := ltac:(setter pageNum).
Definition setScale : R -> State -> State := ltac:(setter scale).
Definition setTotalPages : option Z -> State -> State := ltac:(setter totalPages).
Definition setCanvasSize : option CanvasSize -> State -> State := ltac:(setter canvasSize).
Definition setTool : ToolMode -> State -> State := ltac:(setter tool).
Definition setLines : list Line -> State -> State := ltac:(setter lines).
Definition setLineStyle : LineStyle -> State -> State := ltac:(setter lineStyle).
Definition setLineWidth : R -> State -> State := ltac:(setter lineWidth).
Definition setArrowEnd : bool -> State -> State := ltac:(setter arrowEnd).
Definition setIsDrawingLine : bool -> State -> State := ltac:(setter isDrawingLine).
Definition setCurrentLineId : option Z -> State -> State := ltac:(setter currentLineId).
Definition setLineColor : string -> State -> State := ltac:(setter lineColor).
Definition setSelectedLineId : option Z -> State -> State := ltac:(setter selectedLineId).
Definition setAreas : list AreaShape -> State -> State := ltac:(setter areas).
Definition setAreaShapeType : AreaShapeType -> State -> State := ltac:(setter areaShapeType).
Definition setAreaOutlineStyle : OutlineStyle -> State -> State := ltac:(setter areaOutlineStyle).
Definition setAreaThickness : R -> State -> State := ltac:(setter areaThickness).
Definition setAreaFillOpacity : R -> State -> State := ltac:(setter areaFillOpacity).
Definition setIsDrawingArea : bool -> State -> State := ltac:(setter isDrawingArea).
Definition setCurrentAreaId : option Z -> State -> State := ltac:(setter currentAreaId).
Definition setSelectedAreaId : option Z -> State -> State := ltac:(setter selectedAreaId).
Definition setClipboard : option Clipboard -> State -> State := ltac:(setter clipboard).
Definition setTextBoxes : list TextBox -> State -> State := ltac:(setter textBoxes).
Definition setSelectedTextId : option Z -> State -> State := ltac:(setter selectedTextId).
Definition setEditingTextId : option Z -> State -> State := ltac:(setter editingTextId).
Definition setTextColor : string -> State -> State := ltac:(setter textColor).
Definition setTextFont : TextFont -> State -> State := ltac:(setter textFont).
Definition setTextSize : R -> State -> State := ltac:(setter textSize).
Definition setTextBold : bool -> State -> State := ltac:(setter textBold).
Definition setTextItalic : bool -> State -> State := ltac:(setter textItalic).
Definition setTextUnderline : bool -> State -> State := ltac:(setter textUnderline).
Definition setTextBgColor : string -> State -> State := ltac:(setter textBgColor).
Definition setTextBgSolid : bool -> State -> State := ltac:(setter textBgSolid).
Definition setIsPanningRef : bool -> State -> State := ltac:(setter isPanningRef).
Definition setDragModeRef : DragMode -> State -> State := ltac:(setter dragModeRef).
Definition setDragLineIdRef : option Z -> State -> State := ltac:(setter dragLineIdRef).
Definition setDragStartRef : option LineDragStart.t -> State -> State := ltac:(setter dragStartRef).
Definition setAreaDragModeRef : DragMode -> State -> State := ltac:(setter areaDragModeRef).
Definition setAreaDragIdRef : option Z -> State -> State := ltac:(setter areaDragIdRef).
Definition setAreaDragStartRef : option AreaDragStart.t -> State -> State := ltac:(setter areaDragStartRef).
Definition setTextDragModeRef : TextDragMode -> State -> State := ltac:(setter textDragModeRef).
Definition setTextDragIdRef : option Z -> State -> State := ltac:(setter textDragIdRef).
Definition setTextDragStartRef : option TextDragStart.t -> State -> State := ltac:(setter textDragStartRef).

(** [f ;; g]: the statement [f] followed by the statement [g]. *)
Definition seq_ (f g : State -> State) : State -> State := fun s => g (f s).
Notation "f ;; g" := (seq_ f g) (at level 61, left associativity).
Definition skip : State -> State := fun s => s.
Arguments seq_ f g s /.
Arguments skip s /.

(** ** Handlers *)

Definition isHand (s : State) : bool := ToolMode.eqb (tool s) ToolMode.hand.
Definition isSelect (s : State) : bool := ToolMode.eqb (tool s) ToolMode.select.
Definition isLine (s : State) : bool := ToolMode.eqb (tool s) ToolMode.line.
Definition isArea (s : State) : bool := ToolMode.eqb (tool s) ToolMode.area.
Definition isText (s : State) : bool := ToolMode.eqb (tool s) ToolMode.text.

(** [v !== null]. *)
Definition notNull {A} (v : option A) : bool :=
  match v with Some _ => true | None => false end.

(** [id === cell] for a cell holding [number | null]. *)
Definition idIs (i : Z) (cell : option Z) : bool :=
  match cell with Some j => Z.eqb i j | None => false end.

Definition hasSelection (s : State) : bool :=
  notNull (selectedLineId s) || notNull (selectedAreaId s)
  || notNull (selectedTextId s).

Definition clearSelection : State -> State :=
  setSelectedLineId None ;; setSelectedAreaId None ;;
  setSelectedTextId None ;; setEditingTextId None.

Definition deleteSelected : State -> State := fun s =>
  match selectedLineId s with
  | Some sel =>
      (setLines (filter (fun line => negb (Line.id line =? sel)%Z) (lines s)) ;;
       setSelectedLineId None) s
  | None =>
  match selectedAreaId s with
  | Some sel =>
      (setAreas (filter (fun area => negb (AreaShape.id area =? sel)%Z) (areas s)) ;;
       setSelectedAreaId None) s
  | None =>
  match selectedTextId s with
  | Some sel =>
      (setTextBoxes (filter (fun box => negb (TextBox.id box =? sel)%Z) (textBoxes s)) ;;
       setSelectedTextId None ;;
       setEditingTextId None) s
  | None => s
  end end end.

(** The clones built by [duplicateSelected] and by [pasteClipboard]:
    [{ ...line, id: newId, x1: Math.min(1, line.x1 + offset), .. }]. *)
Definition cloneLine (newId : Z) (offset : R) (line : Line) : Line :=
  Line.mk newId
    (Rmin 1 (Line.x1 line + offset))
    (Rmin 1 (Line.y1 line + offset))
    (Rmin 1 (Line.x2 line + offset))
    (Rmin 1 (Line.y2 line + offset))
    (Line.style line) (Line.thickness line) (Line.arrowEnd line)
    (Line.color line).

Definition cloneArea (newId : Z) (offset : R) (area : AreaShape) : AreaShape :=
  AreaShape.mk newId (AreaShape.type area)
    (map (fun p => Point.mk (Rmin 1 (Point.x p + offset))
                            (Rmin 1 (Point.y p + offset)))
         (AreaShape.points area))
    (AreaShape.outlineStyle area) (AreaShape.thickness area)
    (AreaShape.color area) (AreaShape.fillOpacity area).

Definition cloneText (newId : Z) (offset : R) (box : TextBox) : TextBox :=
  TextBox.mk newId
    (Rmin 1 (TextBox.x box + offset))
    (Rmin 1 (TextBox.y box + offset))
    (TextBox.width box) (TextBox.height box) (TextBox.text box)
    (TextBox.textColor box) (TextBox.fontSize box) (TextBox.fontFamily box)
    (TextBox.bold box) (TextBox.italic box) (TextBox.underline box)
    (TextBox.backgroundColor box) (TextBox.solidBackground box).

Definition duplicateSelected (now : Z) : State -> State := fun s =>
  let offset := 0.02 in
  match selectedLineId s with
  | Some sel =>
      let idBase := now in
      match find (fun l => (Line.id l =? sel)%Z) (lines s) with
      | None => s
      | Some line =>
          let newId := idBase in
          let clone := cloneLine newId offset line in
          (setSelectedLineId (Some newId) ;; setLines (lines s ++ [clone])) s
      end
  | None =>
  match selectedAreaId s with
  | Some sel =>
      let idBase := now in
      match find (fun a => (AreaShape.id a =? sel)%Z) (areas s) with
      | None => s
      | Some area =>
          let newId := idBase in
          let clone := cloneArea newId offset area in
          (setSelectedAreaId (Some newId) ;; setAreas (areas s ++ [clone])) s
      end
  | None =>
  match selectedTextId s with
  | Some sel =>
      let idBase := now in
      match find (fun b => (TextBox.id b =? sel)%Z) (textBoxes s) with
      | None => s
      | Some box =>
          let newId := idBase in
          let clone := cloneText newId offset box in
          (setSelectedTextId (Some newId) ;;
           setTextBoxes (textBoxes s ++ [clone])) s
      end
  | None => s
  end end end.

(** A copy of an immutable record is the record: [{ ...line }] is [line]. *)
Definition copySelection : State -> State := fun s =>
  match selectedLineId s with
  | Some sel =>
      match find (fun l => (Line.id l =? sel)%Z) (lines s) with
      | None => s
      | Some line => setClipboard (Some (ClipLine line)) s
      end
  | None =>
  match selectedAreaId s with
  | Some sel =>
      match find (fun a => (AreaShape.id a =? sel)%Z) (areas s) with
      | None => s
      | Some area => setClipboard (Some (ClipArea area)) s
      end
  | None =>
  match selectedTextId s with
  | Some sel =>
      match find (fun b => (TextBox.id b =? sel)%Z) (textBoxes s) with
      | None => s
      | Some box => setClipboard (Some (ClipText box)) s
      end
  | None => s
  end end end.

Definition cutSelection : State -> State :=
  copySelection ;; deleteSelected.

Definition pasteClipboard (now : Z) : State -> State := fun s =>
  match clipboard s with
  | None => s
  | Some clip =>
      let offset := 0.02 in
      let newId := now in
      match clip with
      | ClipLine line =>
          let clone := cloneLine newId offset line in
          (setLines (lines s ++ [clone]) ;;
           setSelectedLineId (Some newId) ;;
           setSelectedAreaId None ;;
           setSelectedTextId None ;;
           setEditingTextId None) s
      | ClipArea area =>
          let clone := cloneArea newId offset area in
          (setAreas (areas s ++ [clone]) ;;
           setSelectedAreaId (Some newId) ;;
           setSelectedLineId None ;;
           setSelectedTextId None) s
      | ClipText box =>
          let clone := cloneText newId offset box in
          (setTextBoxes (textBoxes s ++ [clone]) ;;
           setSelectedTextId (Some newId) ;;
           setSelectedLineId None ;;
           setSelectedAreaId None) s
      end
  end.

(** [handleMouseDown]: the pointer-down of the viewer.  [canvas] is
    [canvasRef.current] with its bounding rectangle. *)
Definition handleMouseDown (now : Z) (e : MouseEvent) (canvas : option DOMRect)
  : State -> State := fun s =>
  (* HAND TOOL MODE (pan) *)
  if isHand s then setIsPanningRef true s else
  match canvas, canvasSize s, pdfDoc s with
  | Some rect, Some _, Some _ =>
      let x := clientX e - DOMRect.left rect in
      let y := clientY e - DOMRect.top rect in
      if Rltb x 0 || Rltb y 0 || Rgtb x (DOMRect.width rect)
         || Rgtb y (DOMRect.height rect)
      then clearSelection s else
      let nx := x / DOMRect.width rect in
      let ny := y / DOMRect.height rect in
      (* in line/area mode but already dragging: ignore *)
      if isLine s && negb (DragMode.eqb (dragModeRef s) DragMode.none) then s else
      if isArea s && negb (DragMode.eqb (areaDragModeRef s) DragMode.none) then s else
      (* TEXT TOOL MODE: create a new text box at click *)
      if isText s then
        let id := now in
        let defaultWidthPx := 200 in
        let defaultHeightPx := 60 in
        let widthNorm := defaultWidthPx / DOMRect.width rect in
        let heightNorm := defaultHeightPx / DOMRect.height rect in
        let newBox :=
          TextBox.mk id nx ny widthNorm heightNorm ""
            (textColor s) (textSize s) (textFont s) (textBold s)
            (textItalic s) (textUnderline s) (textBgColor s) (textBgSolid s) in
        (setTextBoxes (textBoxes s ++ [newBox]) ;;
         setSelectedTextId (Some id) ;;
         setSelectedLineId None ;;
         setSelectedAreaId None ;;
         setEditingTextId None) s
      else
      (* LINE TOOL MODE: start new line *)
      if isLine s then
        let id := now in
        let newLine :=
          Line.mk id nx ny nx ny (lineStyle s) (lineWidth s) (arrowEnd s)
            (lineColor s) in
        (setLines (lines s ++ [newLine]) ;;
         setIsDrawingLine true ;;
         setCurrentLineId (Some id) ;;
         setSelectedLineId (Some id) ;;
         setSelectedAreaId None ;;
         setSelectedTextId None) s
      else
      (* AREA TOOL MODE: start new shape *)
      if isArea s then
        let id := now in
        let initialPoints :=
          match areaShapeType s with
          | AreaShapeType.freeform => [Point.mk nx ny]
          | _ => [Point.mk nx ny; Point.mk nx ny]
          end in
        let newArea :=
          AreaShape.mk id (areaShapeType s) initialPoints (areaOutlineStyle s)
            (areaThickness s) (lineColor s) (areaFillOpacity s) in
        (setAreas (areas s ++ [newArea]) ;;
         setIsDrawingArea true ;;
         setCurrentAreaId (Some id) ;;
         setSelectedAreaId (Some id) ;;
         setSelectedLineId None ;;
         setSelectedTextId None) s
      else s
  | _, _, _ => clearSelection s
  end.

(** The three drag updates of [handleMouseMove], each the callback of the
    [prev.map] of its branch. *)
Definition dragLine (mode : DragMode) (dragId : Z) (st : LineDragStart.t)
  (dxNorm dyNorm : R) (line : Line) : Line :=
  if negb (Line.id line =? dragId)%Z then line else
  match mode with
  | DragMode.move =>
      Line.mk (Line.id line)
        (LineDragStart.x1 st + dxNorm) (LineDragStart.y1 st + dyNorm)
        (LineDragStart.x2 st + dxNorm) (LineDragStart.y2 st + dyNorm)
        (Line.style line) (Line.thickness line) (Line.arrowEnd line)
        (Line.color line)
  | DragMode.start =>
      Line.mk (Line.id line)
        (LineDragStart.x1 st + dxNorm) (LineDragStart.y1 st + dyNorm)
        (Line.x2 line) (Line.y2 line)
        (Line.style line) (Line.thickness line) (Line.arrowEnd line)
        (Line.color line)
  | DragMode.end_ =>
      Line.mk (Line.id line)
        (Line.x1 line) (Line.y1 line)
        (LineDragStart.x2 st + dxNorm) (LineDragStart.y2 st + dyNorm)
        (Line.style line) (Line.thickness line) (Line.arrowEnd line)
        (Line.color line)
  | DragMode.none => line
  end.

Definition withPoints (pts : list Point) (area : AreaShape) : AreaShape :=
  AreaShape.mk (AreaShape.id area) (AreaShape.type area) pts
    (AreaShape.outlineStyle area) (AreaShape.thickness area)
    (AreaShape.color area) (AreaShape.fillOpacity area).

Definition isFreeform (ty : AreaShapeType) : bool :=
  match ty with AreaShapeType.freeform => true | _ => false end.

Definition dragArea (mode : DragMode) (dragId : Z) (st : AreaDragStart.t)
  (dxNorm dyNorm : R) (area : AreaShape) : AreaShape :=
  let points := AreaDragStart.points st in
  if negb (AreaShape.id area =? dragId)%Z then area else
  match mode with
  | DragMode.move =>
      withPoints
        (map (fun p => Point.mk (Point.x p + dxNorm) (Point.y p + dyNorm))
             points)
        area
  | _ =>
      (* resize only for non-freeform with two points [p1, p2] *)
      match points with
      | p1 :: p2 :: _ =>
          if negb (isFreeform (AreaShape.type area)) then
            match mode with
            | DragMode.start =>
                withPoints
                  [Point.mk (Point.x p1 + dxNorm) (Point.y p1 + dyNorm); p2]
                  area
            | DragMode.end_ =>
                withPoints
                  [p1; Point.mk (Point.x p2 + dxNorm) (Point.y p2 + dyNorm)]
                  area
            | _ => area
            end
          else area
      | _ => area
      end
  end.

Definition dragText (mode : TextDragMode) (dragId : Z) (st : TextDragStart.t)
  (dxNorm dyNorm : R) (box : TextBox) : TextBox :=
  if negb (TextBox.id box =? dragId)%Z then box else
  match mode with
  | TextDragMode.move =>
      TextBox.mk (TextBox.id box)
        (TextDragStart.x st + dxNorm) (TextDragStart.y st + dyNorm)
        (TextBox.width box) (TextBox.height box) (TextBox.text box)
        (TextBox.textColor box) (TextBox.fontSize box)
        (TextBox.fontFamily box) (TextBox.bold box) (TextBox.italic box)
        (TextBox.underline box) (TextBox.backgroundColor box)
        (TextBox.solidBackground box)
  | TextDragMode.corner =>
      let minSize := 0.03 in
      TextBox.mk (TextBox.id box)
        (TextBox.x box) (TextBox.y box)
        (Rmax minSize (TextDragStart.width st + dxNorm))
        (Rmax minSize (TextDragStart.height st + dyNorm))
        (TextBox.text box)
        (TextBox.textColor box) (TextBox.fontSize box)
        (TextBox.fontFamily box) (TextBox.bold box) (TextBox.italic box)
        (TextBox.underline box) (TextBox.backgroundColor box)
        (TextBox.solidBackground box)
  | TextDragMode.none => box
  end.

(** The guards of the branches of [handleMouseMove]: each gives the values
    the branch reads when its condition holds. *)
Definition lineDragActive (s : State) : option (Z * LineDragStart.t) :=
  if (isLine s || isSelect s)
     && negb (DragMode.eqb (dragModeRef s) DragMode.none)
  then match dragLineIdRef s, dragStartRef s with
       | Some id, Some st => Some (id, st)
       | _, _ => None
       end
  else None.

Definition areaDragActive (s : State) : option (Z * AreaDragStart.t) :=
  if (isArea s || isSelect s)
     && negb (DragMode.eqb (areaDragModeRef s) DragMode.none)
  then match areaDragIdRef s, areaDragStartRef s with
       | Some id, Some st => Some (id, st)
       | _, _ => None
       end
  else None.

Definition textDragActive (s : State) : option (Z * TextDragStart.t) :=
  if (isText s || isSelect s)
     && negb (TextDragMode.eqb (textDragModeRef s) TextDragMode.none)
  then match textDragIdRef s, textDragStartRef s with
       | Some id, Some st => Some (id, st)
       | _, _ => None
       end
  else None.

Definition lineDrawing (s : State) : option Z :=
  if isLine s && isDrawingLine s then currentLineId s else None.

Definition areaDrawing (s : State) : option Z :=
  if isArea s && isDrawingArea s then currentAreaId s else None.

(** The callbacks of the two drawing branches. *)
Definition drawLine (cur : Z) (nx ny : R) (line : Line) : Line :=
  if (Line.id line =? cur)%Z
  then Line.mk (Line.id line) (Line.x1 line) (Line.y1 line) nx ny
         (Line.style line) (Line.thickness line) (Line.arrowEnd line)
         (Line.color line)
  else line.

Definition drawArea (cur : Z) (nx ny : R) (area : AreaShape) : AreaShape :=
  if negb (AreaShape.id area =? cur)%Z then area else
  if isFreeform (AreaShape.type area) then
    (* add points progressively *)
    withPoints (AreaShape.points area ++ [Point.mk nx ny]) area
  else
    (* update end corner; [start] is [undefined] on an empty array *)
    match AreaShape.points area with
    | start :: _ => withPoints [start; Point.mk nx ny] area
    | [] => area
    end.

(** [handleMouseMove]: the pointer-move of the viewer, its update applied
    before the next event is handled.  The drag branches pass to the update
    the drag id and mode of the state of the event; see
    [handleMouseMoveDeferred] below for an update that runs later. *)
Definition handleMouseMove (e : MouseEvent) (canvas : option DOMRect)
  : State -> State := fun s =>
  (* HAND TOOL MODE (pan): only scrolls the viewer *)
  if isHand s then s else
  match canvas, canvasSize s with
  | Some rect, Some _ =>
      (* 1) dragging an existing line or handle *)
      match lineDragActive s with
      | Some (dragId, st) =>
          let dxPx := clientX e - LineDragStart.mouseX st in
          let dyPx := clientY e - LineDragStart.mouseY st in
          let dxNorm := dxPx / DOMRect.width rect in
          let dyNorm := dyPx / DOMRect.height rect in
          setLines
            (map (dragLine (dragModeRef s) dragId st dxNorm dyNorm) (lines s)) s
      | None =>
      (* 2) dragging an existing area (move or resize) *)
      match areaDragActive s with
      | Some (dragId, st) =>
          let dxPx := clientX e - AreaDragStart.mouseX st in
          let dyPx := clientY e - AreaDragStart.mouseY st in
          let dxNorm := dxPx / DOMRect.width rect in
          let dyNorm := dyPx / DOMRect.height rect in
          setAreas
            (map (dragArea (areaDragModeRef s) dragId st dxNorm dyNorm)
                 (areas s)) s
      | None =>
      (* 3) dragging a text box (move or resize) *)
      match textDragActive s with
      | Some (dragId, st) =>
          let dxPx := clientX e - TextDragStart.mouseX st in
          let dyPx := clientY e - TextDragStart.mouseY st in
          let dxNorm := dxPx / DOMRect.width rect in
          let dyNorm := dyPx / DOMRect.height rect in
          setTextBoxes
            (map (dragText (textDragModeRef s) dragId st dxNorm dyNorm)
                 (textBoxes s)) s
      | None =>
          let x := clientX e - DOMRect.left rect in
          let y := clientY e - DOMRect.top rect in
          let nx := Rmin 1 (Rmax 0 (x / DOMRect.width rect)) in
          let ny := Rmin 1 (Rmax 0 (y / DOMRect.height rect)) in
          (* 3) drawing a new line *)
          match lineDrawing s with
          | Some cur => setLines (map (drawLine cur nx ny) (lines s)) s
          | None =>
          (* 4) drawing a new area *)
          match areaDrawing s with
          | Some cur => setAreas (map (drawArea cur nx ny) (areas s)) s
          | None => s
          end end
      end end end
  | _, _ => s
  end.

Definition endPanOrDraw : State -> State := fun s =>
  ((* stop panning *)
   (if isHand s then setIsPanningRef false else skip) ;;
   (* stop line drawing/drag *)
   setIsDrawingLine false ;;
   setCurrentLineId None ;;
   setDragModeRef DragMode.none ;;
   setDragLineIdRef None ;;
   setDragStartRef None ;;
   (* stop area drawing/drag *)
   setIsDrawingArea false ;;
   setCurrentAreaId None ;;
   setAreaDragModeRef DragMode.none ;;
   setAreaDragIdRef None ;;
   setAreaDragStartRef None ;;
   (* stop text drag *)
   setTextDragModeRef TextDragMode.none ;;
   setTextDragIdRef None ;;
   setTextDragStartRef None) s.

(** *** When the update of a drag runs

    The updater that a drag branch of [handleMouseMove] hands to [setLines],
    [setAreas] or [setTextBoxes] reads the drag id and the drag mode from the
    refs when React runs it ([line.id !== dragLineIdRef.current],
    [dragModeRef.current === "move"]); the snapshot and the deltas it uses
    are those of the event.  The three updaters, run while the refs hold the
    values of [r]: *)
Definition lineDragUpdater (r : State) (st : LineDragStart.t)
  (dxNorm dyNorm : R) (line : Line) : Line :=
  match dragLineIdRef r with
  | Some dragId => dragLine (dragModeRef r) dragId st dxNorm dyNorm line
  | None => line
  end.

Definition areaDragUpdater (r : State) (st : AreaDragStart.t)
  (dxNorm dyNorm : R) (area : AreaShape) : AreaShape :=
  match areaDragIdRef r with
  | Some dragId => dragArea (areaDragModeRef r) dragId st dxNorm dyNorm area
  | None => area
  end.

Definition textDragUpdater (r : State) (st : TextDragStart.t)
  (dxNorm dyNorm : R) (box : TextBox) : TextBox :=
  match textDragIdRef r with
  | Some dragId => dragText (textDragModeRef r) dragId st dxNorm dyNorm box
  | None => box
  end.

(** [handleMouseMove] above runs the update of a move on the state of the
    event: the update is applied before the next event is handled.
    [handleMouseMoveDeferred e canvas s r] is the general case.  The event
    is handled on [s]: the guards are tested there, and the snapshot, the
    deltas and the ids of the two drawing branches are taken there.  The
    update it queued runs on [r], the state left by the handlers that ran
    before React rendered; [r] is [s] when none did. *)
Definition handleMouseMoveDeferred (e : MouseEvent) (canvas : option DOMRect)
  (s r : State) : State :=
  if isHand s then r else
  match canvas, canvasSize s with
  | Some rect, Some _ =>
      match lineDragActive s with
      | Some (_, st) =>
          let dxPx := clientX e - LineDragStart.mouseX st in
          let dyPx := clientY e - LineDragStart.mouseY st in
          let dxNorm := dxPx / DOMRect.width rect in
          let dyNorm := dyPx / DOMRect.height rect in
          setLines (map (lineDragUpdater r st dxNorm dyNorm) (lines r)) r
      | None =>
      match areaDragActive s with
      | Some (_, st) =>
          let dxPx := clientX e - AreaDragStart.mouseX st in
          let dyPx := clientY e - AreaDragStart.mouseY st in
          let dxNorm := dxPx / DOMRect.width rect in
          let dyNorm := dyPx / DOMRect.height rect in
          setAreas (map (areaDragUpdater r st dxNorm dyNorm) (areas r)) r
      | None =>
      match textDragActive s with
      | Some (_, st) =>
          let dxPx := clientX e - TextDragStart.mouseX st in
          let dyPx := clientY e - TextDragStart.mouseY st in
          let dxNorm := dxPx / DOMRect.width rect in
          let dyNorm := dyPx / DOMRect.height rect in
          setTextBoxes (map (textDragUpdater r st dxNorm dyNorm) (textBoxes r)) r
      | None =>
          let x := clientX e - DOMRect.left rect in
          let y := clientY e - DOMRect.top rect in
          let nx := Rmin 1 (Rmax 0 (x / DOMRect.width rect)) in
          let ny := Rmin 1 (Rmax 0 (y / DOMRect.height rect)) in
          match lineDrawing s with
          | Some cur => setLines (map (drawLine cur nx ny) (lines r)) r
          | None =>
          match areaDrawing s with
          | Some cur => setAreas (map (drawArea cur nx ny) (areas r)) r
          | None => r
          end end
      end end end
  | _, _ => r
  end.

(** *** Selection / drag helpers for lines *)

Definition startLineMove (e : MouseEvent) (canvas : option DOMRect)
  (lineId : Z) : State -> State := fun s =>
  if (negb (isLine s) && negb (isSelect s)) || negb (notNull canvas) then s else
  match find (fun l => (Line.id l =? lineId)%Z) (lines s) with
  | None => s
  | Some line =>
      (setSelectedLineId (Some lineId) ;;
       setSelectedAreaId None ;;
       setLineStyle (Line.style line) ;;
       setLineWidth (Line.thickness line) ;;
       setArrowEnd (Line.arrowEnd line) ;;
       setLineColor (Line.color line) ;;
       setDragModeRef DragMode.move ;;
       setDragLineIdRef (Some lineId) ;;
       setDragStartRef
         (Some (LineDragStart.mk (clientX e) (clientY e)
                  (Line.x1 line) (Line.y1 line) (Line.x2 line) (Line.y2 line)))) s
  end.

(** The [endpoint] argument, ["start" | "end"]. *)
Inductive Endpoint := ep_start | ep_end.

Definition startHandleDrag (e : MouseEvent) (canvas : option DOMRect)
  (lineId : Z) (endpoint : Endpoint) : State -> State := fun s =>
  if (negb (isLine s) && negb (isSelect s)) || negb (notNull canvas) then s else
  match find (fun l => (Line.id l =? lineId)%Z) (lines s) with
  | None => s
  | Some line =>
      (setSelectedLineId (Some lineId) ;;
       setSelectedAreaId None ;;
       setLineStyle (Line.style line) ;;
       setLineWidth (Line.thickness line) ;;
       setArrowEnd (Line.arrowEnd line) ;;
       setLineColor (Line.color line) ;;
       setDragModeRef
         (match endpoint with
          | ep_start => DragMode.start
          | ep_end => DragMode.end_
          end) ;;
       setDragLineIdRef (Some lineId) ;;
       setDragStartRef
         (Some (LineDragStart.mk (clientX e) (clientY e)
                  (Line.x1 line) (Line.y1 line) (Line.x2 line) (Line.y2 line)))) s
  end.

(** *** Selection / drag helpers for areas *)

Definition startAreaMove (e : MouseEvent) (canvas : option DOMRect)
  (areaId : Z) : State -> State := fun s =>
  if (negb (isArea s) && negb (isSelect s)) || negb (notNull canvas) then s else
  match find (fun a => (AreaShape.id a =? areaId)%Z) (areas s) with
  | None => s
  | Some area =>
      (setSelectedAreaId (Some areaId) ;;
       setSelectedLineId None ;;
       setAreaOutlineStyle (AreaShape.outlineStyle area) ;;
       setAreaThickness (AreaShape.thickness area) ;;
       setAreaFillOpacity (AreaShape.fillOpacity area) ;;
       setLineColor (AreaShape.color area) ;;
       setAreaDragModeRef DragMode.move ;;
       setAreaDragIdRef (Some areaId) ;;
       setAreaDragStartRef
         (Some (AreaDragStart.mk (clientX e) (clientY e)
                  (AreaShape.points area)))) s
  end.

Definition startAreaHandleDrag (e : MouseEvent) (canvas : option DOMRect)
  (areaId : Z) (endpoint : Endpoint) : State -> State := fun s =>
  if (negb (isArea s) && negb (isSelect s)) || negb (notNull canvas) then s else
  match find (fun a => (AreaShape.id a =? areaId)%Z) (areas s) with
  | None => s
  | Some area =>
      if isFreeform (AreaShape.type area)
         || (List.length (AreaShape.points area) <? 2)%nat
      then s else
      (setSelectedAreaId (Some areaId) ;;
       setSelectedLineId None ;;
       setAreaOutlineStyle (AreaShape.outlineStyle area) ;;
       setAreaThickness (AreaShape.thickness area) ;;
       setAreaFillOpacity (AreaShape.fillOpacity area) ;;
       setLineColor (AreaShape.color area) ;;
       setAreaDragModeRef
         (match endpoint with
          | ep_start => DragMode.start
          | ep_end => DragMode.end_
          end) ;;
       setAreaDragIdRef (Some areaId) ;;
       setAreaDragStartRef
         (Some (AreaDragStart.mk (clientX e) (clientY e)
                  (AreaShape.points area)))) s
  end.

(** *** The pointer handlers of a text box

    The closures attached to the [div] of [box], to its resize corner and to
    its double click. *)
Definition textBoxMouseDown (e : MouseEvent) (box : TextBox)
  : State -> State := fun s =>
  if negb (isText s) && negb (isSelect s) then s else
  (setSelectedTextId (Some (TextBox.id box)) ;;
   setSelectedLineId None ;;
   setSelectedAreaId None ;;
   setEditingTextId None ;;
   setTextColor (TextBox.textColor box) ;;
   setTextSize (TextBox.fontSize box) ;;
   setTextFont (TextBox.fontFamily box) ;;
   setTextBold (TextBox.bold box) ;;
   setTextItalic (TextBox.italic box) ;;
   setTextUnderline (TextBox.underline box) ;;
   setTextBgColor (TextBox.backgroundColor box) ;;
   setTextBgSolid (TextBox.solidBackground box) ;;
   setTextDragModeRef TextDragMode.move ;;
   setTextDragIdRef (Some (TextBox.id box)) ;;
   setTextDragStartRef
     (Some (TextDragStart.mk (clientX e) (clientY e)
              (TextBox.x box) (TextBox.y box)
              (TextBox.width box) (TextBox.height box)))) s.

Definition textBoxDoubleClick (box : TextBox) : State -> State := fun s =>
  if negb (isText s) && negb (isSelect s) then s else
  (setSelectedTextId (Some (TextBox.id box)) ;;
   setSelectedLineId None ;;
   setSelectedAreaId None ;;
   setEditingTextId (Some (TextBox.id box))) s.

Definition textCornerMouseDown (e : MouseEvent) (box : TextBox)
  : State -> State := fun s =>
  if negb (isText s) && negb (isSelect s) then s else
  (setSelectedTextId (Some (TextBox.id box)) ;;
   setSelectedLineId None ;;
   setSelectedAreaId None ;;
   setEditingTextId None ;;
   setTextDragModeRef TextDragMode.corner ;;
   setTextDragIdRef (Some (TextBox.id box)) ;;
   setTextDragStartRef
     (Some (TextDragStart.mk (clientX e) (clientY e)
              (TextBox.x box) (TextBox.y box)
              (TextBox.width box) (TextBox.height box)))) s.

(** *** Loading a document

    [handleFileChange], from the point where [loadingTask.promise] settles:
    [loaded] is the document when it resolved ([None]: no file was chosen, or
    the promise was rejected and the error logged); [rendered] is the size
    [renderPage] stored with [setCanvasSize], if it got that far. *)
Definition handleFileChange (loaded : option PDFDocumentProxy)
  (rendered : option CanvasSize) : State -> State := fun s =>
  match loaded with
  | None => s
  | Some doc =>
      (setPdfDoc (Some doc) ;;
       setTotalPages (Some (numPages doc)) ;;
       setPageNum 1 ;;
       setScale 1 ;;
       (* Clear annotations when a new PDF is loaded *)
       setLines [] ;;
       setAreas [] ;;
       setSelectedLineId None ;;
       setSelectedAreaId None ;;
       (* await renderPage(doc, 1, 1.0) *)
       match rendered with
       | Some size => setCanvasSize (Some size)
       | None => skip
       end) s
  end.

(** ** Runs of the component *)

(** The events the component reacts to.  A handler attached to a rendered
    text box is addressed by the position [n] of the box in [textBoxes]: its
    closure holds the box of the current render.  The style controls, which
    rewrite style fields and defaults only, the text input, page navigation
    and zoom are not among these actions; [Event] below has them all. *)
Inductive Action :=
| SetTool (t : ToolMode)
| HandleMouseDown (now : Z) (e : MouseEvent) (canvas : option DOMRect)
| HandleMouseMove (e : MouseEvent) (canvas : option DOMRect)
| EndPanOrDraw
| StartLineMove (e : MouseEvent) (canvas : option DOMRect) (lineId : Z)
| StartHandleDrag (e : MouseEvent) (canvas : option DOMRect) (lineId : Z)
    (endpoint : Endpoint)
| StartAreaMove (e : MouseEvent) (canvas : option DOMRect) (areaId : Z)
| StartAreaHandleDrag (e : MouseEvent) (canvas : option DOMRect) (areaId : Z)
    (endpoint : Endpoint)
| TextBoxMouseDown (e : MouseEvent) (n : nat)
| TextBoxDoubleClick (n : nat)
| TextCornerMouseDown (e : MouseEvent) (n : nat)
| DeleteSelected
| DuplicateSelected (now : Z)
| CopySelection
| CutSelection
| PasteClipboard (now : Z)
| HandleFileChange (loaded : option PDFDocumentProxy)
    (rendered : option CanvasSize).

Definition onBox (n : nat) (h : TextBox -> State -> State) : State -> State :=
  fun s =>
    match nth_error (textBoxes s) n with
    | Some box => h box s
    | None => s
    end.

Definition step (a : Action) : State -> State :=
  match a with
  | SetTool t => setTool t
  | HandleMouseDown now e canvas => handleMouseDown now e canvas
  | HandleMouseMove e canvas => handleMouseMove e canvas
  | EndPanOrDraw => endPanOrDraw
  | StartLineMove e canvas lineId => startLineMove e canvas lineId
  | StartHandleDrag e canvas lineId endpoint =>
      startHandleDrag e canvas lineId endpoint
  | StartAreaMove e canvas areaId => startAreaMove e canvas areaId
  | StartAreaHandleDrag e canvas areaId endpoint =>
      startAreaHandleDrag e canvas areaId endpoint
  | TextBoxMouseDown e n => onBox n (textBoxMouseDown e)
  | TextBoxDoubleClick n => onBox n textBoxDoubleClick
  | TextCornerMouseDown e n => onBox n (textCornerMouseDown e)
  | DeleteSelected => deleteSelected
  | DuplicateSelected now => duplicateSelected now
  | CopySelection => copySelection
  | CutSelection => cutSelection
  | PasteClipboard now => pasteClipboard now
  | HandleFileChange loaded rendered => handleFileChange loaded rendered
  end.

Fixpoint run (acts : list Action) (s : State) : State :=
  match acts with
  | [] => s
  | a :: rest => run rest (step a s)
  end.

(** The states a run of actions leaves, from the initial state: some of
    the states the component can be in, see [reachableByHandlers] below. *)
Definition reachable (s : State) : Prop :=
  exists acts, s = run acts initialState.

(** The value an action reads from the clock, for the handlers that call
    [Date.now()]. *)
Definition clockOf (a : Action) : option Z :=
  match a with
  | HandleMouseDown now _ _ => Some now
  | DuplicateSelected now => Some now
  | PasteClipboard now => Some now
  | _ => None
  end.

Fixpoint clocks (acts : list Action) : list Z :=
  match acts with
  | [] => []
  | a :: rest =>
      match clockOf a with
      | Some now => now :: clocks rest
      | None => clocks rest
      end
  end.

(** The id minted by an action, observed on the collections: the id of the
    last entry of the collection that got longer. *)
Definition lastId {A} (idOf : A -> Z) (l : list A) : option Z :=
  match rev l with
  | x :: _ => Some (idOf x)
  | [] => None
  end.

Definition minted (s s' : State) : option Z :=
  if (List.length (lines s) <? List.length (lines s'))%nat
  then lastId Line.id (lines s')
  else if (List.length (areas s) <? List.length (areas s'))%nat
  then lastId AreaShape.id (areas s')
  else if (List.length (textBoxes s) <? List.length (textBoxes s'))%nat
  then lastId TextBox.id (textBoxes s')
  else None.

Definition mintedBy (a : Action) (s : State) : option Z :=
  minted s (step a s).

Fixpoint mintedIds (acts : list Action) (s : State) : list Z :=
  match acts with
  | [] => []
  | a :: rest =>
      match mintedBy a s with
      | Some i => i :: mintedIds rest (step a s)
      | None => mintedIds rest (step a s)
      end
  end.

(** A sequence of pointer moves, each with the rectangle of the canvas at
    the time of the event. *)
Fixpoint mouseMoves (evs : list (MouseEvent * DOMRect)) (s : State) : State :=
  match evs with
  | [] => s
  | (e, rect) :: rest => mouseMoves rest (handleMouseMove e (Some rect) s)
  end.

(** The positional fields of the entities of a state. *)
Definition inUnit (v : R) : Prop := 0 <= v <= 1.

Definition lineInUnit (l : Line) : Prop :=
  inUnit (Line.x1 l) /\ inUnit (Line.y1 l)
  /\ inUnit (Line.x2 l) /\ inUnit (Line.y2 l).

Definition areaInUnit (a : AreaShape) : Prop :=
  Forall (fun p => inUnit (Point.x p) /\ inUnit (Point.y p)) (AreaShape.points a).

Definition textInUnit (b : TextBox) : Prop :=
  inUnit (TextBox.x b) /\ inUnit (TextBox.y b)
  /\ inUnit (TextBox.width b) /\ inUnit (TextBox.height b).

Definition normalized (s : State) : Prop :=
  Forall lineInUnit (lines s) /\ Forall areaInUnit (areas s)
  /\ Forall textInUnit (textBoxes s).

(** The ids selected in a state, over the three collections. *)
Definition selectedIds (s : State) : list Z :=
  let cell (c : option Z) := match c with Some i => [i] | None => [] end in
  cell (selectedLineId s) ++ cell (selectedAreaId s) ++ cell (selectedTextId s).

(** A drag is under way: the guard of one of the three drag branches of
    [handleMouseMove] holds. *)
Definition dragActive (s : State) : bool :=
  notNull (lineDragActive s) || notNull (areaDragActive s)
  || notNull (textDragActive s).

(** Every selected id is the id of an entry of its collection. *)
Definition selectionPresent (s : State) : bool :=
  match selectedLineId s with
  | Some i => existsb (fun l => (Line.id l =? i)%Z) (lines s)
  | None => true
  end
  && match selectedAreaId s with
     | Some i => existsb (fun a => (AreaShape.id a =? i)%Z) (areas s)
     | None => true
     end
  && match selectedTextId s with
     | Some i => existsb (fun b => (TextBox.id b =? i)%Z) (textBoxes s)
     | None => true
     end.

(** What an action may do to a collection: leave it no longer than it was,
    or append one entity whose id is the reading of the clock. *)
Definition grows {A} (idOf : A -> Z) (clock : option Z) (old new : list A)
  : Prop :=
  (List.length new <= List.length old)%nat
  \/ exists x, new = old ++ [x] /\ clock = Some (idOf x).

(** ** Example runs

    A page of 800 by 1000 pixels whose canvas sits at the origin of the
    viewport. *)
Definition page : DOMRect := DOMRect.mk 0 0 800 1000.

Definition openPage : list Action :=
  [HandleFileChange (Some (mkDoc 1)) (Some (mkCanvasSize 800 1000))].

(** With the line tool, press at (80,100) while the clock reads [now], draw
    to (160,200) and release: a line from (0.1,0.1) to (0.2,0.2). *)
Definition drawLineAt (now : Z) : list Action :=
  [SetTool ToolMode.line;
   HandleMouseDown now (mkMouseEvent 80 100) (Some page);
   HandleMouseMove (mkMouseEvent 160 200) (Some page);
   EndPanOrDraw].

(** With the text tool, press at (400,500) while the clock reads [now]. *)
Definition placeTextAt (now : Z) : list Action :=
  [SetTool ToolMode.text;
   HandleMouseDown now (mkMouseEvent 400 500) (Some page);
   EndPanOrDraw].

(** A line is drawn at 1 and a text box placed at 2, which is left
    selected; then, with the select tool, the line is pressed at (120,150). *)
Definition pressLineAfterText : list Action :=
  openPage ++ drawLineAt 1 ++ placeTextAt 2
  ++ [SetTool ToolMode.select;
      StartLineMove (mkMouseEvent 120 150) (Some page) 1].

(** A line is drawn at 5; then, with the select tool, it is pressed at
    (120,150) and the pointer moves to (780,150), inside the page. *)
Definition dragLineRight : list Action :=
  openPage ++ drawLineAt 5
  ++ [SetTool ToolMode.select;
      StartLineMove (mkMouseEvent 120 150) (Some page) 5;
      HandleMouseMove (mkMouseEvent 780 150) (Some page)].

(** ** Further helpers of the overlay *)

(** [getDashArray(style, width)], the pattern kept as the list of its
    numbers; [None] is [undefined]. *)
Definition getDashArray (style : LineStyle) (width : R) : option (list R) :=
  match style with
  | LineStyle.solid => None
  | LineStyle.dashed => Some [4 * width; 2 * width]
  | LineStyle.dotted => Some [width; width * 2]
  | LineStyle.dotdash => Some [width; width * 1.5; 4 * width; width * 1.5]
  | LineStyle.wavy => None (* handled separately *)
  end.

(** [getOutlineDashArray(style, width)]. *)
Definition getOutlineDashArray (style : OutlineStyle) (width : R)
  : option (list R) :=
  match style with
  | OutlineStyle.solid => None
  | OutlineStyle.dashed => Some [4 * width; 2 * width]
  | OutlineStyle.cloud => Some [width * 1.2; width * 1.2]
  | OutlineStyle.zigzag => Some [6 * width; 2 * width]
  end.

(** [getArrowPoints(x1, y1, x2, y2, size)]: the three corners of the
    polygon, the tip first. *)
Definition getArrowPoints (x1 y1 x2 y2 size : R) : list (R * R) :=
  let dx := x2 - x1 in
  let dy := y2 - y1 in
  let len := orOne (hypot dx dy) in
  let ux := dx / len in
  let uy := dy / len in
  let backX := x2 - ux * size in
  let backY := y2 - uy * size in
  let perpX := - uy in
  let perpY := ux in
  let leftX := backX + perpX * (size * 0.6) in
  let leftY := backY + perpY * (size * 0.6) in
  let rightX := backX - perpX * (size * 0.6) in
  let rightY := backY - perpY * (size * 0.6) in
  [(x2, y2); (leftX, leftY); (rightX, rightY)].

(** What the [lines.map] of the overlay draws for a line: its main element,
    a path for a wavy line and a straight line otherwise, and the arrowhead
    when the line has one. *)
Inductive LineElement :=
| WavyEl (d : option (list PathCmd))
| StraightEl (x1 y1 x2 y2 : R) (strokeDasharray : option (list R)).

Definition lineMainElement (canvasSize : CanvasSize) (line : Line)
  : LineElement :=
  let x1 := Line.x1 line * cs_width canvasSize in
  let y1 := Line.y1 line * cs_height canvasSize in
  let x2 := Line.x2 line * cs_width canvasSize in
  let y2 := Line.y2 line * cs_height canvasSize in
  let strokeDasharray := getDashArray (Line.style line) (Line.thickness line) in
  match Line.style line with
  | LineStyle.wavy => WavyEl (makeWavyPath x1 y1 x2 y2 4 14)
  | _ => StraightEl x1 y1 x2 y2 strokeDasharray
  end.

Definition lineArrowhead (canvasSize : CanvasSize) (line : Line)
  : option (list (R * R)) :=
  let x1 := Line.x1 line * cs_width canvasSize in
  let y1 := Line.y1 line * cs_height canvasSize in
  let x2 := Line.x2 line * cs_width canvasSize in
  let y2 := Line.y2 line * cs_height canvasSize in
  if Line.arrowEnd line
  then Some (getArrowPoints x1 y1 x2 y2 (6 + Line.thickness line))
  else None.

(** The geometry in the [style] of the [div] of a text box, by the
    [textBoxes.map] of the overlay: [top], [left], [width], [minHeight],
    [padding] and the width of [border].  [height] is given as [minHeight];
    the padding and the border come on top of [width] and [minHeight]. *)
Record TextBoxStyle := mkTextBoxStyle {
  st_top : R;
  st_left : R;
  st_width : R;
  st_minHeight : R;
  st_padding : R;
  st_borderWidth : R
}.

Definition textBoxStyle (canvasSize : CanvasSize) (box : TextBox)
  : TextBoxStyle :=
  let top := TextBox.y box * cs_height canvasSize in
  let left := TextBox.x box * cs_width canvasSize in
  let width := TextBox.width box * cs_width canvasSize in
  let height := TextBox.height box * cs_height canvasSize in
  mkTextBoxStyle top left width height 4 1.

(** ** Further handlers *)

(** [handleKeyDown]: [key] is [e.key]. *)
Definition handleKeyDown (key : string) : State -> State := fun s =>
  if negb (String.eqb key "Delete") && negb (String.eqb key "Backspace")
  then s else deleteSelected s.

(** *** Navigation

    [renderPage] is taken by what it leaves in the state: [rendered] is the
    size it stored with [setCanvasSize], [None] when it returned or failed
    before that. *)
Definition renderPage (rendered : option CanvasSize) : State -> State :=
  match rendered with
  | Some size => setCanvasSize (Some size)
  | None => skip
  end.

(** [!totalPages]: [null] and [0] are falsy. *)
Definition noPages (totalPages : option Z) : bool :=
  match totalPages with
  | Some n => (n =? 0)%Z
  | None => true
  end.

Definition goToPage (newPage : Z) (rendered : option CanvasSize)
  : State -> State := fun s =>
  if negb (notNull (pdfDoc s)) || noPages (totalPages s) then s else
  match totalPages s with
  | None => s
  | Some total =>
      if (newPage <? 1)%Z || (newPage >? total)%Z then s else
      (setPageNum newPage ;; renderPage rendered) s
  end.

Definition handlePrev (rendered : option CanvasSize) : State -> State :=
  fun s =>
  if (pageNum s >? 1)%Z && notNull (pdfDoc s)
  then goToPage (pageNum s - 1) rendered s
  else s.

Definition handleNext (rendered : option CanvasSize) : State -> State :=
  fun s =>
  match totalPages s with
  | Some total =>
      if notNull (pdfDoc s) && negb (noPages (totalPages s))
         && (pageNum s <? total)%Z
      then goToPage (pageNum s + 1) rendered s
      else s
  | None => s
  end.

(** [handleGoTo]: [value] is the number [parseInt] read from the input,
    [None] when the input is not mounted or the result is [NaN]. *)
Definition handleGoTo (value : option Z) (rendered : option CanvasSize)
  : State -> State := fun s =>
  match value with
  | Some v => goToPage v rendered s
  | None => s
  end.

(** *** Zoom helpers *)

Definition applyZoom (newScale : R) (rendered : option CanvasSize)
  : State -> State := fun s =>
  if negb (notNull (pdfDoc s)) then s else
  let clamped := Rmin 3 (Rmax 0.25 newScale) in
  if Req_dec_T clamped (scale s) then s else
  (setScale clamped ;; renderPage rendered) s.

Definition handleZoomOut (rendered : option CanvasSize) : State -> State :=
  fun s =>
  if negb (notNull (pdfDoc s)) then s else
  applyZoom (scale s - 0.25) rendered s.

Definition handleZoomIn (rendered : option CanvasSize) : State -> State :=
  fun s =>
  if negb (notNull (pdfDoc s)) then s else
  applyZoom (scale s + 0.25) rendered s.

(** [handleWheel]: [deltaY] is [e.deltaY]. *)
Definition handleWheel (deltaY : R) (rendered : option CanvasSize)
  : State -> State := fun s =>
  if negb (isHand s) || negb (notNull (pdfDoc s)) then s else
  let zoomStep := 0.1 in
  let direction := if Rgtb deltaY 0 then - zoomStep else zoomStep in
  applyZoom (scale s + direction) rendered s.

(** *** Line style / color / thickness affecting the selected line *)

Definition lineWithStyle (style : LineStyle) (line : Line) : Line :=
  Line.mk (Line.id line) (Line.x1 line) (Line.y1 line) (Line.x2 line)
    (Line.y2 line) style (Line.thickness line) (Line.arrowEnd line)
    (Line.color line).

Definition lineWithColor (color : string) (line : Line) : Line :=
  Line.mk (Line.id line) (Line.x1 line) (Line.y1 line) (Line.x2 line)
    (Line.y2 line) (Line.style line) (Line.thickness line)
    (Line.arrowEnd line) color.

Definition lineWithThickness (width : R) (line : Line) : Line :=
  Line.mk (Line.id line) (Line.x1 line) (Line.y1 line) (Line.x2 line)
    (Line.y2 line) (Line.style line) width (Line.arrowEnd line)
    (Line.color line).

Definition lineWithArrowEnd (value : bool) (line : Line) : Line :=
  Line.mk (Line.id line) (Line.x1 line) (Line.y1 line) (Line.x2 line)
    (Line.y2 line) (Line.style line) (Line.thickness line) value
    (Line.color line).

Definition areaWithColor (color : string) (area : AreaShape) : AreaShape :=
  AreaShape.mk (AreaShape.id area) (AreaShape.type area)
    (AreaShape.points area) (AreaShape.outlineStyle area)
    (AreaShape.thickness area) color (AreaShape.fillOpacity area).

(** [prev.map(line => line.id === selectedLineId ? f(line) : line)] under
    [if (selectedLineId !== null)]. *)
Definition onSelectedLine (f : Line -> Line) : State -> State := fun s =>
  match selectedLineId s with
  | Some sel =>
      setLines (map (fun line => if (Line.id line =? sel)%Z then f line
                                 else line) (lines s)) s
  | None => s
  end.

Definition onSelectedArea (f : AreaShape -> AreaShape) : State -> State :=
  fun s =>
  match selectedAreaId s with
  | Some sel =>
      setAreas (map (fun area => if (AreaShape.id area =? sel)%Z then f area
                                 else area) (areas s)) s
  | None => s
  end.

Definition handleChangeLineStyle (style : LineStyle) : State -> State :=
  setLineStyle style ;; onSelectedLine (lineWithStyle style).

Definition handleChangeLineColor (color : string) : State -> State :=
  setLineColor color ;; onSelectedLine (lineWithColor color) ;;
  onSelectedArea (areaWithColor color).

Definition handleChangeLineWidth (width : R) : State -> State :=
  setLineWidth width ;; onSelectedLine (lineWithThickness width).

Definition handleChangeArrowEnd (value : bool) : State -> State :=
  setArrowEnd value ;; onSelectedLine (lineWithArrowEnd value).

(** *** Area style helpers *)

Definition copyAreaStyleFromSelection : State -> State := fun s =>
  match selectedAreaId s with
  | None => s
  | Some sel =>
      match find (fun a => (AreaShape.id a =? sel)%Z) (areas s) with
      | None => s
      | Some area =>
          (setAreaOutlineStyle (AreaShape.outlineStyle area) ;;
           setAreaThickness (AreaShape.thickness area) ;;
           setAreaFillOpacity (AreaShape.fillOpacity area) ;;
           setLineColor (AreaShape.color area)) s
      end
  end.

(** *** Text style

    [applyTextStyleToSelection(partial)]: [partial] is the update
    [box => ({ ...box, ...partial })]. *)
Definition applyTextStyleToSelection (partial : TextBox -> TextBox)
  : State -> State := fun s =>
  match selectedTextId s with
  | None => s
  | Some sel =>
      setTextBoxes (map (fun box => if (TextBox.id box =? sel)%Z
                                    then partial box else box)
                        (textBoxes s)) s
  end.

Definition boxWithBold (next : bool) (box : TextBox) : TextBox :=
  TextBox.mk (TextBox.id box) (TextBox.x box) (TextBox.y box)
    (TextBox.width box) (TextBox.height box) (TextBox.text box)
    (TextBox.textColor box) (TextBox.fontSize box) (TextBox.fontFamily box)
    next (TextBox.italic box) (TextBox.underline box)
    (TextBox.backgroundColor box) (TextBox.solidBackground box).

Definition handleToggleTextBold : State -> State := fun s =>
  let next := negb (textBold s) in
  (applyTextStyleToSelection (boxWithBold next) ;; setTextBold next) s.

Definition boxWithTextColor (color : string) (box : TextBox) : TextBox :=
  TextBox.mk (TextBox.id box) (TextBox.x box) (TextBox.y box)
    (TextBox.width box) (TextBox.height box) (TextBox.text box) color
    (TextBox.fontSize box) (TextBox.fontFamily box) (TextBox.bold box)
    (TextBox.italic box) (TextBox.underline box) (TextBox.backgroundColor box)
    (TextBox.solidBackground box).

Definition boxWithFontFamily (font : TextFont) (box : TextBox) : TextBox :=
  TextBox.mk (TextBox.id box) (TextBox.x box) (TextBox.y box)
    (TextBox.width box) (TextBox.height box) (TextBox.text box)
    (TextBox.textColor box) (TextBox.fontSize box) font (TextBox.bold box)
    (TextBox.italic box) (TextBox.underline box) (TextBox.backgroundColor box)
    (TextBox.solidBackground box).

Definition boxWithFontSize (size : R) (box : TextBox) : TextBox :=
  TextBox.mk (TextBox.id box) (TextBox.x box) (TextBox.y box)
    (TextBox.width box) (TextBox.height box) (TextBox.text box)
    (TextBox.textColor box) size (TextBox.fontFamily box) (TextBox.bold box)
    (TextBox.italic box) (TextBox.underline box) (TextBox.backgroundColor box)
    (TextBox.solidBackground box).

Definition boxWithItalic (next : bool) (box : TextBox) : TextBox :=
  TextBox.mk (TextBox.id box) (TextBox.x box) (TextBox.y box)
    (TextBox.width box) (TextBox.height box) (TextBox.text box)
    (TextBox.textColor box) (TextBox.fontSize box) (TextBox.fontFamily box)
    (TextBox.bold box) next (TextBox.underline box)
    (TextBox.backgroundColor box) (TextBox.solidBackground box).

Definition boxWithUnderline (next : bool) (box : TextBox) : TextBox :=
  TextBox.mk (TextBox.id box) (TextBox.x box) (TextBox.y box)
    (TextBox.width box) (TextBox.height box) (TextBox.text box)
    (TextBox.textColor box) (TextBox.fontSize box) (TextBox.fontFamily box)
    (TextBox.bold box) (TextBox.italic box) next (TextBox.backgroundColor box)
    (TextBox.solidBackground box).

Definition boxWithBackgroundColor (color : string) (box : TextBox) : TextBox :=
  TextBox.mk (TextBox.id box) (TextBox.x box) (TextBox.y box)
    (TextBox.width box) (TextBox.height box) (TextBox.text box)
    (TextBox.textColor box) (TextBox.fontSize box) (TextBox.fontFamily box)
    (TextBox.bold box) (TextBox.italic box) (TextBox.underline box) color
    (TextBox.solidBackground box).

Definition boxWithSolidBackground (next : bool) (box : TextBox) : TextBox :=
  TextBox.mk (TextBox.id box) (TextBox.x box) (TextBox.y box)
    (TextBox.width box) (TextBox.height box) (TextBox.text box)
    (TextBox.textColor box) (TextBox.fontSize box) (TextBox.fontFamily box)
    (TextBox.bold box) (TextBox.italic box) (TextBox.underline box)
    (TextBox.backgroundColor box) next.

Definition boxWithText (value : string) (box : TextBox) : TextBox :=
  TextBox.mk (TextBox.id box) (TextBox.x box) (TextBox.y box)
    (TextBox.width box) (TextBox.height box) value (TextBox.textColor box)
    (TextBox.fontSize box) (TextBox.fontFamily box) (TextBox.bold box)
    (TextBox.italic box) (TextBox.underline box) (TextBox.backgroundColor box)
    (TextBox.solidBackground box).

Definition handleChangeTextColor (color : string) : State -> State :=
  setTextColor color ;; applyTextStyleToSelection (boxWithTextColor color).

Definition handleChangeTextFont (font : TextFont) : State -> State :=
  setTextFont font ;; applyTextStyleToSelection (boxWithFontFamily font).

Definition handleChangeTextSize (size : R) : State -> State :=
  setTextSize size ;; applyTextStyleToSelection (boxWithFontSize size).

Definition handleToggleTextItalic : State -> State := fun s =>
  let next := negb (textItalic s) in
  (applyTextStyleToSelection (boxWithItalic next) ;; setTextItalic next) s.

Definition handleToggleTextUnderline : State -> State := fun s =>
  let next := negb (textUnderline s) in
  (applyTextStyleToSelection (boxWithUnderline next) ;;
   setTextUnderline next) s.

Definition handleChangeTextBgColor (color : string) : State -> State :=
  setTextBgColor color ;;
  applyTextStyleToSelection (boxWithBackgroundColor color).

Definition handleToggleTextBgSolid : State -> State := fun s =>
  let next := negb (textBgSolid s) in
  (applyTextStyleToSelection (boxWithSolidBackground next) ;;
   setTextBgSolid next) s.

(** The [onChange] of the text area of [box]: [value] is [e.target.value]. *)
Definition textAreaChange (value : string) (box : TextBox)
  : State -> State := fun s =>
  setTextBoxes (map (fun b => if (TextBox.id b =? TextBox.id box)%Z
                              then boxWithText value b else b)
                    (textBoxes s)) s.

(** ** All the handlers of the component

    Every handler the component registers, in a toolbar, on the viewer, on
    the overlay or on a text box: the actions above and the controls they
    leave out.  The two handlers that write the hover cells only, which are
    not cells of [State], and the key handler of a text area, which only
    stops the event, change nothing here and have no constructor. *)
Inductive Event :=
| Act (a : Action)
| HandleKeyDown (key : string)
| HandleChangeLineStyle (style : LineStyle)
| HandleChangeLineColor (color : string)
| HandleChangeLineWidth (width : R)
| HandleChangeArrowEnd (value : bool)
| SetAreaShapeType (shape : AreaShapeType)
| SetAreaOutlineStyle (style : OutlineStyle)
| SetAreaThickness (value : R)
| SetAreaFillOpacity (value : R)
| CopyAreaStyleFromSelection
| HandleChangeTextColor (color : string)
| HandleChangeTextFont (font : TextFont)
| HandleChangeTextSize (size : R)
| HandleToggleTextBold
| HandleToggleTextItalic
| HandleToggleTextUnderline
| HandleChangeTextBgColor (color : string)
| HandleToggleTextBgSolid
| TextAreaChange (value : string) (n : nat)
| HandleWheel (deltaY : R) (rendered : option CanvasSize)
| HandlePrev (rendered : option CanvasSize)
| HandleNext (rendered : option CanvasSize)
| HandleGoTo (value : option Z) (rendered : option CanvasSize)
| HandleZoomOut (rendered : option CanvasSize)
| HandleZoomIn (rendered : option CanvasSize).

Definition handle (ev : Event) : State -> State :=
  match ev with
  | Act a => step a
  | HandleKeyDown key => handleKeyDown key
  | HandleChangeLineStyle style => handleChangeLineStyle style
  | HandleChangeLineColor color => handleChangeLineColor color
  | HandleChangeLineWidth width => handleChangeLineWidth width
  | HandleChangeArrowEnd value => handleChangeArrowEnd value
  | SetAreaShapeType shape => setAreaShapeType shape
  | SetAreaOutlineStyle style => setAreaOutlineStyle style
  | SetAreaThickness value => setAreaThickness value
  | SetAreaFillOpacity value => setAreaFillOpacity value
  | CopyAreaStyleFromSelection => copyAreaStyleFromSelection
  | HandleChangeTextColor color => handleChangeTextColor color
  | HandleChangeTextFont font => handleChangeTextFont font
  | HandleChangeTextSize size => handleChangeTextSize size
  | HandleToggleTextBold => handleToggleTextBold
  | HandleToggleTextItalic => handleToggleTextItalic
  | HandleToggleTextUnderline => handleToggleTextUnderline
  | HandleChangeTextBgColor color => handleChangeTextBgColor color
  | HandleToggleTextBgSolid => handleToggleTextBgSolid
  | TextAreaChange value n => onBox n (textAreaChange value)
  | HandleWheel deltaY rendered => handleWheel deltaY rendered
  | HandlePrev rendered => handlePrev rendered
  | HandleNext rendered => handleNext rendered
  | HandleGoTo value rendered => handleGoTo value rendered
  | HandleZoomOut rendered => handleZoomOut rendered
  | HandleZoomIn rendered => handleZoomIn rendered
  end.

Fixpoint runEvents (evs : list Event) (s : State) : State :=
  match evs with
  | [] => s
  | ev :: rest => runEvents rest (handle ev s)
  end.

(** The states the component can be in: those a sequence of its handlers
    leaves, from the initial state. *)
Definition reachableByHandlers (s : State) : Prop :=
  exists evs, s = runEvents evs initialState.

(** ** Invariants *)

(** The entity on the clipboard has its positional fields in [0,1]. *)
Definition clipNormalized (s : State) : Prop :=
  match clipboard s with
  | Some (ClipLine line) => lineInUnit line
  | Some (ClipArea area) => areaInUnit area
  | Some (ClipText box) => textInUnit box
  | None => True
  end.

(** The page shown is a page of the document. *)
Definition pageInRange (s : State) : Prop :=
  match totalPages s with
  | Some total => (1 <= pageNum s <= total)%Z
  | None => True
  end.

Definition scaleInRange (s : State) : Prop := 0.25 <= scale s <= 3.

(** The pointer position of an event cut to the canvas, as a point of the
    unit square: [nx], [ny] of the drawing branches of [handleMouseMove]. *)
Definition pointerPoint (e : MouseEvent) (rect : DOMRect) : Point :=
  let x := clientX e - DOMRect.left rect in
  let y := clientY e - DOMRect.top rect in
  Point.mk (Rmin 1 (Rmax 0 (x / DOMRect.width rect)))
           (Rmin 1 (Rmax 0 (y / DOMRect.height rect))).

(** The actions that write only positions cut to the unit square: every
    action but a pointer move during a drag, a press on a canvas of no
    extent, and the placing of a text box on a canvas smaller than the
    default box of 200 by 60 pixels. *)
Definition writesInUnit (a : Action) (s : State) : Prop :=
  match a with
  | HandleMouseMove _ _ => dragActive s = false
  | HandleMouseDown _ _ (Some rect) =>
      0 < DOMRect.width rect /\ 0 < DOMRect.height rect
      /\ (isText s = true ->
          200 <= DOMRect.width rect /\ 60 <= DOMRect.height rect)
  | _ => True
  end.

(** ** Drawing, in closed form *)

(** The points of the unit square visited by a sequence of pointer moves. *)
Definition pointerPoints (evs : list (MouseEvent * DOMRect)) : list Point :=
  map (fun ev => pointerPoint (fst ev) (snd ev)) evs.

(** An area after the drawing of the area [cur] went through the points
    [pts]: a freeform area has them appended, another shape keeps its first
    point and takes the last of them as its second. *)
Definition areaDrawn (cur : Z) (pts : list Point) (area : AreaShape)
  : AreaShape :=
  if negb (AreaShape.id area =? cur)%Z then area else
  if isFreeform (AreaShape.type area)
  then withPoints (AreaShape.points area ++ pts) area
  else match rev pts, AreaShape.points area with
       | p :: _, start :: _ => withPoints [start; p] area
       | _, _ => area
       end.

(** A line after the drawing of the line [cur] went through [pts]: its
    second endpoint is the last of them. *)
Definition lineDrawn (cur : Z) (pts : list Point) (line : Line) : Line :=
  match rev pts with
  | p :: _ => drawLine cur (Point.x p) (Point.y p) line
  | [] => line
  end.

(** ** Example states

    The page of 800 by 1000 pixels loaded, with a tool chosen. *)
Definition loadedPage (t : ToolMode) : State :=
  run (openPage ++ [SetTool t]) initialState.

(** * Properties *)

(** ** Numbers *)

Lemma round_IZR (n : Z) : round (IZR n) = n.
Proof.
  unfold round. symmetry. apply Int_part_spec. lra.
Qed.

Lemma hypot_axis (a : R) : 0 <= a -> hypot a 0 = a.
Proof.
  intros Ha. unfold hypot.
  replace (a * a + 0 * 0) with (a * a) by lra.
  now apply sqrt_square.
Qed.

Lemma hypot_0_0 : hypot 0 0 = 0.
Proof. apply hypot_axis. lra. Qed.

Lemma hypot_swap (a b : R) : hypot (- a) (- b) = hypot a b.
Proof. unfold hypot. f_equal. lra. Qed.

Lemma hypot_3_4 (a b c : R) :
  0 <= c -> a * a + b * b = c * c -> hypot a b = c.
Proof.
  intros Hc H. unfold hypot. rewrite H. now apply sqrt_square.
Qed.

Lemma hypot_sqr (a b : R) : hypot a b * hypot a b = a * a + b * b.
Proof. unfold hypot. apply sqrt_sqrt. nra. Qed.

Lemma orOne_pos (v : R) : 0 < v -> orOne v = v.
Proof. intros H. unfold orOne. destruct (Req_dec_T v 0); lra. Qed.

Lemma orOne_0 : orOne 0 = 1.
Proof. unfold orOne. destruct (Req_dec_T 0 0); lra. Qed.

Lemma Rltb_true (a b : R) : a < b -> Rltb a b = true.
Proof. intros H. unfold Rltb. destruct (Rlt_dec a b); [reflexivity | lra]. Qed.

Lemma Rltb_false (a b : R) : b <= a -> Rltb a b = false.
Proof. intros H. unfold Rltb. destruct (Rlt_dec a b); [lra | reflexivity]. Qed.

(** ** The loop counter *)

Lemma upto_length (n : Z) : List.length (upto n) = Z.to_nat n.
Proof. unfold upto. now rewrite length_map, length_seq. Qed.

Lemma upto_nth (n i : Z) :
  (1 <= i <= n)%Z -> nth_error (upto n) (Z.to_nat (i - 1)) = Some i.
Proof.
  intros Hi. unfold upto.
  rewrite nth_error_map, nth_error_seq.
  assert (H : (Z.to_nat (i - 1) <? Z.to_nat n)%nat = true)
    by (apply Nat.ltb_lt; lia).
  rewrite H. simpl. f_equal. lia.
Qed.

(** ** The wavy path *)

Lemma hypot_eq_0 (a b : R) : hypot a b = 0 -> a = 0 /\ b = 0.
Proof.
  unfold hypot. intros H.
  apply sqrt_eq_0 in H; [| nra].
  split; nra.
Qed.

Lemma wavyLength_degenerate (x y : R) : wavyLength x y x y = 1.
Proof.
  unfold wavyLength.
  replace (x - x) with 0 by lra. replace (y - y) with 0 by lra.
  rewrite hypot_0_0. apply orOne_0.
Qed.

Lemma wavyLength_distance (x1 y1 x2 y2 : R) :
  x1 <> x2 \/ y1 <> y2 ->
  wavyLength x1 y1 x2 y2 = hypot (x2 - x1) (y2 - y1).
Proof.
  intros Hne. unfold wavyLength. cbv zeta. unfold orOne.
  destruct (Req_dec_T (hypot (x2 - x1) (y2 - y1)) 0) as [E | _];
    [| reflexivity].
  apply hypot_eq_0 in E. destruct E, Hne; lra.
Qed.

Lemma wavySegments_example : wavySegments 0 0 120 0 12 = 10%Z.
Proof.
  unfold wavySegments, wavyLength. cbv zeta.
  replace (0 - 0) with 0 by lra. replace (120 - 0) with 120 by lra.
  rewrite hypot_axis by lra. rewrite orOne_pos by lra.
  replace (120 / 12) with (IZR 10) by lra.
  rewrite round_IZR. reflexivity.
Qed.

(** C8.  For a wavelength other than [0] the generator returns a path that
    starts at the first endpoint and has [max(2, round(length / wavelength))]
    curves, where [length] is the distance of the endpoints, and [1] when
    they coincide.  The [i]-th curve ends [i] equal steps from the start, and
    its control point is that end moved along the normal of the segment by
    [+amplitude] when [i] is odd and by [-amplitude] when [i] is even.
    Between (0,0) and (120,0) with wavelength 12 the path has 10 curves, the
    first one with the offset [+amplitude]. *)
Theorem makeWavyPath_alternates (x1 y1 x2 y2 amplitude wavelength : R) :
  wavelength <> 0 ->
  let len := wavyLength x1 y1 x2 y2 in
  let n := wavySegments x1 y1 x2 y2 wavelength in
  (x1 = x2 /\ y1 = y2 -> len = 1)
  /\ (x1 <> x2 \/ y1 <> y2 -> len = hypot (x2 - x1) (y2 - y1))
  /\ n = Z.max 2 (round (len / wavelength))
  /\ (exists curves,
        makeWavyPath x1 y1 x2 y2 amplitude wavelength
        = Some (M x1 y1 :: curves)
        /\ Z.of_nat (List.length curves) = n
        /\ forall i, (1 <= i <= n)%Z ->
             let px := x1 + (x2 - x1) / IZR n * IZR i in
             let py := y1 + (y2 - y1) / IZR n * IZR i in
             let offset := if Z.odd i then amplitude else - amplitude in
             nth_error curves (Z.to_nat (i - 1))
             = Some (Q (px + - (y2 - y1) / len * offset)
                       (py + (x2 - x1) / len * offset) px py))
  /\ (exists curves,
        makeWavyPath 0 0 120 0 amplitude 12 = Some (M 0 0 :: curves)
        /\ List.length curves = 10%nat
        /\ nth_error curves 0 = Some (Q 12 amplitude 12 0)
        /\ nth_error curves 1 = Some (Q 24 (- amplitude) 24 0)).
Proof.
  intros Hw len n. repeat split.
  - intros [-> ->]. apply wavyLength_degenerate.
  - apply wavyLength_distance.
  - unfold makeWavyPath.
    destruct (Req_dec_T wavelength 0) as [E | _]; [contradiction |].
    cbv zeta. fold len. fold n.
    eexists. split; [reflexivity |]. split.
    + rewrite length_map, upto_length.
      assert (2 <= n)%Z by (unfold n, wavySegments; cbv zeta; lia). lia.
    + intros i Hi. cbv zeta.
      rewrite nth_error_map, upto_nth by exact Hi. simpl.
      rewrite <- Z.negb_even. destruct (Z.even i); simpl; do 2 f_equal; lra.
  - unfold makeWavyPath.
    destruct (Req_dec_T 12 0) as [E | _]; [lra |].
    cbv zeta. rewrite wavySegments_example.
    replace (upto 10) with [1; 2; 3; 4; 5; 6; 7; 8; 9; 10]%Z by reflexivity.
    assert (Hlen : wavyLength 0 0 120 0 = 120).
    { rewrite wavyLength_distance by (left; lra).
      replace (0 - 0) with 0 by lra. replace (120 - 0) with 120 by lra.
      apply hypot_axis. lra. }
    rewrite Hlen.
    eexists. split; [reflexivity |]. split; [reflexivity |].
    split; simpl; do 2 f_equal; lra.
Qed.

(** The call of C8's example, with the default amplitude of the source. *)
Lemma makeWavyPath_alternates_witness :
  12 <> 0
  /\ exists curves,
       makeWavyPath 0 0 120 0 4 12 = Some (M 0 0 :: curves)
       /\ List.length curves = 10%nat
       /\ nth_error curves 0 = Some (Q 12 4 12 0)
       /\ nth_error curves 1 = Some (Q 24 (- 4) 24 0).
Proof.
  assert (H : 12 <> 0) by lra.
  split; [exact H |].
  exact (proj2 (proj2 (proj2 (proj2
           (makeWavyPath_alternates 0 0 120 0 4 12 H))))).
Defined.

(** ** Rectangles and circles *)

Ltac Rcases :=
  unfold Rmin, Rmax, Rabs in *;
  repeat match goal with
    | |- context [Rle_dec ?a ?b] => destruct (Rle_dec a b)
    | |- context [Rcase_abs ?a] => destruct (Rcase_abs a)
    | H : context [Rle_dec ?a ?b] |- _ =>
        revert H; destruct (Rle_dec a b); intro
    end.

Lemma rect_of_corners (w h : R) :
  0 <= w -> 0 <= h ->
  RectEl (Rmin (0.2 * w) (0.6 * w)) (Rmin (0.2 * h) (0.5 * h))
         (Rabs (0.6 * w - 0.2 * w)) (Rabs (0.5 * h - 0.2 * h))
  = RectEl (0.2 * w) (0.2 * h) (0.4 * w) (0.3 * h).
Proof. intros Hw Hh. f_equal; Rcases; lra. Qed.

Lemma circle_of_corners (w : R) :
  0 <= w ->
  CircleEl ((0.2 * w + 0.6 * w) / 2) ((0.2 * w + 0.5 * w) / 2)
           (hypot (0.6 * w - 0.2 * w) (0.5 * w - 0.2 * w) / 2)
  = CircleEl (0.4 * w) (0.35 * w) (0.25 * w).
Proof.
  intros Hw. f_equal; try lra.
  rewrite (hypot_3_4 _ _ (0.5 * w)); nra.
Qed.

(** C9, the input on which the claim fails.  On the page of 800 by 1000
    pixels the circle with the defining points (0.2,0.2) and (0.6,0.5) has
    its center at (320,350) and a radius [r] with [r * r = 48100]: not a
    quarter of the width, not a quarter of the height, and not 0.25. *)
Lemma circle_radius_on_page :
  exists r,
    areaMainElement (mkCanvasSize 800 1000)
      (AreaShape.mk 1 AreaShapeType.circle
         [Point.mk 0.2 0.2; Point.mk 0.6 0.5]
         OutlineStyle.solid 2 "#f97316" 0.2)
    = Some (CircleEl 320 350 r)
    /\ r * r = 48100
    /\ r <> 0.25 * 800 /\ r <> 0.25 * 1000 /\ r <> 0.25.
Proof.
  exists (hypot (0.6 * 800 - 0.2 * 800) (0.5 * 1000 - 0.2 * 1000) / 2).
  assert (H : hypot (0.6 * 800 - 0.2 * 800) (0.5 * 1000 - 0.2 * 1000) / 2
              * (hypot (0.6 * 800 - 0.2 * 800) (0.5 * 1000 - 0.2 * 1000) / 2)
              = 48100).
  { pose proof (hypot_sqr (0.6 * 800 - 0.2 * 800)
                  (0.5 * 1000 - 0.2 * 1000)) as Hs.
    lra. }
  split; [| split; [exact H |]].
  - unfold areaMainElement. simpl. do 2 f_equal; lra.
  - repeat split; intros E; rewrite E in H; lra.
Qed.

(** C9, amended.  The element drawn for a rectangle or a circle is the same
    when its two defining points are swapped.  Both are computed on the
    points scaled to the canvas of [w] by [h] pixels: the rectangle is
    [(min x, min y, |dx|, |dy|)], the circle has the midpoint as center and
    half the distance, in pixels, as radius.  From (0.2,0.2) and (0.6,0.5)
    the rectangle is [x = 0.2 w, y = 0.2 h, width = 0.4 w, height = 0.3 h];
    the circle has the center [(0.4 w, 0.35 h)] and the radius
    [hypot (0.4 w) (0.3 h) / 2], which is [0.25 w] exactly when the canvas
    is square.  On the canvas of 1 by 1 these are the values of the
    claim. *)
Theorem areaMainElement_swap (canvasSize : CanvasSize) (id : Z)
  (style : OutlineStyle) (thickness : R) (color : string) (opacity : R)
  (p1 p2 : Point) :
  let w := cs_width canvasSize in
  let h := cs_height canvasSize in
  let shape ty a b :=
    AreaShape.mk id ty [a; b] style thickness color opacity in
  let x1 := Point.x p1 * w in
  let y1 := Point.y p1 * h in
  let x2 := Point.x p2 * w in
  let y2 := Point.y p2 * h in
  let a := Point.mk 0.2 0.2 in
  let b := Point.mk 0.6 0.5 in
  areaMainElement canvasSize (shape AreaShapeType.rect p1 p2)
  = areaMainElement canvasSize (shape AreaShapeType.rect p2 p1)
  /\ areaMainElement canvasSize (shape AreaShapeType.rect p1 p2)
     = Some (RectEl (Rmin x1 x2) (Rmin y1 y2) (Rabs (x2 - x1)) (Rabs (y2 - y1)))
  /\ areaMainElement canvasSize (shape AreaShapeType.circle p1 p2)
     = areaMainElement canvasSize (shape AreaShapeType.circle p2 p1)
  /\ areaMainElement canvasSize (shape AreaShapeType.circle p1 p2)
     = Some (CircleEl ((x1 + x2) / 2) ((y1 + y2) / 2)
               (hypot (x2 - x1) (y2 - y1) / 2))
  /\ (0 <= w -> 0 <= h ->
      areaMainElement canvasSize (shape AreaShapeType.rect a b)
      = Some (RectEl (0.2 * w) (0.2 * h) (0.4 * w) (0.3 * h)))
  /\ areaMainElement canvasSize (shape AreaShapeType.circle a b)
     = Some (CircleEl (0.4 * w) (0.35 * h) (hypot (0.4 * w) (0.3 * h) / 2))
  /\ (0 < w -> 0 < h ->
      (hypot (0.4 * w) (0.3 * h) / 2 = 0.25 * w <-> h = w))
  /\ areaMainElement (mkCanvasSize 1 1) (shape AreaShapeType.rect a b)
     = Some (RectEl 0.2 0.2 0.4 0.3)
  /\ areaMainElement (mkCanvasSize 1 1) (shape AreaShapeType.rect b a)
     = Some (RectEl 0.2 0.2 0.4 0.3)
  /\ areaMainElement (mkCanvasSize 1 1) (shape AreaShapeType.circle a b)
     = Some (CircleEl 0.4 0.35 0.25)
  /\ areaMainElement (mkCanvasSize 1 1) (shape AreaShapeType.circle b a)
     = Some (CircleEl 0.4 0.35 0.25).
Proof.
  intros w h shape x1 y1 x2 y2 a b.
  unfold areaMainElement, shape; simpl.
  fold w h. fold x1 y1 x2 y2.
  repeat match goal with |- _ /\ _ => split end.
  - rewrite (Rmin_comm x1 x2), (Rmin_comm y1 y2).
    now rewrite (Rabs_minus_sym x2 x1), (Rabs_minus_sym y2 y1).
  - reflexivity.
  - do 2 f_equal; try lra.
    rewrite <- (hypot_swap (x1 - x2) (y1 - y2)).
    do 2 f_equal; lra.
  - reflexivity.
  - intros Hw Hh. f_equal. now apply rect_of_corners.
  - do 2 f_equal; try lra.
    replace (0.6 * w - 0.2 * w) with (0.4 * w) by lra.
    replace (0.5 * h - 0.2 * h) with (0.3 * h) by lra.
    reflexivity.
  - intros Hw Hh. split.
    + intros E.
      pose proof (hypot_sqr (0.4 * w) (0.3 * h)) as Hs.
      assert (E' : hypot (0.4 * w) (0.3 * h) = 0.5 * w) by lra.
      rewrite E' in Hs. nra.
    + intros ->. rewrite (hypot_3_4 _ _ (0.5 * w)); nra.
  - f_equal. rewrite rect_of_corners by lra. f_equal; lra.
  - f_equal. f_equal; Rcases; lra.
  - f_equal. rewrite circle_of_corners by lra. f_equal; lra.
  - f_equal. f_equal; try lra.
    rewrite (hypot_3_4 _ _ 0.5); lra.
Qed.

(** C9 on a canvas of 800 by 800 pixels: the radius is a quarter of the
    side. *)
Lemma areaMainElement_swap_witness :
  hypot (0.4 * 800) (0.3 * 800) / 2 = 0.25 * 800.
Proof.
  assert (Hw : 0 < cs_width (mkCanvasSize 800 800)) by (simpl; lra).
  assert (Hh : 0 < cs_height (mkCanvasSize 800 800)) by (simpl; lra).
  exact (proj2
           (proj1 (proj2 (proj2 (proj2 (proj2 (proj2 (proj2
              (areaMainElement_swap (mkCanvasSize 800 800) 1
                 OutlineStyle.solid 2 "#f97316" 0.2 (Point.mk 0 0)
                 (Point.mk 0 0)))))))) Hw Hh)
           eq_refl).
Defined.

(** ** Paste *)

(** C10.  A paste leaves the clipboard as it was.  With an empty clipboard
    it changes nothing; otherwise two pastes in a row append two clones of
    the clipboard entity to its collection, each the entity moved by 0.02 and
    cut at 1, and alike in every field but the id. *)
Theorem pasteClipboard_twice (n1 n2 : Z) (s : State) :
  clipboard (pasteClipboard n1 s) = clipboard s
  /\ match clipboard s with
     | None => pasteClipboard n1 s = s
     | Some (ClipLine line) =>
         let moved id :=
           Line.mk id
             (Rmin 1 (Line.x1 line + 0.02)) (Rmin 1 (Line.y1 line + 0.02))
             (Rmin 1 (Line.x2 line + 0.02)) (Rmin 1 (Line.y2 line + 0.02))
             (Line.style line) (Line.thickness line) (Line.arrowEnd line)
             (Line.color line) in
         lines (pasteClipboard n2 (pasteClipboard n1 s))
         = lines s ++ [moved n1; moved n2]
     | Some (ClipArea area) =>
         let moved id :=
           AreaShape.mk id (AreaShape.type area)
             (map (fun p => Point.mk (Rmin 1 (Point.x p + 0.02))
                                     (Rmin 1 (Point.y p + 0.02)))
                  (AreaShape.points area))
             (AreaShape.outlineStyle area) (AreaShape.thickness area)
             (AreaShape.color area) (AreaShape.fillOpacity area) in
         areas (pasteClipboard n2 (pasteClipboard n1 s))
         = areas s ++ [moved n1; moved n2]
     | Some (ClipText box) =>
         let moved id :=
           TextBox.mk id
             (Rmin 1 (TextBox.x box + 0.02)) (Rmin 1 (TextBox.y box + 0.02))
             (TextBox.width box) (TextBox.height box) (TextBox.text box)
             (TextBox.textColor box) (TextBox.fontSize box)
             (TextBox.fontFamily box) (TextBox.bold box) (TextBox.italic box)
             (TextBox.underline box) (TextBox.backgroundColor box)
             (TextBox.solidBackground box) in
         textBoxes (pasteClipboard n2 (pasteClipboard n1 s))
         = textBoxes s ++ [moved n1; moved n2]
     end.
Proof.
  unfold pasteClipboard at 1 2.
  destruct (clipboard s) as [[line | area | box] |] eqn:E;
    cbn; (split; [exact E |]); try reflexivity;
    unfold pasteClipboard; cbn; repeat (rewrite E; cbn);
    first [reflexivity | now rewrite <- app_assoc].
Qed.

(** ** Evaluation of a run on given numbers

    A run is evaluated action by action.  The comparisons of numbers are
    decided by linear arithmetic, and the state reached by an action is
    rebuilt field by field before the next action is taken. *)

Lemma rebuild_id (s : State) : rebuild s = s.
Proof. now destruct s. Qed.

Lemma run_cons (a : Action) (rest : list Action) (s s' : State) :
  rebuild (step a s) = s' -> run (a :: rest) s = run rest s'.
Proof. rewrite rebuild_id. now intros <-. Qed.

Lemma mintedIds_cons (a : Action) (rest : list Action) (s s' : State) :
  rebuild (step a s) = s' ->
  mintedIds (a :: rest) s
  = match minted s s' with Some i => [i] | None => [] end
    ++ mintedIds rest s'.
Proof.
  rewrite rebuild_id. intros <-. cbn [mintedIds]. unfold mintedBy.
  now destruct (minted s (step a s)).
Qed.

Ltac Rtests :=
  unfold Rgtb;
  repeat first [ rewrite Rltb_true by (cbn; lra)
               | rewrite Rltb_false by (cbn; lra) ].

Ltac eval_handlers :=
  repeat (progress
            (try unfold handleMouseDown; try unfold handleMouseMove;
             cbn; Rtests)).

Ltac eval_state := unfold rebuild; cbn [step]; eval_handlers; reflexivity.

Ltac eval_run :=
  unfold pressLineAfterText, dragLineRight, openPage, drawLineAt, placeTextAt,
    page;
  cbn [app];
  repeat (erewrite run_cons by eval_state);
  cbn [run]; eval_handlers.

Ltac eval_minted :=
  unfold openPage, drawLineAt, placeTextAt, page; cbn [app];
  repeat (erewrite mintedIds_cons by eval_state);
  cbn.

(** C3, the input on which the claim fails.  A line is drawn while the clock
    reads 5 and copied; a paste for which the clock still reads 5 appends a
    clone that bears the id of the copied line. *)
Lemma pasteClipboard_same_tick :
  let s := run (openPage ++ drawLineAt 5 ++ [CopySelection]) initialState in
  exists original clone,
    clipboard s = Some (ClipLine original)
    /\ lines (pasteClipboard 5 s) = lines s ++ [clone]
    /\ Line.id clone = Line.id original.
Proof.
  eval_run. do 2 eexists. repeat split.
Qed.

(** C3, amended.  With an empty clipboard a paste changes nothing.
    Otherwise it appends to the collection of the clipboard entity a clone
    whose id is the reading [now] of the clock (distinct from the id of the
    copied entity when the reading is), whose positional fields (both
    endpoints of a line, every point of an area, the origin of a text box)
    are those of the clipboard entity plus 0.02, cut at 1, and whose other
    fields are unchanged; the clone becomes the one selected entity.  A
    clipboard line from (0.1,0.1) to (0.2,0.2) is pasted from (0.12,0.12) to
    (0.22,0.22). *)
Theorem pasteClipboard_clone (now : Z) (s : State) :
  let s' := pasteClipboard now s in
  match clipboard s with
  | None => s' = s
  | Some (ClipLine line) =>
      let clone :=
        Line.mk now
          (Rmin 1 (Line.x1 line + 0.02)) (Rmin 1 (Line.y1 line + 0.02))
          (Rmin 1 (Line.x2 line + 0.02)) (Rmin 1 (Line.y2 line + 0.02))
          (Line.style line) (Line.thickness line) (Line.arrowEnd line)
          (Line.color line) in
      lines s' = lines s ++ [clone]
      /\ areas s' = areas s /\ textBoxes s' = textBoxes s
      /\ selectedLineId s' = Some now
      /\ selectedAreaId s' = None /\ selectedTextId s' = None
      /\ (now <> Line.id line -> Line.id clone <> Line.id line)
      /\ Line.x1 clone <= 1 /\ Line.y1 clone <= 1
      /\ Line.x2 clone <= 1 /\ Line.y2 clone <= 1
  | Some (ClipArea area) =>
      let clone :=
        AreaShape.mk now (AreaShape.type area)
          (map (fun p => Point.mk (Rmin 1 (Point.x p + 0.02))
                                  (Rmin 1 (Point.y p + 0.02)))
               (AreaShape.points area))
          (AreaShape.outlineStyle area) (AreaShape.thickness area)
          (AreaShape.color area) (AreaShape.fillOpacity area) in
      areas s' = areas s ++ [clone]
      /\ lines s' = lines s /\ textBoxes s' = textBoxes s
      /\ selectedAreaId s' = Some now
      /\ selectedLineId s' = None /\ selectedTextId s' = None
      /\ (now <> AreaShape.id area -> AreaShape.id clone <> AreaShape.id area)
      /\ Forall (fun p => Point.x p <= 1 /\ Point.y p <= 1)
           (AreaShape.points clone)
  | Some (ClipText box) =>
      let clone :=
        TextBox.mk now
          (Rmin 1 (TextBox.x box + 0.02)) (Rmin 1 (TextBox.y box + 0.02))
          (TextBox.width box) (TextBox.height box) (TextBox.text box)
          (TextBox.textColor box) (TextBox.fontSize box)
          (TextBox.fontFamily box) (TextBox.bold box) (TextBox.italic box)
          (TextBox.underline box) (TextBox.backgroundColor box)
          (TextBox.solidBackground box) in
      textBoxes s' = textBoxes s ++ [clone]
      /\ lines s' = lines s /\ areas s' = areas s
      /\ selectedTextId s' = Some now
      /\ selectedLineId s' = None /\ selectedAreaId s' = None
      /\ (now <> TextBox.id box -> TextBox.id clone <> TextBox.id box)
      /\ TextBox.x clone <= 1 /\ TextBox.y clone <= 1
  end
  /\ forall id style thickness arrow color,
       lines (pasteClipboard now
                (setClipboard
                   (Some (ClipLine (Line.mk id 0.1 0.1 0.2 0.2 style thickness
                                      arrow color))) s))
       = lines s ++ [Line.mk now 0.12 0.12 0.22 0.22 style thickness arrow
                       color].
Proof.
  split.
  - unfold pasteClipboard.
    destruct (clipboard s) as [[line | area | box] |]; cbn;
      repeat match goal with |- _ /\ _ => split end;
      try reflexivity; try (intros H; exact H); try apply Rmin_l.
    apply Forall_forall. intros p Hp. apply in_map_iff in Hp.
    destruct Hp as [q [<- _]]. cbn. split; apply Rmin_l.
  - intros. unfold pasteClipboard. cbn. do 2 f_equal.
    unfold cloneLine. cbn. f_equal; Rcases; lra.
Qed.

(** C3 at the clipboard line of the claim, pasted while the clock reads 7. *)
Lemma pasteClipboard_clone_witness :
  let original := Line.mk 5 0.1 0.1 0.2 0.2 LineStyle.solid 2 false "#f97316" in
  lines (pasteClipboard 7
           (setClipboard (Some (ClipLine original)) initialState))
  = [Line.mk 7 0.12 0.12 0.22 0.22 LineStyle.solid 2 false "#f97316"].
Proof.
  exact (proj2 (pasteClipboard_clone 7 initialState) 5%Z LineStyle.solid 2
           false "#f97316"%string).
Defined.

(** ** Minted ids *)

Lemma grows_same {A} (idOf : A -> Z) clock (l : list A) :
  grows idOf clock l l.
Proof. left. lia. Qed.

Lemma grows_filter {A} (idOf : A -> Z) clock f (l : list A) :
  grows idOf clock l (filter f l).
Proof. left. apply filter_length_le. Qed.

Lemma grows_map {A} (idOf : A -> Z) clock f (l : list A) :
  grows idOf clock l (map f l).
Proof. left. rewrite length_map. lia. Qed.

Lemma grows_nil {A} (idOf : A -> Z) clock (l : list A) :
  grows idOf clock l [].
Proof. left. cbn. lia. Qed.

Lemma grows_app {A} (idOf : A -> Z) (now : Z) (l : list A) (x : A) :
  idOf x = now -> grows idOf (Some now) l (l ++ [x]).
Proof. intros <-. right. now exists x. Qed.

Create HintDb grows.
#[local] Hint Resolve grows_same grows_filter grows_map grows_nil grows_app
  : grows.

Lemma lastId_app {A} (idOf : A -> Z) (l : list A) (x : A) :
  lastId idOf (l ++ [x]) = Some (idOf x).
Proof. unfold lastId. now rewrite rev_unit. Qed.

Lemma grows_minted {A} (idOf : A -> Z) clock (old new : list A) :
  grows idOf clock old new ->
  (List.length old <? List.length new)%nat = true ->
  lastId idOf new = clock.
Proof.
  intros [Hle | [x [-> ->]]] Hlt.
  - apply Nat.ltb_lt in Hlt. lia.
  - apply lastId_app.
Qed.

Ltac grows_cases :=
  repeat match goal with
    | |- context [match ?x with _ => _ end] => destruct x
    end;
  cbn; repeat split; auto with grows.

(** Copying touches the clipboard only. *)
Lemma copySelection_frame (s : State) :
  lines (copySelection s) = lines s
  /\ areas (copySelection s) = areas s
  /\ textBoxes (copySelection s) = textBoxes s
  /\ selectedLineId (copySelection s) = selectedLineId s
  /\ selectedAreaId (copySelection s) = selectedAreaId s
  /\ selectedTextId (copySelection s) = selectedTextId s
  /\ editingTextId (copySelection s) = editingTextId s.
Proof.
  unfold copySelection.
  repeat match goal with
    | |- context [match ?x with _ => _ end] => destruct x eqn:?
    end; cbn; repeat split; assumption.
Qed.

Lemma deleteSelected_grows (s : State) :
  grows Line.id None (lines s) (lines (deleteSelected s))
  /\ grows AreaShape.id None (areas s) (areas (deleteSelected s))
  /\ grows TextBox.id None (textBoxes s) (textBoxes (deleteSelected s)).
Proof. unfold deleteSelected. grows_cases. Qed.

Lemma step_grows (a : Action) (s : State) :
  grows Line.id (clockOf a) (lines s) (lines (step a s))
  /\ grows AreaShape.id (clockOf a) (areas s) (areas (step a s))
  /\ grows TextBox.id (clockOf a) (textBoxes s) (textBoxes (step a s)).
Proof.
  destruct a; cbn [step clockOf].
  - cbn. auto with grows.
  - unfold handleMouseDown. grows_cases.
  - unfold handleMouseMove. grows_cases.
  - unfold endPanOrDraw. grows_cases.
  - unfold startLineMove. grows_cases.
  - unfold startHandleDrag. grows_cases.
  - unfold startAreaMove. grows_cases.
  - unfold startAreaHandleDrag. grows_cases.
  - unfold onBox, textBoxMouseDown. grows_cases.
  - unfold onBox, textBoxDoubleClick. grows_cases.
  - unfold onBox, textCornerMouseDown. grows_cases.
  - apply deleteSelected_grows.
  - unfold duplicateSelected. grows_cases.
  - unfold copySelection. grows_cases.
  - unfold cutSelection. cbn [seq_].
    destruct (copySelection_frame s) as (El & Ea & Et & _).
    rewrite <- El at 1. rewrite <- Ea at 1. rewrite <- Et at 1.
    apply deleteSelected_grows.
  - unfold pasteClipboard. grows_cases.
  - unfold handleFileChange. grows_cases.
Qed.

Lemma mintedBy_clock (a : Action) (s : State) (i : Z) :
  mintedBy a s = Some i -> clockOf a = Some i.
Proof.
  unfold mintedBy, minted.
  destruct (step_grows a s) as (Hl & Ha & Ht).
  destruct (_ <? List.length (lines _))%nat eqn:El.
  { rewrite (grows_minted _ _ _ _ Hl El). auto. }
  destruct (_ <? List.length (areas _))%nat eqn:Ea.
  { rewrite (grows_minted _ _ _ _ Ha Ea). auto. }
  destruct (_ <? List.length (textBoxes _))%nat eqn:Et.
  { rewrite (grows_minted _ _ _ _ Ht Et). auto. }
  discriminate.
Qed.

Lemma mintedIds_in_clocks (acts : list Action) :
  forall s, incl (mintedIds acts s) (clocks acts).
Proof.
  induction acts as [| a rest IH]; intros s x; cbn [mintedIds clocks].
  - auto.
  - destruct (mintedBy a s) as [i |] eqn:E.
    + rewrite (mintedBy_clock _ _ _ E). intros [<- | Hin].
      * now left.
      * right. eapply IH, Hin.
    + intros Hin. apply IH in Hin.
      destruct (clockOf a); [now right | exact Hin].
Qed.

Lemma clocks_sorted_tail (a : Action) (rest : list Action) :
  StronglySorted Z.lt (clocks (a :: rest)) -> StronglySorted Z.lt (clocks rest).
Proof.
  cbn [clocks]. destruct (clockOf a); [| auto].
  intros H. now inversion H.
Qed.

Lemma increasing_NoDup (l : list Z) : StronglySorted Z.lt l -> NoDup l.
Proof.
  induction 1 as [| x l _ IH Hall]; constructor; [| exact IH].
  intros Hin. rewrite Forall_forall in Hall.
  specialize (Hall x Hin). lia.
Qed.

Lemma mintedIds_sorted (acts : list Action) :
  forall s,
    StronglySorted Z.lt (clocks acts) ->
    StronglySorted Z.lt (mintedIds acts s).
Proof.
  induction acts as [| a rest IH]; intros s Hs; cbn [mintedIds].
  - constructor.
  - pose proof (clocks_sorted_tail _ _ Hs) as Hrest.
    destruct (mintedBy a s) as [i |] eqn:E; [| now apply IH].
    constructor; [now apply IH |].
    cbn [clocks] in Hs. rewrite (mintedBy_clock _ _ _ E) in Hs.
    inversion Hs as [| ? ? _ Hall]; subst.
    rewrite Forall_forall in *. intros x Hx.
    apply Hall. eapply mintedIds_in_clocks, Hx.
Qed.

(** C4, the input on which the claim fails.  A line is drawn while the clock
    reads 5, copied, and pasted while the clock still reads 5: the two
    creations mint the same id. *)
Lemma mintedIds_same_tick :
  let acts := openPage ++ drawLineAt 5 ++ [CopySelection; PasteClipboard 5] in
  mintedIds acts initialState = [5; 5]%Z
  /\ map Line.id (lines (run acts initialState)) = [5; 5]%Z
  /\ ~ NoDup (mintedIds acts initialState).
Proof.
  cbv zeta.
  assert (E : mintedIds
                (openPage ++ drawLineAt 5 ++ [CopySelection; PasteClipboard 5])
                initialState = [5; 5]%Z).
  { eval_minted. reflexivity. }
  rewrite E. repeat split.
  - eval_run. reflexivity.
  - intros H. inversion H as [| ? ? Hnot _]; subst. apply Hnot. now left.
Qed.

(** C4, amended.  The id minted by a creation (of a line, an area or a text
    box, by a duplication or by a paste) is the reading of the clock taken by
    that operation.  So over every sequence of operations whose successive
    clock readings strictly increase, the minted ids are clock readings of
    the sequence, strictly increase in the order of creation, and are
    pairwise distinct. *)
Theorem mintedIds_follow_clock (acts : list Action) (s : State) :
  StronglySorted Z.lt (clocks acts) ->
  incl (mintedIds acts s) (clocks acts)
  /\ StronglySorted Z.lt (mintedIds acts s)
  /\ NoDup (mintedIds acts s).
Proof.
  intros Hs. split; [apply mintedIds_in_clocks |].
  split; [now apply mintedIds_sorted |].
  now apply increasing_NoDup, mintedIds_sorted.
Qed.

(** C4 on a run that draws a line at 5, pastes it at 6 and duplicates the
    copy at 7. *)
Lemma mintedIds_follow_clock_witness :
  let acts :=
    openPage ++ drawLineAt 5
    ++ [CopySelection; PasteClipboard 6; DuplicateSelected 7] in
  StronglySorted Z.lt (clocks acts)
  /\ NoDup (mintedIds acts initialState).
Proof.
  cbv zeta.
  assert (H : StronglySorted Z.lt
                (clocks (openPage ++ drawLineAt 5
                         ++ [CopySelection; PasteClipboard 6;
                             DuplicateSelected 7]))).
  { cbn. repeat constructor; lia. }
  split; [exact H |].
  exact (proj2 (proj2 (mintedIds_follow_clock _ initialState H))).
Defined.

(** ** Drags *)

(** A drag update overwrites what an earlier update of the same drag wrote. *)
Lemma dragLine_overwrites mode id st dx dy dx' dy' (l : Line) :
  dragLine mode id st dx' dy' (dragLine mode id st dx dy l)
  = dragLine mode id st dx' dy' l.
Proof.
  unfold dragLine.
  destruct (Line.id l =? id)%Z eqn:E; cbn; [| now rewrite E].
  destruct mode; cbn; now rewrite E.
Qed.

Lemma dragArea_overwrites mode id st dx dy dx' dy' (a : AreaShape) :
  dragArea mode id st dx' dy' (dragArea mode id st dx dy a)
  = dragArea mode id st dx' dy' a.
Proof.
  unfold dragArea. cbv zeta.
  destruct (AreaShape.id a =? id)%Z eqn:E; cbn; [| now rewrite E].
  destruct mode; cbn; try (now rewrite E);
    destruct (AreaDragStart.points st) as [| p1 [| p2 rest]];
    cbn; try (now rewrite E);
    destruct (isFreeform (AreaShape.type a)) eqn:F; cbn;
    rewrite E; cbn; try rewrite F; reflexivity.
Qed.

Lemma dragText_overwrites mode id st dx dy dx' dy' (b : TextBox) :
  dragText mode id st dx' dy' (dragText mode id st dx dy b)
  = dragText mode id st dx' dy' b.
Proof.
  unfold dragText.
  destruct (TextBox.id b =? id)%Z eqn:E; cbn; [| now rewrite E].
  destruct mode; cbn; now rewrite E.
Qed.

Lemma map_overwrites {A} (f g : A -> A) (l : list A) :
  (forall x, g (f x) = g x) -> map g (map f l) = map g l.
Proof. intros H. rewrite map_map. now apply map_ext. Qed.

(** During a drag a pointer move makes the one before it immaterial. *)
Lemma handleMouseMove_overwrites (e e' : MouseEvent) (rect rect' : DOMRect)
  (s : State) :
  dragActive s = true ->
  handleMouseMove e' (Some rect') (handleMouseMove e (Some rect) s)
  = handleMouseMove e' (Some rect') s.
Proof.
  unfold dragActive. intros Hdrag.
  unfold handleMouseMove at 2.
  destruct (isHand s) eqn:Hhand; [reflexivity |].
  destruct (canvasSize s) as [size |] eqn:Hsize; [| reflexivity].
  destruct (lineDragActive s) as [[id st] |] eqn:Hl.
  { unfold handleMouseMove, lineDragActive, isHand, isLine, isSelect in *.
    cbn. rewrite Hhand, Hsize. cbn in Hl. rewrite Hl.
    cbn. now rewrite map_overwrites by apply dragLine_overwrites. }
  destruct (areaDragActive s) as [[id st] |] eqn:Ha.
  { unfold handleMouseMove, lineDragActive, areaDragActive,
      isHand, isLine, isArea, isSelect in *.
    cbn. rewrite Hhand, Hsize. cbn in Hl, Ha. rewrite Hl, Ha.
    cbn. now rewrite map_overwrites by apply dragArea_overwrites. }
  destruct (textDragActive s) as [[id st] |] eqn:Ht.
  { unfold handleMouseMove, lineDragActive, areaDragActive, textDragActive,
      isHand, isLine, isArea, isText, isSelect in *.
    cbn. rewrite Hhand, Hsize. cbn in Hl, Ha, Ht. rewrite Hl, Ha, Ht.
    cbn. now rewrite map_overwrites by apply dragText_overwrites. }
  discriminate.
Qed.

Lemma handleMouseMove_dragActive (e : MouseEvent) (canvas : option DOMRect)
  (s : State) :
  dragActive (handleMouseMove e canvas s) = dragActive s.
Proof.
  unfold handleMouseMove.
  repeat match goal with
    | |- context [match ?x with _ => _ end] => destruct x
    end; reflexivity.
Qed.

Lemma mouseMoves_last (evs : list (MouseEvent * DOMRect)) :
  forall (e : MouseEvent) (rect : DOMRect) (s : State),
    dragActive s = true ->
    mouseMoves (evs ++ [(e, rect)]) s = handleMouseMove e (Some rect) s.
Proof.
  induction evs as [| [e0 rect0] evs IH]; intros e rect s Hdrag.
  - reflexivity.
  - cbn [app mouseMoves]. rewrite IH.
    + now apply handleMouseMove_overwrites.
    + now rewrite handleMouseMove_dragActive.
Qed.

Ltac tool_cases s :=
  let T := fresh "T" in
  unfold isHand, isLine, isSelect, isArea, isText in *;
  destruct (tool s) eqn:T; cbn in *; try discriminate.

Ltac settle :=
  repeat (cbn;
          repeat match goal with
            | H : _ = _ |- _ => rewrite H
            end).

Lemma idle_drags (s : State) :
  dragActive s = false ->
  lineDragActive s = None /\ areaDragActive s = None
  /\ textDragActive s = None.
Proof.
  unfold dragActive. intros H.
  apply orb_false_elim in H. destruct H as [H Ht].
  apply orb_false_elim in H. destruct H as [Hl Ha].
  destruct (lineDragActive s), (areaDragActive s), (textDragActive s);
    try discriminate; auto.
Qed.

(** The first pointer move after each of the operations that start a drag:
    the drag is under way, and the move maps the callback of its branch over
    the collection, with the snapshot of the entity found at the start. *)
Section FirstMove.

Variables (s : State) (size : CanvasSize) (e0 e : MouseEvent)
  (rect0 rect : DOMRect).
Hypothesis Hsize : canvasSize s = Some size.

Let dx := (clientX e - clientX e0) / DOMRect.width rect.
Let dy := (clientY e - clientY e0) / DOMRect.height rect.

Lemma startLineMove_moves (lineId : Z) (line : Line) :
  isLine s || isSelect s = true ->
  find (fun l => (Line.id l =? lineId)%Z) (lines s) = Some line ->
  let st := LineDragStart.mk (clientX e0) (clientY e0)
              (Line.x1 line) (Line.y1 line) (Line.x2 line) (Line.y2 line) in
  let s1 := startLineMove e0 (Some rect0) lineId s in
  dragActive s1 = true
  /\ lines (handleMouseMove e (Some rect) s1)
     = map (dragLine DragMode.move lineId st dx dy) (lines s).
Proof.
  intros Htool Hfind st s1.
  unfold s1, startLineMove, dragActive, handleMouseMove, lineDragActive.
  tool_cases s; clear Htool; settle; auto.
Qed.

Lemma startHandleDrag_moves (lineId : Z) (line : Line) (endpoint : Endpoint) :
  isLine s || isSelect s = true ->
  find (fun l => (Line.id l =? lineId)%Z) (lines s) = Some line ->
  let st := LineDragStart.mk (clientX e0) (clientY e0)
              (Line.x1 line) (Line.y1 line) (Line.x2 line) (Line.y2 line) in
  let s1 := startHandleDrag e0 (Some rect0) lineId endpoint s in
  let mode := match endpoint with
              | ep_start => DragMode.start
              | ep_end => DragMode.end_
              end in
  dragActive s1 = true
  /\ lines (handleMouseMove e (Some rect) s1)
     = map (dragLine mode lineId st dx dy) (lines s).
Proof.
  intros Htool Hfind st s1 mode.
  unfold s1, startHandleDrag, dragActive, handleMouseMove, lineDragActive.
  tool_cases s; clear Htool; destruct endpoint; settle; auto.
Qed.

Lemma startAreaMove_moves (areaId : Z) (area : AreaShape) :
  isArea s || isSelect s = true ->
  lineDragActive s = None ->
  find (fun a => (AreaShape.id a =? areaId)%Z) (areas s) = Some area ->
  let st := AreaDragStart.mk (clientX e0) (clientY e0)
              (AreaShape.points area) in
  let s1 := startAreaMove e0 (Some rect0) areaId s in
  dragActive s1 = true
  /\ areas (handleMouseMove e (Some rect) s1)
     = map (dragArea DragMode.move areaId st dx dy) (areas s).
Proof.
  intros Htool Hl Hfind st s1.
  unfold s1, startAreaMove, dragActive, handleMouseMove, lineDragActive,
    areaDragActive in *.
  tool_cases s; clear Htool; settle; auto.
Qed.

Lemma startAreaHandleDrag_moves (areaId : Z) (area : AreaShape)
  (endpoint : Endpoint) (p1 p2 : Point) (more : list Point) :
  isArea s || isSelect s = true ->
  lineDragActive s = None ->
  find (fun a => (AreaShape.id a =? areaId)%Z) (areas s) = Some area ->
  isFreeform (AreaShape.type area) = false ->
  AreaShape.points area = p1 :: p2 :: more ->
  let st := AreaDragStart.mk (clientX e0) (clientY e0) (p1 :: p2 :: more) in
  let s1 := startAreaHandleDrag e0 (Some rect0) areaId endpoint s in
  let mode := match endpoint with
              | ep_start => DragMode.start
              | ep_end => DragMode.end_
              end in
  dragActive s1 = true
  /\ areas (handleMouseMove e (Some rect) s1)
     = map (dragArea mode areaId st dx dy) (areas s).
Proof.
  intros Htool Hl Hfind Hfree Hpts st s1 mode.
  unfold s1, startAreaHandleDrag, dragActive, handleMouseMove, lineDragActive,
    areaDragActive in *.
  tool_cases s; clear Htool; destruct endpoint; settle; auto.
Qed.

Lemma textBoxMouseDown_moves (box : TextBox) :
  isText s || isSelect s = true ->
  lineDragActive s = None -> areaDragActive s = None ->
  let st := TextDragStart.mk (clientX e0) (clientY e0)
              (TextBox.x box) (TextBox.y box)
              (TextBox.width box) (TextBox.height box) in
  let s1 := textBoxMouseDown e0 box s in
  dragActive s1 = true
  /\ textBoxes (handleMouseMove e (Some rect) s1)
     = map (dragText TextDragMode.move (TextBox.id box) st dx dy)
         (textBoxes s).
Proof.
  intros Htool Hl Ha st s1.
  unfold s1, textBoxMouseDown, dragActive, handleMouseMove, lineDragActive,
    areaDragActive, textDragActive in *.
  tool_cases s; clear Htool; settle; auto.
Qed.

Lemma textCornerMouseDown_moves (box : TextBox) :
  isText s || isSelect s = true ->
  lineDragActive s = None -> areaDragActive s = None ->
  let st := TextDragStart.mk (clientX e0) (clientY e0)
              (TextBox.x box) (TextBox.y box)
              (TextBox.width box) (TextBox.height box) in
  let s1 := textCornerMouseDown e0 box s in
  dragActive s1 = true
  /\ textBoxes (handleMouseMove e (Some rect) s1)
     = map (dragText TextDragMode.corner (TextBox.id box) st dx dy)
         (textBoxes s).
Proof.
  intros Htool Hl Ha st s1.
  unfold s1, textCornerMouseDown, dragActive, handleMouseMove, lineDragActive,
    areaDragActive, textDragActive in *.
  tool_cases s; clear Htool; settle; auto.
Qed.

End FirstMove.

(** A pointer move leaves the state as it is or rewrites one collection. *)
Lemma handleMouseMove_cases (e : MouseEvent) (canvas : option DOMRect)
  (s : State) (P : State -> Prop) :
  P s ->
  (forall l, P (setLines l s)) ->
  (forall a, P (setAreas a s)) ->
  (forall t, P (setTextBoxes t s)) ->
  P (handleMouseMove e canvas s).
Proof.
  intros H0 Hl Ha Ht. unfold handleMouseMove.
  repeat match goal with
    | |- context [match ?x with _ => _ end] => destruct x
    end; auto.
Qed.

(** A pointer move writes no ref and no tool: the three guards stay. *)
Lemma handleMouseMove_keeps_drags (e : MouseEvent) (canvas : option DOMRect)
  (s : State) :
  lineDragActive (handleMouseMove e canvas s) = lineDragActive s
  /\ areaDragActive (handleMouseMove e canvas s) = areaDragActive s
  /\ textDragActive (handleMouseMove e canvas s) = textDragActive s.
Proof.
  apply (handleMouseMove_cases e canvas s
           (fun s' => lineDragActive s' = lineDragActive s
                      /\ areaDragActive s' = areaDragActive s
                      /\ textDragActive s' = textDragActive s));
    intros; repeat split.
Qed.

(** One drag is served by a move: the line drag before the area drag before
    the text drag. *)
Lemma handleMouseMove_serves_first (e : MouseEvent) (canvas : option DOMRect)
  (s : State) :
  (lineDragActive s <> None ->
   areas (handleMouseMove e canvas s) = areas s
   /\ textBoxes (handleMouseMove e canvas s) = textBoxes s)
  /\ (areaDragActive s <> None ->
      textBoxes (handleMouseMove e canvas s) = textBoxes s).
Proof.
  unfold handleMouseMove.
  destruct (isHand s); [now repeat split |].
  destruct canvas as [rect |]; [| now repeat split].
  destruct (canvasSize s); [| now repeat split].
  destruct (lineDragActive s) as [[dragId st] |]; [now repeat split |].
  split; [intros H; now contradiction H |].
  destruct (areaDragActive s) as [[dragId st] |]; [reflexivity |].
  intros H. now contradiction H.
Qed.

Lemma mouseMoves_serve_first (evs : list (MouseEvent * DOMRect)) :
  forall s : State,
    (lineDragActive s <> None ->
     areas (mouseMoves evs s) = areas s
     /\ textBoxes (mouseMoves evs s) = textBoxes s)
    /\ (areaDragActive s <> None ->
        textBoxes (mouseMoves evs s) = textBoxes s).
Proof.
  induction evs as [| [e rect] evs IH]; intros s; [now repeat split |].
  cbn [mouseMoves].
  destruct (handleMouseMove_keeps_drags e (Some rect) s) as (Kl & Ka & _).
  destruct (handleMouseMove_serves_first e (Some rect) s) as (Fl & Fa).
  destruct (IH (handleMouseMove e (Some rect) s)) as (IHl & IHa).
  rewrite Kl in IHl. rewrite Ka in IHa.
  split.
  - intros H. destruct (IHl H) as (E1 & E2). destruct (Fl H) as (E3 & E4).
    split; [now rewrite E1 | now rewrite E2].
  - intros H. rewrite (IHa H). exact (Fa H).
Qed.

(** The refs a guard found set. *)
Lemma drag_refs (s : State) :
  (forall id st, lineDragActive s = Some (id, st) -> dragLineIdRef s = Some id)
  /\ (forall id st,
        areaDragActive s = Some (id, st) -> areaDragIdRef s = Some id)
  /\ (forall id st,
        textDragActive s = Some (id, st) -> textDragIdRef s = Some id).
Proof.
  unfold lineDragActive, areaDragActive, textDragActive.
  repeat split; intros id st H;
    repeat match type of H with
      | context [match ?x with _ => _ end] => destruct x
      end; congruence.
Qed.

(** With its update run on the state of the event, the deferred move is
    [handleMouseMove]. *)
Lemma handleMouseMoveDeferred_at_once (e : MouseEvent)
  (canvas : option DOMRect) (s : State) :
  handleMouseMoveDeferred e canvas s s = handleMouseMove e canvas s.
Proof.
  destruct (drag_refs s) as (Rl & Ra & Rt).
  unfold handleMouseMoveDeferred, handleMouseMove.
  destruct (isHand s); [reflexivity |].
  destruct canvas as [rect |]; [| reflexivity].
  destruct (canvasSize s); [| reflexivity].
  destruct (lineDragActive s) as [[dragId st] |].
  { cbv zeta. f_equal. apply map_ext. intros l.
    unfold lineDragUpdater. now rewrite (Rl dragId st eq_refl). }
  destruct (areaDragActive s) as [[dragId st] |].
  { cbv zeta. f_equal. apply map_ext. intros a.
    unfold areaDragUpdater. now rewrite (Ra dragId st eq_refl). }
  destruct (textDragActive s) as [[dragId st] |]; [| reflexivity].
  cbv zeta. f_equal. apply map_ext. intros b.
  unfold textDragUpdater. now rewrite (Rt dragId st eq_refl).
Qed.

Lemma endPanOrDraw_refs (s : State) :
  dragLineIdRef (endPanOrDraw s) = None
  /\ areaDragIdRef (endPanOrDraw s) = None
  /\ textDragIdRef (endPanOrDraw s) = None.
Proof. unfold endPanOrDraw. destruct (isHand s); repeat split. Qed.

Lemma set_same (r : State) :
  setLines (lines r) r = r /\ setAreas (areas r) r = r
  /\ setTextBoxes (textBoxes r) r = r.
Proof. destruct r. repeat split. Qed.

Lemma map_same {A} (f : A -> A) (l : list A) :
  (forall x, f x = x) -> map f l = l.
Proof.
  intros H. rewrite <- (map_id l) at 2. now apply map_ext.
Qed.

(** A release handled before the update of a drag move runs cancels the
    move. *)
Lemma handleMouseMoveDeferred_released (e : MouseEvent)
  (canvas : option DOMRect) (s : State) :
  dragActive s = true ->
  handleMouseMoveDeferred e canvas s (endPanOrDraw s) = endPanOrDraw s.
Proof.
  intros Hdrag.
  destruct (endPanOrDraw_refs s) as (Rl & Ra & Rt).
  set (r := endPanOrDraw s) in *. clearbody r.
  destruct (set_same r) as (Sl & Sa & St).
  unfold handleMouseMoveDeferred.
  destruct (isHand s); [reflexivity |].
  destruct canvas as [rect |]; [| reflexivity].
  destruct (canvasSize s); [| reflexivity].
  unfold dragActive in Hdrag.
  destruct (lineDragActive s) as [[dragId st] |].
  { cbv zeta. rewrite map_same; [exact Sl |].
    intros l. unfold lineDragUpdater. now rewrite Rl. }
  destruct (areaDragActive s) as [[dragId st] |].
  { cbv zeta. rewrite map_same; [exact Sa |].
    intros a. unfold areaDragUpdater. now rewrite Ra. }
  destruct (textDragActive s) as [[dragId st] |]; [| discriminate Hdrag].
  cbv zeta. rewrite map_same; [exact St |].
  intros b. unfold textDragUpdater. now rewrite Rt.
Qed.




(** ** Selection *)

(** The four operations that start a drag of a line or of an area leave the
    selection of the text collection as it is. *)
Lemma start_keeps_selectedTextId (e : MouseEvent) (canvas : option DOMRect)
  (id : Z) (endpoint : Endpoint) (s : State) :
  selectedTextId (startLineMove e canvas id s) = selectedTextId s
  /\ selectedTextId (startHandleDrag e canvas id endpoint s) = selectedTextId s
  /\ selectedTextId (startAreaMove e canvas id s) = selectedTextId s
  /\ selectedTextId (startAreaHandleDrag e canvas id endpoint s)
     = selectedTextId s.
Proof.
  unfold startLineMove, startHandleDrag, startAreaMove, startAreaHandleDrag.
  repeat split;
    repeat match goal with
      | |- context [match ?x with _ => _ end] => destruct x
      end; reflexivity.
Qed.

(** The pointer-down of a text box, as the creations and the paste, leaves
    one id selected. *)
Lemma textBoxMouseDown_one_selected (e : MouseEvent) (box : TextBox)
  (s : State) :
  isText s || isSelect s = true ->
  selectedIds (textBoxMouseDown e box s) = [TextBox.id box].
Proof.
  intros Htool. unfold textBoxMouseDown, selectedIds.
  tool_cases s; reflexivity.
Qed.

(** C1, evaluated on the failing run.  A text box is selected; pressing a
    line with the select tool selects the line and leaves the text box
    selected: two ids are selected. *)
Theorem startLineMove_two_selected :
  let s := run pressLineAfterText initialState in
  reachable s
  /\ selectedLineId s = Some 1%Z
  /\ selectedAreaId s = None
  /\ selectedTextId s = Some 2%Z
  /\ selectedIds s = [1; 2]%Z.
Proof.
  split; [now exists pressLineAfterText |].
  eval_run. repeat split.
Qed.

(** ** Loading a document *)

(** C2, evaluated on the failing run.  A successful load empties the lines
    and the areas and clears their selections, and keeps the text boxes and
    the selection of the text collection: after a text box was placed and
    another document loaded, the box is still there, selected. *)
Theorem handleFileChange_keeps_textBoxes :
  (forall doc rendered s,
      let s' := handleFileChange (Some doc) rendered s in
      lines s' = [] /\ areas s' = []
      /\ selectedLineId s' = None /\ selectedAreaId s' = None
      /\ textBoxes s' = textBoxes s
      /\ selectedTextId s' = selectedTextId s)
  /\ let s := run (openPage ++ placeTextAt 2 ++ openPage) initialState in
     map TextBox.id (textBoxes s) = [2]%Z /\ selectedTextId s = Some 2%Z.
Proof.
  split.
  - intros doc rendered s. unfold handleFileChange.
    destruct rendered; cbn; repeat split.
  - eval_run. repeat split.
Qed.

(** ** Normalized coordinates *)

(** C6, evaluated on the failing run.  A line drawn from (0.1,0.1) to
    (0.2,0.2) is pressed at (120,150) and dragged to (780,150), the pointer
    staying inside the page of 800 by 1000: its second endpoint gets
    x = 0.2 + 660/800 = 1.025. *)
Theorem drag_leaves_unit_square :
  let s := run dragLineRight initialState in
  reachable s
  /\ (exists l, lines s = [l] /\ Line.x2 l = 1.025)
  /\ ~ normalized s.
Proof.
  split; [now exists dragLineRight |].
  eval_run.
  assert (E : Rmin 1 (Rmax 0 ((160 - 0) / 800)) + (780 - 120) / 800 = 1.025)
    by (Rcases; lra).
  split.
  - eexists. split; [reflexivity |]. cbn. exact E.
  - intros (Hl & _). cbn in Hl. inversion Hl as [| ? ? Hline _]; subst.
    destruct Hline as (_ & _ & [_ H] & _). cbn in H.
    rewrite E in H. lra.
Qed.

(** ** Duplicate *)

Lemma find_of_existsb {A} (f : A -> bool) (l : list A) :
  existsb f l = true -> exists x, find f l = Some x.
Proof.
  induction l as [| a l IH]; cbn; [discriminate |].
  destruct (f a); [now exists a | exact IH].
Qed.




(** * Further properties of the code *)

(** * Further properties *)

(** ** Deleting *)

Lemma filter_other_id {A} (idOf : A -> Z) (i : Z) (l : list A) :
  ~ In i (map idOf (filter (fun x => negb (idOf x =? i)%Z) l))
  /\ forall x, idOf x <> i ->
       (In x (filter (fun x => negb (idOf x =? i)%Z) l) <-> In x l).
Proof.
  split.
  - intros Hin. apply in_map_iff in Hin. destruct Hin as [x [Hx Hin]].
    apply filter_In in Hin. destruct Hin as [_ Hne].
    apply negb_true_iff, Z.eqb_neq in Hne. contradiction.
  - intros x Hx. rewrite filter_In. split; [tauto |].
    intros Hin. split; [exact Hin |].
    now apply negb_true_iff, Z.eqb_neq.
Qed.

(** X1.  [deleteSelected] works on the first collection that has a
    selection, lines before areas before text boxes.  That collection
    becomes the list of its entries with another id, in their order, so no
    entry with the selected id is left; that selection is cleared (and the
    edit mode with a text box).  The other two collections, their
    selections, the edit mode otherwise and the clipboard stay as they are.
    With nothing selected it changes nothing. *)
Theorem deleteSelected_removes (s : State) :
  let s' := deleteSelected s in
  clipboard s' = clipboard s
  /\ match selectedLineId s, selectedAreaId s, selectedTextId s with
     | Some i, _, _ =>
         lines s' = filter (fun l => negb (Line.id l =? i)%Z) (lines s)
         /\ ~ In i (map Line.id (lines s'))
         /\ selectedLineId s' = None
         /\ areas s' = areas s /\ textBoxes s' = textBoxes s
         /\ selectedAreaId s' = selectedAreaId s
         /\ selectedTextId s' = selectedTextId s
         /\ editingTextId s' = editingTextId s
     | None, Some i, _ =>
         areas s' = filter (fun a => negb (AreaShape.id a =? i)%Z) (areas s)
         /\ ~ In i (map AreaShape.id (areas s'))
         /\ selectedAreaId s' = None
         /\ lines s' = lines s /\ textBoxes s' = textBoxes s
         /\ selectedLineId s' = None
         /\ selectedTextId s' = selectedTextId s
         /\ editingTextId s' = editingTextId s
     | None, None, Some i =>
         textBoxes s'
         = filter (fun b => negb (TextBox.id b =? i)%Z) (textBoxes s)
         /\ ~ In i (map TextBox.id (textBoxes s'))
         /\ selectedTextId s' = None /\ editingTextId s' = None
         /\ lines s' = lines s /\ areas s' = areas s
         /\ selectedLineId s' = None /\ selectedAreaId s' = None
     | None, None, None => s' = s
     end.
Proof.
  cbv zeta. unfold deleteSelected.
  destruct (selectedLineId s) as [i |] eqn:El;
    [| destruct (selectedAreaId s) as [i |] eqn:Ea;
       [| destruct (selectedTextId s) as [i |] eqn:Et] ];
    cbn; rewrite ?El, ?Ea, ?Et;
    repeat match goal with |- _ /\ _ => split end;
    try reflexivity; apply filter_other_id.
Qed.

Lemma filter_fresh_app {A} (idOf : A -> Z) (i : Z) (l : list A) (x : A) :
  idOf x = i ->
  filter (fun y => negb (idOf y =? i)%Z) (l ++ [x])
  = filter (fun y => negb (idOf y =? i)%Z) l.
Proof.
  intros E. rewrite filter_app. cbn. rewrite E, Z.eqb_refl. cbn.
  apply app_nil_r.
Qed.

Lemma filter_fresh {A} (idOf : A -> Z) (i : Z) (l : list A) :
  ~ In i (map idOf l) -> filter (fun y => negb (idOf y =? i)%Z) l = l.
Proof.
  intros Hfresh. apply forallb_filter_id. apply forallb_forall.
  intros x Hx. apply negb_true_iff, Z.eqb_neq. intros E.
  apply Hfresh. rewrite <- E. now apply in_map.
Qed.

(** X2.  Pasting and then deleting takes out of the collection every entry
    that bears the minted id: the pasted clone, and with it any older entry
    that shares the id.  When the minted id is new to the collection the
    collection is back as it was; nothing is selected afterwards. *)
Theorem paste_then_delete (now : Z) (s : State) :
  let s' := deleteSelected (pasteClipboard now s) in
  match clipboard s with
  | None => True
  | Some (ClipLine _) =>
      lines s' = filter (fun l => negb (Line.id l =? now)%Z) (lines s)
      /\ (~ In now (map Line.id (lines s)) -> lines s' = lines s)
      /\ areas s' = areas s /\ textBoxes s' = textBoxes s
      /\ hasSelection s' = false
  | Some (ClipArea _) =>
      areas s' = filter (fun a => negb (AreaShape.id a =? now)%Z) (areas s)
      /\ (~ In now (map AreaShape.id (areas s)) -> areas s' = areas s)
      /\ lines s' = lines s /\ textBoxes s' = textBoxes s
      /\ hasSelection s' = false
  | Some (ClipText _) =>
      textBoxes s'
      = filter (fun b => negb (TextBox.id b =? now)%Z) (textBoxes s)
      /\ (~ In now (map TextBox.id (textBoxes s)) -> textBoxes s' = textBoxes s)
      /\ lines s' = lines s /\ areas s' = areas s
      /\ hasSelection s' = false
  end.
Proof.
  cbv zeta. unfold pasteClipboard.
  destruct (clipboard s) as [[line | area | box] |]; [| | | exact I];
    unfold deleteSelected, hasSelection; cbn;
    rewrite filter_fresh_app by reflexivity;
    repeat match goal with |- _ /\ _ => split end;
    try reflexivity; apply filter_fresh.
Qed.

(** [paste_then_delete] on a state with one line, copied. *)
Lemma paste_then_delete_witness :
  let l0 := Line.mk 5 0.1 0.1 0.2 0.2 LineStyle.solid 2 false "#f97316" in
  let s := setClipboard (Some (ClipLine l0)) (setLines [l0] initialState) in
  ~ In 7%Z (map Line.id (lines s))
  /\ lines (deleteSelected (pasteClipboard 7 s)) = lines s.
Proof.
  cbv zeta.
  assert (H : ~ In 7%Z
                (map Line.id
                   (lines
                      (setClipboard
                         (Some
                            (ClipLine
                               (Line.mk 5 0.1 0.1 0.2 0.2 LineStyle.solid 2
                                  false "#f97316")))
                         (setLines
                            [Line.mk 5 0.1 0.1 0.2 0.2 LineStyle.solid 2
                               false "#f97316"] initialState))))).
  { cbn. intros [E | []]. discriminate. }
  split; [exact H |].
  exact (proj1 (proj2
           (paste_then_delete 7
              (setClipboard
                 (Some
                    (ClipLine
                       (Line.mk 5 0.1 0.1 0.2 0.2 LineStyle.solid 2 false
                          "#f97316")))
                 (setLines
                    [Line.mk 5 0.1 0.1 0.2 0.2 LineStyle.solid 2 false
                       "#f97316"] initialState)))) H).
Defined.

(** ** Cutting *)

(** X3.  A cut puts the selected entity on the clipboard and takes every
    entry with its id out of the collection; a paste after the cut appends
    the entity again, moved by 0.02 and under the minted id, and selects
    it. *)
Theorem cut_then_paste (now : Z) (s : State) :
  let c := cutSelection s in
  let p := pasteClipboard now c in
  (forall i line,
      selectedLineId s = Some i ->
      find (fun l => (Line.id l =? i)%Z) (lines s) = Some line ->
      clipboard c = Some (ClipLine line)
      /\ lines c = filter (fun l => negb (Line.id l =? i)%Z) (lines s)
      /\ hasSelection c = notNull (selectedAreaId s) || notNull (selectedTextId s)
      /\ lines p = lines c ++ [cloneLine now 0.02 line]
      /\ selectedIds p = [now])
  /\ (forall i area,
        selectedLineId s = None ->
        selectedAreaId s = Some i ->
        find (fun a => (AreaShape.id a =? i)%Z) (areas s) = Some area ->
        clipboard c = Some (ClipArea area)
        /\ areas c = filter (fun a => negb (AreaShape.id a =? i)%Z) (areas s)
        /\ hasSelection c = notNull (selectedTextId s)
        /\ areas p = areas c ++ [cloneArea now 0.02 area]
        /\ selectedIds p = [now])
  /\ (forall i box,
        selectedLineId s = None ->
        selectedAreaId s = None ->
        selectedTextId s = Some i ->
        find (fun b => (TextBox.id b =? i)%Z) (textBoxes s) = Some box ->
        clipboard c = Some (ClipText box)
        /\ textBoxes c
           = filter (fun b => negb (TextBox.id b =? i)%Z) (textBoxes s)
        /\ hasSelection c = false
        /\ textBoxes p = textBoxes c ++ [cloneText now 0.02 box]
        /\ selectedIds p = [now]).
Proof.
  cbv zeta. unfold cutSelection. cbn [seq_].
  repeat match goal with |- _ /\ _ => split end.
  - intros i line El Hfind.
    unfold copySelection. rewrite El, Hfind.
    unfold deleteSelected. cbn. rewrite El. cbn.
    unfold pasteClipboard, hasSelection, selectedIds. cbn.
    repeat match goal with |- _ /\ _ => split end; reflexivity.
  - intros i area El Ea Hfind.
    unfold copySelection. rewrite El, Ea, Hfind.
    unfold deleteSelected. cbn. rewrite El, Ea. cbn.
    unfold pasteClipboard, hasSelection, selectedIds. cbn. rewrite El.
    repeat match goal with |- _ /\ _ => split end; reflexivity.
  - intros i box El Ea Et Hfind.
    unfold copySelection. rewrite El, Ea, Et, Hfind.
    unfold deleteSelected. cbn. rewrite El, Ea, Et. cbn.
    unfold pasteClipboard, hasSelection, selectedIds. cbn. rewrite El, Ea.
    repeat match goal with |- _ /\ _ => split end; reflexivity.
Qed.

(** [cut_then_paste] on a state whose one line is selected. *)
Lemma cut_then_paste_witness :
  let l0 := Line.mk 5 0.1 0.1 0.2 0.2 LineStyle.solid 2 false "#f97316" in
  let s := setSelectedLineId (Some 5%Z) (setLines [l0] initialState) in
  lines (cutSelection s) = []
  /\ lines (pasteClipboard 7 (cutSelection s)) = [cloneLine 7 0.02 l0].
Proof.
  cbv zeta.
  pose proof
    (proj1
       (cut_then_paste 7
          (setSelectedLineId (Some 5%Z)
             (setLines
                [Line.mk 5 0.1 0.1 0.2 0.2 LineStyle.solid 2 false "#f97316"]
                initialState)))
       5%Z (Line.mk 5 0.1 0.1 0.2 0.2 LineStyle.solid 2 false "#f97316")
       eq_refl eq_refl) as (_ & Hcut & _ & Hpaste & _).
  split; [exact Hcut | exact Hpaste].
Defined.

(** ** Ending a gesture *)

Lemma handleMouseMove_idle (e : MouseEvent) (canvas : option DOMRect)
  (s : State) :
  dragActive s = false -> lineDrawing s = None -> areaDrawing s = None ->
  handleMouseMove e canvas s = s.
Proof.
  intros D L A. destruct (idle_drags _ D) as (Dl & Da & Dt).
  unfold handleMouseMove. rewrite Dl, Da, Dt, L, A.
  destruct (isHand s), canvas, (canvasSize s); reflexivity.
Qed.

Lemma endPanOrDraw_stops (s : State) :
  dragActive (endPanOrDraw s) = false
  /\ lineDrawing (endPanOrDraw s) = None
  /\ areaDrawing (endPanOrDraw s) = None.
Proof.
  unfold dragActive, lineDragActive, areaDragActive, textDragActive,
    lineDrawing, areaDrawing, endPanOrDraw, isHand, isLine, isArea, isText,
    isSelect.
  destruct (tool s) eqn:T; cbn; rewrite ?T; cbn; repeat split.
Qed.

Lemma endPanOrDraw_frame (s : State) :
  lines (endPanOrDraw s) = lines s
  /\ areas (endPanOrDraw s) = areas s
  /\ textBoxes (endPanOrDraw s) = textBoxes s
  /\ selectedIds (endPanOrDraw s) = selectedIds s
  /\ editingTextId (endPanOrDraw s) = editingTextId s
  /\ clipboard (endPanOrDraw s) = clipboard s.
Proof.
  unfold endPanOrDraw, selectedIds. destruct (isHand s); cbn; repeat split.
Qed.

Lemma idle_moves (s : State) (canvas : option DOMRect)
  (evs : list MouseEvent) :
  dragActive s = false -> lineDrawing s = None -> areaDrawing s = None ->
  fold_left (fun st e => handleMouseMove e canvas st) evs s = s.
Proof.
  intros D L A. induction evs as [| e evs IH]; [reflexivity |].
  cbn [fold_left]. rewrite (handleMouseMove_idle _ _ _ D L A). exact IH.
Qed.

(** X4.  [endPanOrDraw] ends every drag and every drawing and leaves the
    annotations, the selection and the clipboard alone; the pointer moves
    that follow change nothing, whatever the tool. *)
Theorem endPanOrDraw_idle (s : State) :
  let s' := endPanOrDraw s in
  (dragActive s' = false
   /\ lineDrawing s' = None /\ areaDrawing s' = None)
  /\ (lines s' = lines s /\ areas s' = areas s
      /\ textBoxes s' = textBoxes s
      /\ selectedIds s' = selectedIds s
      /\ editingTextId s' = editingTextId s
      /\ clipboard s' = clipboard s)
  /\ forall evs canvas,
       fold_left (fun st e => handleMouseMove e canvas st) evs s' = s'.
Proof.
  intros s'. split; [apply endPanOrDraw_stops |].
  split; [apply endPanOrDraw_frame |].
  intros evs canvas.
  destruct (endPanOrDraw_stops s) as (D & L & A).
  exact (idle_moves s' canvas evs D L A).
Qed.

(** ** Drawing *)

Lemma withPoints_withPoints (p q : list Point) (a : AreaShape) :
  withPoints q (withPoints p a) = withPoints q a.
Proof. reflexivity. Qed.

Lemma areaDrawn_cons (cur : Z) (p : Point) (pts : list Point)
  (a : AreaShape) :
  areaDrawn cur pts (drawArea cur (Point.x p) (Point.y p) a)
  = areaDrawn cur (p :: pts) a.
Proof.
  unfold areaDrawn, drawArea.
  destruct (AreaShape.id a =? cur)%Z eqn:E; cbn; rewrite ?E; cbn;
    [| reflexivity].
  destruct (isFreeform (AreaShape.type a)) eqn:F; cbn; rewrite ?E; cbn;
    rewrite ?F.
  - destruct p as [x y]. cbn. now rewrite <- app_assoc.
  - destruct (AreaShape.points a) as [| start more] eqn:P; cbn;
      rewrite ?E; cbn; rewrite ?F, ?P;
      destruct (rev pts) as [| q r]; cbn; try reflexivity.
    now destruct p.
Qed.

Lemma lineDrawn_cons (cur : Z) (p : Point) (pts : list Point) (l : Line) :
  lineDrawn cur pts (drawLine cur (Point.x p) (Point.y p) l)
  = lineDrawn cur (p :: pts) l.
Proof.
  unfold lineDrawn. cbn [rev].
  destruct (rev pts) as [| q r]; cbn; [reflexivity |].
  unfold drawLine.
  destruct (Line.id l =? cur)%Z eqn:E; cbn; rewrite ?E; reflexivity.
Qed.

Lemma areaDrawn_nil (cur : Z) (l : list AreaShape) :
  map (areaDrawn cur []) l = l.
Proof.
  rewrite <- (map_id l) at 2. apply map_ext. intros a. unfold areaDrawn.
  destruct (negb _); [reflexivity |].
  destruct (isFreeform _); [| reflexivity].
  rewrite app_nil_r. now destruct a.
Qed.

(** One pointer move while an area, respectively a line, is being drawn. *)
Lemma handleMouseMove_draws_area (e : MouseEvent) (rect : DOMRect)
  (s : State) (size : CanvasSize) (cur : Z) :
  dragActive s = false -> canvasSize s = Some size ->
  areaDrawing s = Some cur ->
  handleMouseMove e (Some rect) s
  = setAreas (map (drawArea cur (Point.x (pointerPoint e rect))
                     (Point.y (pointerPoint e rect))) (areas s)) s.
Proof.
  intros D C A. destruct (idle_drags _ D) as (Dl & Da & Dt).
  unfold handleMouseMove. rewrite C, Dl, Da, Dt, A.
  unfold areaDrawing, lineDrawing, isHand, isArea, isLine in *.
  destruct (tool s); cbn in *; try discriminate. reflexivity.
Qed.

Lemma handleMouseMove_draws_line (e : MouseEvent) (rect : DOMRect)
  (s : State) (size : CanvasSize) (cur : Z) :
  dragActive s = false -> canvasSize s = Some size ->
  lineDrawing s = Some cur ->
  handleMouseMove e (Some rect) s
  = setLines (map (drawLine cur (Point.x (pointerPoint e rect))
                     (Point.y (pointerPoint e rect))) (lines s)) s.
Proof.
  intros D C L. destruct (idle_drags _ D) as (Dl & Da & Dt).
  unfold handleMouseMove. rewrite C, Dl, Da, Dt, L.
  unfold lineDrawing, isHand, isLine in *.
  destruct (tool s); cbn in *; try discriminate. reflexivity.
Qed.

Lemma mouseMoves_draw_area (evs : list (MouseEvent * DOMRect)) :
  forall (s : State) (size : CanvasSize) (cur : Z),
    dragActive s = false -> canvasSize s = Some size ->
    areaDrawing s = Some cur ->
    mouseMoves evs s
    = setAreas (map (areaDrawn cur (pointerPoints evs)) (areas s)) s.
Proof.
  induction evs as [| [e rect] evs IH]; intros s size cur D C A.
  - cbn. rewrite areaDrawn_nil. now destruct s.
  - cbn [mouseMoves].
    rewrite (handleMouseMove_draws_area e rect s size cur D C A).
    rewrite (IH _ size cur); try assumption. change (setAreas ?a (setAreas ?b s)) with (setAreas a s).
      f_equal. cbn [areas setAreas]. rewrite map_map.
      apply map_ext. intros a.
      exact (areaDrawn_cons cur (pointerPoint e rect) (pointerPoints evs) a).
Qed.

Lemma mouseMoves_draw_line (evs : list (MouseEvent * DOMRect)) :
  forall (s : State) (size : CanvasSize) (cur : Z),
    dragActive s = false -> canvasSize s = Some size ->
    lineDrawing s = Some cur ->
    mouseMoves evs s
    = setLines (map (lineDrawn cur (pointerPoints evs)) (lines s)) s.
Proof.
  induction evs as [| [e rect] evs IH]; intros s size cur D C L.
  - cbn. rewrite map_id. now destruct s.
  - cbn [mouseMoves].
    rewrite (handleMouseMove_draws_line e rect s size cur D C L).
    rewrite (IH _ size cur); try assumption. change (setLines ?a (setLines ?b s)) with (setLines a s).
      f_equal. cbn [lines setLines]. rewrite map_map.
      apply map_ext. intros l.
      exact (lineDrawn_cons cur (pointerPoint e rect) (pointerPoints evs) l).
Qed.

(** X5.  While an area is being drawn and no drag is under way, a sequence
    of pointer moves rewrites only the areas with the id of the drawn one:
    a freeform area gets one point appended per move, in order, each the
    pointer position cut to the unit square; any other shape keeps its first
    point and has the position of the last move as its second.  Lines, text
    boxes and the rest of the state stay as they are. *)
Theorem area_drawing_moves (evs : list (MouseEvent * DOMRect)) (s : State)
  (size : CanvasSize) (cur : Z) :
  dragActive s = false ->
  canvasSize s = Some size ->
  areaDrawing s = Some cur ->
  let pts := map (fun ev => pointerPoint (fst ev) (snd ev)) evs in
  mouseMoves evs s
  = setAreas
      (map (fun a =>
              if negb (AreaShape.id a =? cur)%Z then a else
              if isFreeform (AreaShape.type a)
              then withPoints (AreaShape.points a ++ pts) a
              else match rev pts, AreaShape.points a with
                   | p :: _, start :: _ => withPoints [start; p] a
                   | _, _ => a
                   end)
           (areas s)) s
  /\ Forall (fun p => inUnit (Point.x p) /\ inUnit (Point.y p)) pts.
Proof.
  intros D C A pts. split.
  - exact (mouseMoves_draw_area evs s size cur D C A).
  - apply Forall_forall. intros p Hp. apply in_map_iff in Hp.
    destruct Hp as [[e rect] [<- _]]. unfold pointerPoint, inUnit. cbn.
    split; Rcases; lra.
Qed.

(** [area_drawing_moves] on a freeform area begun at (0.1,0.1): a move to
    (160,200) and one to (900,500), right of the page, append two points,
    the second on the right edge. *)
Lemma area_drawing_moves_witness :
  let a0 := AreaShape.mk 3 AreaShapeType.freeform [Point.mk 0.1 0.1]
              OutlineStyle.solid 2 "#f97316" 0.2 in
  let s := setCurrentAreaId (Some 3%Z)
             (setIsDrawingArea true
                (setAreas [a0] (loadedPage ToolMode.area))) in
  areas (mouseMoves [(mkMouseEvent 160 200, page);
                     (mkMouseEvent 900 500, page)] s)
  = [withPoints [Point.mk 0.1 0.1;
                 pointerPoint (mkMouseEvent 160 200) page;
                 pointerPoint (mkMouseEvent 900 500) page] a0].
Proof.
  cbv zeta.
  rewrite (proj1
             (area_drawing_moves
                [(mkMouseEvent 160 200, page); (mkMouseEvent 900 500, page)]
                (setCurrentAreaId (Some 3%Z)
                   (setIsDrawingArea true
                      (setAreas
                         [AreaShape.mk 3 AreaShapeType.freeform
                            [Point.mk 0.1 0.1] OutlineStyle.solid 2
                            "#f97316" 0.2]
                         (loadedPage ToolMode.area))))
                (mkCanvasSize 800 1000) 3%Z eq_refl eq_refl eq_refl)).
  reflexivity.
Defined.

(** X6.  While a line is being drawn and no drag is under way, a sequence
    of pointer moves leaves what its last move alone leaves: every line with
    the id of the drawn one keeps its first endpoint and has the last
    pointer position, cut to the unit square, as its second. *)
Theorem line_drawing_moves (evs : list (MouseEvent * DOMRect))
  (e : MouseEvent) (rect : DOMRect) (s : State) (size : CanvasSize)
  (cur : Z) :
  dragActive s = false ->
  canvasSize s = Some size ->
  lineDrawing s = Some cur ->
  let p := pointerPoint e rect in
  mouseMoves (evs ++ [(e, rect)]) s
  = setLines
      (map (fun l =>
              if (Line.id l =? cur)%Z
              then Line.mk (Line.id l) (Line.x1 l) (Line.y1 l)
                     (Point.x p) (Point.y p) (Line.style l)
                     (Line.thickness l) (Line.arrowEnd l) (Line.color l)
              else l)
           (lines s)) s
  /\ inUnit (Point.x p) /\ inUnit (Point.y p).
Proof.
  intros D C L p. split.
  - rewrite (mouseMoves_draw_line _ s size cur D C L).
    f_equal. apply map_ext. intros l.
    unfold lineDrawn, pointerPoints. rewrite map_app, rev_app_distr.
    reflexivity.
  - unfold p, pointerPoint, inUnit. cbn. split; Rcases; lra.
Qed.

(** [line_drawing_moves] on a line begun at (0.1,0.1): after a move to
    (300,400) and one to (160,200) the line ends at the second position. *)
Lemma line_drawing_moves_witness :
  let l0 := Line.mk 5 0.1 0.1 0.1 0.1 LineStyle.solid 2 false "#f97316" in
  let s := setCurrentLineId (Some 5%Z)
             (setIsDrawingLine true
                (setLines [l0] (loadedPage ToolMode.line))) in
  let p := pointerPoint (mkMouseEvent 160 200) page in
  lines (mouseMoves ([(mkMouseEvent 300 400, page)]
                     ++ [(mkMouseEvent 160 200, page)]) s)
  = [Line.mk 5 0.1 0.1 (Point.x p) (Point.y p) LineStyle.solid 2 false
       "#f97316"].
Proof.
  cbv zeta.
  rewrite (proj1
             (line_drawing_moves [(mkMouseEvent 300 400, page)]
                (mkMouseEvent 160 200) page
                (setCurrentLineId (Some 5%Z)
                   (setIsDrawingLine true
                      (setLines
                         [Line.mk 5 0.1 0.1 0.1 0.1 LineStyle.solid 2 false
                            "#f97316"]
                         (loadedPage ToolMode.line))))
                (mkCanvasSize 800 1000) 5%Z eq_refl eq_refl eq_refl)).
  reflexivity.
Defined.

(** ** Positions in the unit square *)

Ltac splits := repeat match goal with |- _ /\ _ => split end.

Lemma inUnit_clamp (v : R) : inUnit (Rmin 1 (Rmax 0 v)).
Proof. unfold inUnit. Rcases; lra. Qed.

Lemma inUnit_offset (v : R) : inUnit v -> inUnit (Rmin 1 (v + 0.02)).
Proof. unfold inUnit. intros H. Rcases; lra. Qed.

Lemma inUnit_div (x w : R) : 0 < w -> 0 <= x <= w -> inUnit (x / w).
Proof.
  intros Hw Hx. unfold inUnit. split.
  - apply Rmult_le_pos; [lra |]. left. now apply Rinv_0_lt_compat.
  - apply Rmult_le_reg_r with w; [exact Hw |]. field_simplify; lra.
Qed.

Lemma cloneLine_inUnit (now : Z) (l : Line) :
  lineInUnit l -> lineInUnit (cloneLine now 0.02 l).
Proof.
  unfold lineInUnit, cloneLine. cbn. intros (H1 & H2 & H3 & H4).
  splits; now apply inUnit_offset.
Qed.

Lemma cloneArea_inUnit (now : Z) (a : AreaShape) :
  areaInUnit a -> areaInUnit (cloneArea now 0.02 a).
Proof.
  unfold areaInUnit, cloneArea. cbn. intros H.
  apply Forall_map. eapply Forall_impl; [| exact H].
  cbn. intros p [Hx Hy]. split; now apply inUnit_offset.
Qed.

Lemma cloneText_inUnit (now : Z) (b : TextBox) :
  textInUnit b -> textInUnit (cloneText now 0.02 b).
Proof.
  unfold textInUnit, cloneText. cbn. intros (H1 & H2 & H3 & H4).
  splits; try assumption; now apply inUnit_offset.
Qed.

Lemma drawLine_inUnit (cur : Z) (nx ny : R) (l : Line) :
  inUnit nx -> inUnit ny -> lineInUnit l -> lineInUnit (drawLine cur nx ny l).
Proof.
  unfold drawLine, lineInUnit. intros Hx Hy (H1 & H2 & H3 & H4).
  destruct (Line.id l =? cur)%Z; cbn; splits; assumption.
Qed.

Lemma drawArea_inUnit (cur : Z) (nx ny : R) (a : AreaShape) :
  inUnit nx -> inUnit ny -> areaInUnit a -> areaInUnit (drawArea cur nx ny a).
Proof.
  unfold drawArea, areaInUnit. intros Hx Hy H.
  destruct (negb _); [exact H |].
  destruct (isFreeform _); cbn.
  - apply Forall_app. split; [exact H |]. constructor; [| constructor].
    now split.
  - destruct (AreaShape.points a) as [| start more] eqn:P;
      [now rewrite P |]. cbn.
    inversion H; subst. constructor; [assumption |].
    constructor; [now split | constructor].
Qed.

(** The invariant: the positional fields of every entity of the three
    collections and of the clipboard lie in [0,1]. *)
Lemma unit_frame (s s' : State) :
  lines s' = lines s -> areas s' = areas s -> textBoxes s' = textBoxes s ->
  clipboard s' = clipboard s ->
  normalized s /\ clipNormalized s -> normalized s' /\ clipNormalized s'.
Proof.
  unfold normalized, clipNormalized. now intros -> -> -> ->.
Qed.

Ltac frame_cases :=
  repeat match goal with
    | |- context [match ?x with _ => _ end] => destruct x
    end; cbn; try reflexivity.

Lemma Forall_filter_keep {A} (P : A -> Prop) (f : A -> bool) (l : list A) :
  Forall P l -> Forall P (filter f l).
Proof.
  intros H. apply Forall_forall. intros x Hx. apply filter_In in Hx.
  destruct Hx as [Hx _]. eapply Forall_forall; eassumption.
Qed.

Lemma Forall_found {A} (P : A -> Prop) (f : A -> bool) (l : list A) (x : A) :
  Forall P l -> find f l = Some x -> P x.
Proof.
  intros H F. apply find_some in F. destruct F as [F _].
  eapply Forall_forall; eassumption.
Qed.

Lemma deleteSelected_unit (s : State) :
  normalized s /\ clipNormalized s ->
  normalized (deleteSelected s) /\ clipNormalized (deleteSelected s).
Proof.
  unfold normalized, clipNormalized, deleteSelected.
  intros ((Hl & Ha & Ht) & Hc).
  destruct (selectedLineId s); [| destruct (selectedAreaId s);
                                  [| destruct (selectedTextId s)]];
    cbn; splits; try assumption;
    apply Forall_filter_keep; assumption.
Qed.

Lemma copySelection_unit (s : State) :
  normalized s /\ clipNormalized s ->
  normalized (copySelection s) /\ clipNormalized (copySelection s).
Proof.
  intros ((Hl & Ha & Ht) & Hc).
  destruct (copySelection_frame s) as (El & Ea & Et & _).
  split.
  - unfold normalized. rewrite El, Ea, Et. now splits.
  - unfold clipNormalized, copySelection.
    destruct (selectedLineId s);
      [| destruct (selectedAreaId s); [| destruct (selectedTextId s)]];
      try exact Hc;
      match goal with
      | |- context [find ?f ?l] => destruct (find f l) eqn:F
      end; try exact Hc; cbn;
      first [ exact (Forall_found _ _ _ _ Hl F)
            | exact (Forall_found _ _ _ _ Ha F)
            | exact (Forall_found _ _ _ _ Ht F) ].
Qed.

Lemma pasteClipboard_unit (now : Z) (s : State) :
  normalized s /\ clipNormalized s ->
  normalized (pasteClipboard now s) /\ clipNormalized (pasteClipboard now s).
Proof.
  unfold normalized, clipNormalized, pasteClipboard.
  intros ((Hl & Ha & Ht) & Hc).
  destruct (clipboard s) as [[line | area | box] |] eqn:C; cbn;
    rewrite ?C; splits; try assumption;
    apply Forall_app; (split; [assumption |]);
    (apply Forall_cons; [| apply Forall_nil]).
  - now apply cloneLine_inUnit.
  - now apply cloneArea_inUnit.
  - now apply cloneText_inUnit.
Qed.

Lemma duplicateSelected_unit (now : Z) (s : State) :
  normalized s /\ clipNormalized s ->
  normalized (duplicateSelected now s)
  /\ clipNormalized (duplicateSelected now s).
Proof.
  unfold normalized, clipNormalized, duplicateSelected.
  intros ((Hl & Ha & Ht) & Hc).
  destruct (selectedLineId s);
    [| destruct (selectedAreaId s); [| destruct (selectedTextId s)]];
    try (now splits);
    match goal with
    | |- context [find ?f ?l] => destruct (find f l) eqn:F
    end; try (now splits); cbn;
    splits; try assumption;
    apply Forall_app; (split; [assumption |]);
    (apply Forall_cons; [| apply Forall_nil]).
  - apply cloneLine_inUnit. exact (Forall_found _ _ _ _ Hl F).
  - apply cloneArea_inUnit. exact (Forall_found _ _ _ _ Ha F).
  - apply cloneText_inUnit. exact (Forall_found _ _ _ _ Ht F).
Qed.

Lemma inside_canvas (x y w h : R) :
  Rltb x 0 || Rltb y 0 || Rgtb x w || Rgtb y h = false ->
  0 <= x <= w /\ 0 <= y <= h.
Proof.
  unfold Rgtb, Rltb. intros H.
  destruct (Rlt_dec x 0), (Rlt_dec y 0), (Rlt_dec w x), (Rlt_dec h y);
    cbn in H; try discriminate; lra.
Qed.

Lemma handleMouseDown_unit (now : Z) (e : MouseEvent)
  (canvas : option DOMRect) (s : State) :
  writesInUnit (HandleMouseDown now e canvas) s ->
  normalized s /\ clipNormalized s ->
  normalized (handleMouseDown now e canvas s)
  /\ clipNormalized (handleMouseDown now e canvas s).
Proof.
  intros Hw Hinv. unfold handleMouseDown.
  destruct (isHand s); [revert Hinv; now apply unit_frame |].
  destruct canvas as [rect |]; [| revert Hinv; now apply unit_frame].
  destruct (canvasSize s); [| revert Hinv; now apply unit_frame].
  destruct (pdfDoc s); [| revert Hinv; now apply unit_frame].
  destruct (_ || _ || _ || _) eqn:B; [revert Hinv; now apply unit_frame |].
  apply inside_canvas in B. destruct B as [Bx By].
  cbn in Hw. destruct Hw as (Hwp & Hhp & Htext).
  pose proof (inUnit_div _ _ Hwp Bx) as Ux.
  pose proof (inUnit_div _ _ Hhp By) as Uy.
  destruct (isLine s && _); [exact Hinv |].
  destruct (isArea s && _); [exact Hinv |].
  destruct Hinv as ((Hl & Ha & Ht) & Hc).
  unfold normalized, clipNormalized.
  destruct (isText s).
  { destruct (Htext eq_refl) as [H200 H60].
    cbn. splits; try assumption.
    apply Forall_app. split; [assumption |].
    apply Forall_cons; [| apply Forall_nil].
    unfold textInUnit. cbn. splits; try assumption.
    - apply inUnit_div; lra.
    - apply inUnit_div; lra. }
  destruct (isLine s).
  { cbn. splits; try assumption.
    apply Forall_app. split; [assumption |].
    apply Forall_cons; [| apply Forall_nil].
    unfold lineInUnit. cbn. now splits. }
  destruct (isArea s); [| now splits].
  cbn. splits; try assumption.
  apply Forall_app. split; [assumption |].
  apply Forall_cons; [| apply Forall_nil].
  unfold areaInUnit. cbn.
  destruct (areaShapeType s); repeat (apply Forall_cons; [now split |]);
    apply Forall_nil.
Qed.

Lemma Forall_map_keep {A} (P : A -> Prop) (f : A -> A) (l : list A) :
  (forall x, P x -> P (f x)) -> Forall P l -> Forall P (map f l).
Proof.
  intros Hf H. apply Forall_map. eapply Forall_impl; [| exact H].
  exact Hf.
Qed.

Lemma handleMouseMove_unit (e : MouseEvent) (canvas : option DOMRect)
  (s : State) :
  dragActive s = false ->
  normalized s /\ clipNormalized s ->
  normalized (handleMouseMove e canvas s)
  /\ clipNormalized (handleMouseMove e canvas s).
Proof.
  intros D Hinv. destruct (idle_drags _ D) as (Dl & Da & Dt).
  unfold handleMouseMove. rewrite Dl, Da, Dt.
  destruct (isHand s); [exact Hinv |].
  destruct canvas as [rect |]; [| exact Hinv].
  destruct (canvasSize s); [| exact Hinv].
  destruct Hinv as ((Hl & Ha & Ht) & Hc).
  unfold normalized, clipNormalized.
  destruct (lineDrawing s) as [cur |].
  { cbn. splits; try assumption.
    apply Forall_map_keep; [| assumption].
    intros l. apply drawLine_inUnit; apply inUnit_clamp. }
  destruct (areaDrawing s) as [cur |]; [| now splits].
  cbn. splits; try assumption.
  apply Forall_map_keep; [| assumption].
  intros a. apply drawArea_inUnit; apply inUnit_clamp.
Qed.

Lemma handleFileChange_unit loaded rendered (s : State) :
  normalized s /\ clipNormalized s ->
  normalized (handleFileChange loaded rendered s)
  /\ clipNormalized (handleFileChange loaded rendered s).
Proof.
  unfold normalized, clipNormalized, handleFileChange.
  intros ((Hl & Ha & Ht) & Hc).
  destruct loaded; [| now splits].
  destruct rendered; cbn; splits; try assumption; apply Forall_nil.
Qed.

(** X7.  Short of a pointer move during a drag, every action keeps the
    positional fields of all lines, areas, text boxes and of the clipboard
    entity in [0,1]: creation puts the pointer position inside the canvas,
    drawing cuts it to the canvas, paste and duplicate cut at 1, and the
    other actions write no position.  (A press needs a canvas of positive
    extent, and the text tool one of at least 200 by 60 pixels.) *)
Theorem step_keeps_unit_square (a : Action) (s : State) :
  writesInUnit a s ->
  normalized s -> clipNormalized s ->
  normalized (step a s) /\ clipNormalized (step a s).
Proof.
  intros Hw Hn Hc. pose proof (conj Hn Hc) as Hinv. clear Hn Hc.
  destruct a; cbn [step].
  - revert Hinv. now apply unit_frame.
  - now apply handleMouseDown_unit.
  - now apply handleMouseMove_unit.
  - revert Hinv. destruct (endPanOrDraw_frame s) as (El & Ea & Et & _ & _ & Ec).
    now apply unit_frame.
  - revert Hinv. apply unit_frame; unfold startLineMove; frame_cases.
  - revert Hinv. apply unit_frame; unfold startHandleDrag; frame_cases.
  - revert Hinv. apply unit_frame; unfold startAreaMove; frame_cases.
  - revert Hinv. apply unit_frame; unfold startAreaHandleDrag; frame_cases.
  - revert Hinv. apply unit_frame; unfold onBox, textBoxMouseDown; frame_cases.
  - revert Hinv.
    apply unit_frame; unfold onBox, textBoxDoubleClick; frame_cases.
  - revert Hinv.
    apply unit_frame; unfold onBox, textCornerMouseDown; frame_cases.
  - now apply deleteSelected_unit.
  - now apply duplicateSelected_unit.
  - now apply copySelection_unit.
  - unfold cutSelection. cbn [seq_].
    now apply deleteSelected_unit, copySelection_unit.
  - now apply pasteClipboard_unit.
  - now apply handleFileChange_unit.
Qed.

(** [step_keeps_unit_square] for a press with the text tool at (400,500) on
    the page of 800 by 1000 pixels. *)
Lemma step_keeps_unit_square_witness :
  let s := loadedPage ToolMode.text in
  let a := HandleMouseDown 7 (mkMouseEvent 400 500) (Some page) in
  normalized (step a s) /\ clipNormalized (step a s).
Proof.
  cbv zeta. apply step_keeps_unit_square.
  - cbn. split; [lra |]. split; [lra |]. intros _. split; lra.
  - split; [apply Forall_nil |]. split; apply Forall_nil.
  - exact I.
Defined.

(** ** Pressing on the viewer *)

(** X8.  [handleMouseDown] creates nothing unless the tool is the text, the
    line or the area tool: with the hand tool it only notes that a pan
    began; with the select tool a press inside the canvas changes nothing at
    all, and a press outside the canvas, or before a document is shown,
    clears the three selections and the edit mode. *)
Theorem handleMouseDown_without_drawing_tool (now : Z) (e : MouseEvent)
  (canvas : option DOMRect) (s : State) :
  (isHand s = true ->
   handleMouseDown now e canvas s = setIsPanningRef true s)
  /\ (isSelect s = true ->
      forall rect size doc,
        canvas = Some rect -> canvasSize s = Some size ->
        pdfDoc s = Some doc ->
        0 <= clientX e - DOMRect.left rect <= DOMRect.width rect ->
        0 <= clientY e - DOMRect.top rect <= DOMRect.height rect ->
        handleMouseDown now e canvas s = s)
  /\ (isSelect s = true ->
      forall rect,
        canvas = Some rect ->
        clientX e - DOMRect.left rect < 0
        \/ clientY e - DOMRect.top rect < 0
        \/ DOMRect.width rect < clientX e - DOMRect.left rect
        \/ DOMRect.height rect < clientY e - DOMRect.top rect ->
        handleMouseDown now e canvas s = clearSelection s)
  /\ (isSelect s = true ->
      canvas = None \/ canvasSize s = None \/ pdfDoc s = None ->
      handleMouseDown now e canvas s = clearSelection s).
Proof.
  splits.
  - intros H. unfold handleMouseDown. now rewrite H.
  - intros H rect size doc -> C P Hx Hy. unfold handleMouseDown.
    rewrite C, P. tool_cases s. clear H.
    rewrite !Rltb_false by lra. unfold Rgtb. rewrite !Rltb_false by lra.
    reflexivity.
  - intros H rect -> Hout. unfold handleMouseDown.
    tool_cases s. clear H.
    destruct (canvasSize s); [| reflexivity].
    destruct (pdfDoc s); [| reflexivity].
    unfold Rgtb, Rltb.
    destruct (Rlt_dec _ 0), (Rlt_dec _ 0), (Rlt_dec (DOMRect.width rect) _),
      (Rlt_dec (DOMRect.height rect) _); cbn; try reflexivity.
    lra.
  - intros H Hmissing. unfold handleMouseDown.
    tool_cases s. clear H.
    destruct canvas; [| reflexivity].
    destruct (canvasSize s); [| reflexivity].
    destruct (pdfDoc s); [| reflexivity].
    destruct Hmissing as [E | [E | E]]; discriminate.
Qed.

(** ** Arrowheads *)

Lemma hypot_pos (a b : R) : a <> 0 \/ b <> 0 -> 0 < hypot a b.
Proof.
  intros H. destruct (Rle_lt_or_eq_dec 0 (hypot a b) (sqrt_pos _)) as [L | E];
    [exact L |].
  symmetry in E. apply hypot_eq_0 in E. destruct E, H; lra.
Qed.

(** X9.  The arrowhead of a line whose endpoints differ has its tip at the
    second endpoint; the middle of its two other corners lies on the line,
    [size] away from the tip towards the first endpoint, and the two corners
    lie [0.6 size] away from that middle, across the line.  When the
    endpoints coincide the three corners are all the tip. *)
Theorem getArrowPoints_shape (x1 y1 x2 y2 size : R) :
  exists lx ly rx ry,
    getArrowPoints x1 y1 x2 y2 size = [(x2, y2); (lx, ly); (rx, ry)]
    /\ let bx := (lx + rx) / 2 in
       let by_ := (ly + ry) / 2 in
       let len := hypot (x2 - x1) (y2 - y1) in
       (x1 <> x2 \/ y1 <> y2 ->
        (x2 - bx) * len = size * (x2 - x1)
        /\ (y2 - by_) * len = size * (y2 - y1)
        /\ (x2 - bx) * (x2 - bx) + (y2 - by_) * (y2 - by_) = size * size
        /\ (lx - bx) * (x2 - x1) + (ly - by_) * (y2 - y1) = 0
        /\ (lx - bx) * (lx - bx) + (ly - by_) * (ly - by_)
           = 0.6 * size * (0.6 * size))
       /\ (x1 = x2 /\ y1 = y2 ->
           (lx, ly) = (x2, y2) /\ (rx, ry) = (x2, y2)).
Proof.
  unfold getArrowPoints. cbv zeta. do 4 eexists. split; [reflexivity |].
  cbv zeta. split.
  - intros Hne.
    assert (Hpos : 0 < hypot (x2 - x1) (y2 - y1))
      by (apply hypot_pos; destruct Hne; [left | right]; lra).
    rewrite orOne_pos by exact Hpos.
    pose proof (hypot_sqr (x2 - x1) (y2 - y1)) as Hsq.
    set (len := hypot (x2 - x1) (y2 - y1)) in *.
    assert (Hl : len <> 0) by lra.
    assert (Hu : (x2 - x1) / len * ((x2 - x1) / len)
                 + (y2 - y1) / len * ((y2 - y1) / len) = 1).
    { replace ((x2 - x1) / len * ((x2 - x1) / len)
               + (y2 - y1) / len * ((y2 - y1) / len))
        with (((x2 - x1) * (x2 - x1) + (y2 - y1) * (y2 - y1)) / (len * len))
        by (field; exact Hl).
      rewrite <- Hsq. field. exact Hl. }
    splits.
    + field. exact Hl.
    + field. exact Hl.
    + transitivity (size * size * ((x2 - x1) / len * ((x2 - x1) / len)
                                   + (y2 - y1) / len * ((y2 - y1) / len)));
        [field; exact Hl | rewrite Hu; ring].
    + field. exact Hl.
    + transitivity (0.6 * size * (0.6 * size)
                    * ((x2 - x1) / len * ((x2 - x1) / len)
                       + (y2 - y1) / len * ((y2 - y1) / len)));
        [field; exact Hl | rewrite Hu; ring].
  - intros [-> ->].
    replace (x2 - x2) with 0 by ring. replace (y2 - y2) with 0 by ring.
    rewrite hypot_0_0, orOne_0. split; f_equal; field.
Qed.

(** [getArrowPoints_shape] on a horizontal line of length 10. *)
Lemma getArrowPoints_shape_witness :
  (0 <> 10 \/ 0 <> 0)
  /\ exists lx ly rx ry,
       getArrowPoints 0 0 10 0 5 = [(10, 0); (lx, ly); (rx, ry)]
       /\ (10 - (lx + rx) / 2) * hypot (10 - 0) (0 - 0) = 5 * (10 - 0).
Proof.
  assert (H : 0 <> 10 \/ 0 <> 0) by (left; lra).
  split; [exact H |].
  destruct (getArrowPoints_shape 0 0 10 0 5)
    as (lx & ly & rx & ry & E & Hne & _).
  exists lx, ly, rx, ry. split; [exact E |].
  exact (proj1 (Hne H)).
Defined.

(** ** What the overlay draws *)

Lemma wavySegments_ge_2 (x1 y1 x2 y2 w : R) :
  (2 <= wavySegments x1 y1 x2 y2 w)%Z.
Proof. unfold wavySegments. cbv zeta. lia. Qed.

(** X10.  For a wavelength other than 0 the wavy path has at least two
    curves and its last curve ends at the second endpoint: the path joins
    the two endpoints it was given.  So the overlay, which asks for the
    wavelength 14, draws every wavy line as a path from the first to the
    second endpoint of the line on the canvas. *)
Theorem makeWavyPath_joins (x1 y1 x2 y2 amplitude wavelength : R) :
  wavelength <> 0 ->
  exists curves cx cy,
    makeWavyPath x1 y1 x2 y2 amplitude wavelength = Some (M x1 y1 :: curves)
    /\ (2 <= List.length curves)%nat
    /\ nth_error curves (List.length curves - 1) = Some (Q cx cy x2 y2).
Proof.
  intros Hw.
  pose proof (wavySegments_ge_2 x1 y1 x2 y2 wavelength) as Hge.
  unfold makeWavyPath.
  destruct (Req_dec_T wavelength 0) as [E | _]; [contradiction |].
  cbv zeta.
  set (n := wavySegments x1 y1 x2 y2 wavelength) in *.
  eexists. do 2 eexists. split; [reflexivity |].
  rewrite length_map, upto_length. split; [lia |].
  replace (Z.to_nat n - 1)%nat with (Z.to_nat (n - 1)) by lia.
  rewrite nth_error_map, (upto_nth n n) by lia. cbn [option_map].
  do 2 f_equal.
  - field. apply not_0_IZR. lia.
  - field. apply not_0_IZR. lia.
Qed.

(** [makeWavyPath_joins] for the call of the overlay on a line from
    (10,20) to (110,20). *)
Lemma makeWavyPath_joins_witness :
  14 <> 0
  /\ exists curves cx cy,
       makeWavyPath 10 20 110 20 4 14 = Some (M 10 20 :: curves)
       /\ (2 <= List.length curves)%nat
       /\ nth_error curves (List.length curves - 1) = Some (Q cx cy 110 20).
Proof.
  assert (H : 14 <> 0) by lra.
  split; [exact H |].
  exact (makeWavyPath_joins 10 20 110 20 4 14 H).
Defined.

(** X11.  The overlay draws nothing for an area exactly when the area has
    no point, or is not freeform and has fewer than two points; any other
    area has an element. *)
Theorem areaMainElement_none (canvasSize : CanvasSize) (area : AreaShape) :
  areaMainElement canvasSize area = None
  <-> AreaShape.points area = []
      \/ (isFreeform (AreaShape.type area) = false
          /\ (List.length (AreaShape.points area) < 2)%nat).
Proof.
  unfold areaMainElement.
  destruct (AreaShape.points area) as [| p1 [| p2 more]];
    destruct (AreaShape.type area); cbn; split;
    try (intros _; now left);
    try discriminate;
    try (intros _; right; split; [reflexivity | cbn; lia]);
    try (intros _; reflexivity);
    intros [H | [H1 H2]]; try discriminate; cbn in *; lia.
Qed.

(** ** Navigation *)

(** X12.  Page navigation keeps the page shown inside the document: a
    request below 1 or above the page count, a step back from the first page
    and a step forward from the last one change nothing; a request in range
    shows that page.  No navigation touches the annotations, the selection
    or the clipboard. *)
Theorem navigation_in_range (s : State) (rendered : option CanvasSize) :
  (forall newPage,
      let s' := goToPage newPage rendered s in
      (pageInRange s -> pageInRange s')
      /\ (forall total,
            totalPages s = Some total ->
            (newPage < 1 \/ total < newPage)%Z -> s' = s)
      /\ (forall total doc,
            totalPages s = Some total -> pdfDoc s = Some doc ->
            (1 <= newPage <= total)%Z -> pageNum s' = newPage)
      /\ lines s' = lines s /\ areas s' = areas s
      /\ textBoxes s' = textBoxes s /\ selectedIds s' = selectedIds s
      /\ clipboard s' = clipboard s)
  /\ (pageInRange s -> pageInRange (handlePrev rendered s))
  /\ (pageInRange s -> pageInRange (handleNext rendered s))
  /\ (pageNum s = 1%Z -> handlePrev rendered s = s)
  /\ (totalPages s = Some (pageNum s) -> handleNext rendered s = s).
Proof.
  assert (G : forall newPage,
             let s' := goToPage newPage rendered s in
             (pageInRange s -> pageInRange s')
             /\ (forall total,
                   totalPages s = Some total ->
                   (newPage < 1 \/ total < newPage)%Z -> s' = s)
             /\ (forall total doc,
                   totalPages s = Some total -> pdfDoc s = Some doc ->
                   (1 <= newPage <= total)%Z -> pageNum s' = newPage)
             /\ lines s' = lines s /\ areas s' = areas s
             /\ textBoxes s' = textBoxes s /\ selectedIds s' = selectedIds s
             /\ clipboard s' = clipboard s).
  { intros newPage. cbv zeta.
    unfold goToPage, pageInRange, renderPage, selectedIds.
    destruct (pdfDoc s) as [doc |]; cbn.
    2: { splits; try reflexivity; try tauto; intros; try reflexivity;
         congruence. }
    destruct (totalPages s) as [total |] eqn:T; cbn.
    2: { rewrite ?T. splits; try reflexivity; try tauto; intros;
         try reflexivity; congruence. }
    destruct (total =? 0)%Z eqn:Z0; cbn.
    { apply Z.eqb_eq in Z0. rewrite ?T.
      splits; try reflexivity; try tauto; intros; try reflexivity.
      repeat match goal with
        | H : Some _ = Some _ |- _ => inversion H; clear H; subst
        end.
      lia. }
    destruct (newPage <? 1)%Z eqn:L1; cbn.
    { apply Z.ltb_lt in L1. rewrite ?T.
      splits; try reflexivity; try tauto; intros; try reflexivity.
      repeat match goal with
        | H : Some _ = Some _ |- _ => inversion H; clear H; subst
        end.
      lia. }
    destruct (newPage >? total)%Z eqn:G1; cbn.
    { apply Z.gtb_lt in G1. rewrite ?T.
      splits; try reflexivity; try tauto; intros; try reflexivity.
      repeat match goal with
        | H : Some _ = Some _ |- _ => inversion H; clear H; subst
        end.
      lia. }
    apply Z.ltb_ge in L1.
    assert (newPage <= total)%Z
      by (rewrite Z.gtb_ltb in G1; apply Z.ltb_ge in G1; exact G1).
    destruct rendered; cbn; rewrite ?T; splits; try reflexivity;
      intros; try lia;
      repeat match goal with
        | H : Some _ = Some _ |- _ => inversion H; clear H; subst
        end;
      lia. }
  split; [exact G |].
  splits.
  - intros H. unfold handlePrev.
    destruct (_ && _); [now apply G | exact H].
  - intros H. unfold handleNext.
    destruct (totalPages s); [| exact H].
    destruct (_ && _ && _); [now apply G | exact H].
  - intros E. unfold handlePrev. now rewrite E.
  - intros E. unfold handleNext. rewrite E.
    now rewrite Z.ltb_irrefl, andb_false_r.
Qed.

(** ** Zoom *)

Lemma applyZoom_range (newScale : R) (rendered : option CanvasSize)
  (s : State) :
  scaleInRange s -> scaleInRange (applyZoom newScale rendered s).
Proof.
  unfold scaleInRange, applyZoom. intros H.
  destruct (negb _); [exact H |]. cbv zeta.
  destruct (Req_dec_T _ _); [exact H |].
  unfold renderPage. destruct rendered; cbn; Rcases; lra.
Qed.

Lemma applyZoom_frame (newScale : R) (rendered : option CanvasSize)
  (s : State) :
  let s' := applyZoom newScale rendered s in
  lines s' = lines s /\ areas s' = areas s /\ textBoxes s' = textBoxes s
  /\ selectedIds s' = selectedIds s /\ clipboard s' = clipboard s
  /\ pageNum s' = pageNum s.
Proof.
  cbv zeta. unfold applyZoom, renderPage, selectedIds.
  destruct (negb _); [now splits |].
  destruct (Req_dec_T _ _); [now splits |].
  destruct rendered; cbn; now splits.
Qed.

(** X13.  Zoom keeps the scale between 0.25 and 3 and never touches the
    annotations, the selection, the clipboard or the page number: a zoom
    request is cut to that range, and a request that would leave the scale
    as it is (zooming in at 3, zooming out at 0.25) changes nothing, so the
    page is not rendered again.  The wheel zooms only with the hand tool. *)
Theorem zoom_in_range (s : State) (rendered : option CanvasSize) :
  (forall newScale,
      let s' := applyZoom newScale rendered s in
      (scaleInRange s -> scaleInRange s')
      /\ (forall doc, pdfDoc s = Some doc ->
            scale s' = Rmin 3 (Rmax 0.25 newScale))
      /\ lines s' = lines s /\ areas s' = areas s
      /\ textBoxes s' = textBoxes s /\ selectedIds s' = selectedIds s
      /\ clipboard s' = clipboard s /\ pageNum s' = pageNum s)
  /\ (scaleInRange s -> scaleInRange (handleZoomIn rendered s))
  /\ (scaleInRange s -> scaleInRange (handleZoomOut rendered s))
  /\ (forall deltaY,
        scaleInRange s -> scaleInRange (handleWheel deltaY rendered s))
  /\ (scale s = 3 -> handleZoomIn rendered s = s)
  /\ (scale s = 0.25 -> handleZoomOut rendered s = s)
  /\ (forall deltaY, isHand s = false -> handleWheel deltaY rendered s = s).
Proof.
  splits.
  - intros newScale. cbv zeta. split; [apply applyZoom_range |].
    split; [| apply applyZoom_frame].
    intros doc P. unfold applyZoom. rewrite P. cbn.
    destruct (Req_dec_T _ _) as [E | _]; [now symmetry |].
    unfold renderPage. now destruct rendered.
  - intros H. unfold handleZoomIn.
    destruct (negb _); [exact H | now apply applyZoom_range].
  - intros H. unfold handleZoomOut.
    destruct (negb _); [exact H | now apply applyZoom_range].
  - intros deltaY H. unfold handleWheel.
    destruct (_ || _); [exact H | now apply applyZoom_range].
  - intros E. unfold handleZoomIn, applyZoom.
    destruct (negb _); [reflexivity |]. cbv zeta.
    destruct (Req_dec_T _ _) as [_ | N]; [reflexivity |].
    exfalso. apply N. rewrite E. Rcases; lra.
  - intros E. unfold handleZoomOut, applyZoom.
    destruct (negb _); [reflexivity |]. cbv zeta.
    destruct (Req_dec_T _ _) as [_ | N]; [reflexivity |].
    exfalso. apply N. rewrite E. Rcases; lra.
  - intros deltaY H. unfold handleWheel. now rewrite H.
Qed.

(** ** From the pointer to the canvas and back *)

Lemma scale_back (x w : R) : w <> 0 -> x / w * w = x.
Proof. intros H. field. exact H. Qed.

Lemma clamp_inside (x w : R) :
  0 < w -> 0 <= x <= w -> Rmin 1 (Rmax 0 (x / w)) = x / w.
Proof.
  intros Hw Hx. destruct (inUnit_div x w Hw Hx) as [H0 H1].
  rewrite Rmax_right by exact H0. now rewrite Rmin_right.
Qed.

(** X14.  Rubber band.  With the area tool set to the rectangle, a press
    inside the canvas followed by a pointer move inside the canvas leaves,
    as the last area, a rectangle that the overlay draws between the two
    pointer positions: its corner is the smaller of the two coordinates on
    each axis and its extent their distance, in pixels of the canvas.  The
    new area is the one selected. *)
Theorem rectangle_rubber_band (now : Z) (e1 e2 : MouseEvent) (rect : DOMRect)
  (doc : PDFDocumentProxy) (s : State) :
  let w := DOMRect.width rect in
  let h := DOMRect.height rect in
  let px := clientX e1 - DOMRect.left rect in
  let py := clientY e1 - DOMRect.top rect in
  let qx := clientX e2 - DOMRect.left rect in
  let qy := clientY e2 - DOMRect.top rect in
  isArea s = true ->
  areaShapeType s = AreaShapeType.rect ->
  pdfDoc s = Some doc ->
  canvasSize s = Some (mkCanvasSize w h) ->
  dragActive s = false ->
  areaDragModeRef s = DragMode.none ->
  0 < w -> 0 < h ->
  0 <= px <= w -> 0 <= py <= h ->
  0 <= qx <= w -> 0 <= qy <= h ->
  let s' := handleMouseMove e2 (Some rect)
              (handleMouseDown now e1 (Some rect) s) in
  exists before area,
    areas s' = before ++ [area]
    /\ List.length before = List.length (areas s)
    /\ AreaShape.id area = now
    /\ selectedIds s' = [now]
    /\ areaMainElement (mkCanvasSize w h) area
       = Some (RectEl (Rmin px qx) (Rmin py qy)
                 (Rabs (qx - px)) (Rabs (qy - py))).
Proof.
  intros w h px py qx qy Htool Hshape Hdoc Hsize Hidle Hmode Hw Hh
    Hpx Hpy Hqx Hqy s'.
  destruct (idle_drags _ Hidle) as (Dl & Da & Dt).
  assert (Hdown :
    handleMouseDown now e1 (Some rect) s
    = (setAreas (areas s
                 ++ [AreaShape.mk now AreaShapeType.rect
                       [Point.mk (px / w) (py / h); Point.mk (px / w) (py / h)]
                       (areaOutlineStyle s) (areaThickness s) (lineColor s)
                       (areaFillOpacity s)]) ;;
       setIsDrawingArea true ;; setCurrentAreaId (Some now) ;;
       setSelectedAreaId (Some now) ;; setSelectedLineId None ;;
       setSelectedTextId None) s).
  { unfold handleMouseDown. rewrite Hsize, Hdoc, Hmode, Hshape.
    fold px py w h.
    rewrite !Rltb_false by lra. unfold Rgtb. rewrite !Rltb_false by lra.
    tool_cases s. reflexivity. }
  set (s1 := handleMouseDown now e1 (Some rect) s) in *.
  assert (Hmove :
    handleMouseMove e2 (Some rect) s1
    = setAreas (map (drawArea now (Point.x (pointerPoint e2 rect))
                       (Point.y (pointerPoint e2 rect))) (areas s1)) s1).
  { apply (handleMouseMove_draws_area e2 rect s1 (mkCanvasSize w h) now).
    - rewrite Hdown. exact Hidle.
    - rewrite Hdown. exact Hsize.
    - rewrite Hdown. unfold areaDrawing. cbn.
      unfold isArea in *. cbn. now rewrite Htool. }
  unfold s'. rewrite Hmove. rewrite Hdown. cbn [areas setAreas seq_].
  cbn. rewrite map_app. cbn [map].
  match goal with
  | |- context [drawArea now ?nx ?ny (AreaShape.mk now ?ty [?p; ?q] ?o ?t ?c ?f)] =>
      replace (drawArea now nx ny (AreaShape.mk now ty [p; q] o t c f))
        with (AreaShape.mk now ty [p; Point.mk nx ny] o t c f)
        by (unfold drawArea; cbn; now rewrite Z.eqb_refl)
  end.
  eexists. eexists. split; [reflexivity |].
  split; [now rewrite length_map |].
  split; [reflexivity |].
  split; [reflexivity |].
  unfold areaMainElement. cbn. fold px py qx qy w h.
  rewrite (clamp_inside qx w Hw Hqx), (clamp_inside qy h Hh Hqy).
  rewrite !scale_back by lra. reflexivity.
Qed.

(** [rectangle_rubber_band] for a press at (80,100) and a move to
    (160,50) on the page of 800 by 1000 pixels. *)
Lemma rectangle_rubber_band_witness :
  let s := loadedPage ToolMode.area in
  let s' := handleMouseMove (mkMouseEvent 160 50) (Some page)
              (handleMouseDown 7 (mkMouseEvent 80 100) (Some page) s) in
  exists area,
    areas s' = [area]
    /\ areaMainElement (mkCanvasSize 800 1000) area
       = Some (RectEl (Rmin (80 - 0) (160 - 0)) (Rmin (100 - 0) (50 - 0))
                 (Rabs (160 - 0 - (80 - 0))) (Rabs (50 - 0 - (100 - 0)))).
Proof.
  assert (Hw : 0 < DOMRect.width page) by (cbn; lra).
  assert (Hh : 0 < DOMRect.height page) by (cbn; lra).
  assert (Hpx : 0 <= clientX (mkMouseEvent 80 100) - DOMRect.left page
                <= DOMRect.width page) by (cbn; lra).
  assert (Hpy : 0 <= clientY (mkMouseEvent 80 100) - DOMRect.top page
                <= DOMRect.height page) by (cbn; lra).
  assert (Hqx : 0 <= clientX (mkMouseEvent 160 50) - DOMRect.left page
                <= DOMRect.width page) by (cbn; lra).
  assert (Hqy : 0 <= clientY (mkMouseEvent 160 50) - DOMRect.top page
                <= DOMRect.height page) by (cbn; lra).
  destruct (rectangle_rubber_band 7 (mkMouseEvent 80 100)
              (mkMouseEvent 160 50) page (mkDoc 1)
              (loadedPage ToolMode.area)
              eq_refl eq_refl eq_refl eq_refl eq_refl eq_refl
              Hw Hh Hpx Hpy Hqx Hqy)
    as (before & area & E & Hlen & _ & _ & El).
  destruct before as [| b more]; [| discriminate Hlen].
  exists area. split; [exact E | exact El].
Defined.

(** X15.  With the text tool, a press inside the canvas appends one text
    box, empty, styled by the current text defaults, selected and not in
    edit mode.  On the canvas it was placed on, the overlay puts the [div]
    of the box at the pointer, with the width 200 and the minimal height 60
    in pixels, to which the [div] adds its padding of 4 and its border of
    1. *)
Theorem text_box_placed (now : Z) (e : MouseEvent) (rect : DOMRect)
  (doc : PDFDocumentProxy) (size : CanvasSize) (s : State) :
  let w := DOMRect.width rect in
  let h := DOMRect.height rect in
  let px := clientX e - DOMRect.left rect in
  let py := clientY e - DOMRect.top rect in
  isText s = true ->
  pdfDoc s = Some doc ->
  canvasSize s = Some size ->
  0 < w -> 0 < h ->
  0 <= px <= w -> 0 <= py <= h ->
  let s' := handleMouseDown now e (Some rect) s in
  exists box,
    textBoxes s' = textBoxes s ++ [box]
    /\ lines s' = lines s /\ areas s' = areas s
    /\ TextBox.id box = now /\ TextBox.text box = ""%string
    /\ (TextBox.textColor box, TextBox.fontSize box, TextBox.fontFamily box,
        TextBox.bold box, TextBox.italic box, TextBox.underline box,
        TextBox.backgroundColor box, TextBox.solidBackground box)
       = (textColor s, textSize s, textFont s, textBold s, textItalic s,
          textUnderline s, textBgColor s, textBgSolid s)
    /\ selectedIds s' = [now] /\ editingTextId s' = None
    /\ textBoxStyle (mkCanvasSize w h) box = mkTextBoxStyle py px 200 60 4 1.
Proof.
  intros w h px py Htool Hdoc Hsize Hw Hh Hpx Hpy s'.
  unfold s', handleMouseDown. rewrite Hsize, Hdoc.
  fold px py w h.
  rewrite !Rltb_false by lra. unfold Rgtb. rewrite !Rltb_false by lra.
  tool_cases s. eexists. split; [reflexivity |].
  splits; try reflexivity.
  unfold textBoxStyle. cbn. fold w h px py.
  rewrite !scale_back by lra. reflexivity.
Qed.

(** [text_box_placed] for a press at (400,500) on the page of 800 by 1000
    pixels. *)
Lemma text_box_placed_witness :
  let s' := handleMouseDown 7 (mkMouseEvent 400 500) (Some page)
              (loadedPage ToolMode.text) in
  exists box,
    textBoxes s' = [box]
    /\ textBoxStyle (mkCanvasSize 800 1000) box
       = mkTextBoxStyle (500 - 0) (400 - 0) 200 60 4 1.
Proof.
  assert (Hw : 0 < DOMRect.width page) by (cbn; lra).
  assert (Hh : 0 < DOMRect.height page) by (cbn; lra).
  assert (Hx : 0 <= clientX (mkMouseEvent 400 500) - DOMRect.left page
               <= DOMRect.width page) by (cbn; lra).
  assert (Hy : 0 <= clientY (mkMouseEvent 400 500) - DOMRect.top page
               <= DOMRect.height page) by (cbn; lra).
  destruct (text_box_placed 7 (mkMouseEvent 400 500) page (mkDoc 1)
              (mkCanvasSize 800 1000) (loadedPage ToolMode.text)
              eq_refl eq_refl eq_refl Hw Hh Hx Hy)
    as (box & E & _ & _ & _ & _ & _ & _ & _ & P).
  exists box. split; [exact E | exact P].
Defined.

(** ** Styles *)

Lemma tool_is_line (s : State) : isLine s = true -> tool s = ToolMode.line.
Proof. unfold isLine. now destruct (tool s). Qed.

(** A press with the line tool inside the canvas. *)
Lemma handleMouseDown_line (now : Z) (e : MouseEvent) (rect : DOMRect)
  (doc : PDFDocumentProxy) (size : CanvasSize) (s : State) :
  let w := DOMRect.width rect in
  let h := DOMRect.height rect in
  let px := clientX e - DOMRect.left rect in
  let py := clientY e - DOMRect.top rect in
  tool s = ToolMode.line ->
  pdfDoc s = Some doc ->
  canvasSize s = Some size ->
  dragModeRef s = DragMode.none ->
  0 <= px <= w -> 0 <= py <= h ->
  lines (handleMouseDown now e (Some rect) s)
  = lines s
    ++ [Line.mk now (px / w) (py / h) (px / w) (py / h)
          (lineStyle s) (lineWidth s) (arrowEnd s) (lineColor s)].
Proof.
  intros w h px py Htool Hdoc Hsize Hmode Hpx Hpy.
  unfold handleMouseDown, isHand, isLine, isArea, isText.
  rewrite Htool, Hdoc, Hsize, Hmode. fold px py w h.
  rewrite !Rltb_false by lra. unfold Rgtb. rewrite !Rltb_false by lra.
  reflexivity.
Qed.

Lemma onSelectedLine_frame (f : Line -> Line) (s : State) :
  let place l := (Line.id l, Line.x1 l, Line.y1 l, Line.x2 l, Line.y2 l) in
  (forall l, place (f l) = place l) ->
  let s1 := onSelectedLine f s in
  map place (lines s1) = map place (lines s)
  /\ tool s1 = tool s /\ pdfDoc s1 = pdfDoc s
  /\ canvasSize s1 = canvasSize s
  /\ dragModeRef s1 = dragModeRef s
  /\ lineStyle s1 = lineStyle s /\ lineWidth s1 = lineWidth s
  /\ arrowEnd s1 = arrowEnd s /\ lineColor s1 = lineColor s.
Proof.
  intros place Hf. cbv zeta. unfold onSelectedLine.
  destruct (selectedLineId s) as [sel |]; splits; try reflexivity.
  cbn [lines setLines]. rewrite map_map. apply map_ext. intros l.
  destruct (Line.id l =? sel)%Z; [apply Hf | reflexivity].
Qed.

Lemma onSelectedArea_frame (g : AreaShape -> AreaShape) (s : State) :
  let s1 := onSelectedArea g s in
  lines s1 = lines s
  /\ tool s1 = tool s /\ pdfDoc s1 = pdfDoc s
  /\ canvasSize s1 = canvasSize s
  /\ dragModeRef s1 = dragModeRef s
  /\ lineStyle s1 = lineStyle s /\ lineWidth s1 = lineWidth s
  /\ arrowEnd s1 = arrowEnd s /\ lineColor s1 = lineColor s.
Proof.
  cbv zeta. unfold onSelectedArea.
  destruct (selectedAreaId s); splits; reflexivity.
Qed.

Lemma handleChangeLineStyle_frame (style : LineStyle) (s : State) :
  let place l := (Line.id l, Line.x1 l, Line.y1 l, Line.x2 l, Line.y2 l) in
  let s1 := handleChangeLineStyle style s in
  map place (lines s1) = map place (lines s)
  /\ tool s1 = tool s /\ pdfDoc s1 = pdfDoc s
  /\ canvasSize s1 = canvasSize s
  /\ dragModeRef s1 = dragModeRef s
  /\ lineStyle s1 = style /\ lineWidth s1 = lineWidth s
  /\ arrowEnd s1 = arrowEnd s /\ lineColor s1 = lineColor s.
Proof.
  intros place. cbv zeta. unfold handleChangeLineStyle, seq_.
  destruct (onSelectedLine_frame (lineWithStyle style)
              (setLineStyle style s) (fun l => eq_refl))
    as (H1 & Ft & Fd & Fc & Fm & Fs & Fw & Fa & Fcol).
  splits; [exact H1 | exact Ft | exact Fd | exact Fc | exact Fm | exact Fs
          | exact Fw | exact Fa | exact Fcol].
Qed.

Lemma handleChangeLineWidth_frame (width : R) (s : State) :
  let place l := (Line.id l, Line.x1 l, Line.y1 l, Line.x2 l, Line.y2 l) in
  let s1 := handleChangeLineWidth width s in
  map place (lines s1) = map place (lines s)
  /\ tool s1 = tool s /\ pdfDoc s1 = pdfDoc s
  /\ canvasSize s1 = canvasSize s
  /\ dragModeRef s1 = dragModeRef s
  /\ lineStyle s1 = lineStyle s /\ lineWidth s1 = width
  /\ arrowEnd s1 = arrowEnd s /\ lineColor s1 = lineColor s.
Proof.
  intros place. cbv zeta. unfold handleChangeLineWidth, seq_.
  destruct (onSelectedLine_frame (lineWithThickness width)
              (setLineWidth width s) (fun l => eq_refl))
    as (H1 & Ft & Fd & Fc & Fm & Fs & Fw & Fa & Fcol).
  splits; [exact H1 | exact Ft | exact Fd | exact Fc | exact Fm | exact Fs
          | exact Fw | exact Fa | exact Fcol].
Qed.

Lemma handleChangeArrowEnd_frame (value : bool) (s : State) :
  let place l := (Line.id l, Line.x1 l, Line.y1 l, Line.x2 l, Line.y2 l) in
  let s1 := handleChangeArrowEnd value s in
  map place (lines s1) = map place (lines s)
  /\ tool s1 = tool s /\ pdfDoc s1 = pdfDoc s
  /\ canvasSize s1 = canvasSize s
  /\ dragModeRef s1 = dragModeRef s
  /\ lineStyle s1 = lineStyle s /\ lineWidth s1 = lineWidth s
  /\ arrowEnd s1 = value /\ lineColor s1 = lineColor s.
Proof.
  intros place. cbv zeta. unfold handleChangeArrowEnd, seq_.
  destruct (onSelectedLine_frame (lineWithArrowEnd value)
              (setArrowEnd value s) (fun l => eq_refl))
    as (H1 & Ft & Fd & Fc & Fm & Fs & Fw & Fa & Fcol).
  splits; [exact H1 | exact Ft | exact Fd | exact Fc | exact Fm | exact Fs
          | exact Fw | exact Fa | exact Fcol].
Qed.

Lemma handleChangeLineColor_frame (color : string) (s : State) :
  let place l := (Line.id l, Line.x1 l, Line.y1 l, Line.x2 l, Line.y2 l) in
  let s1 := handleChangeLineColor color s in
  map place (lines s1) = map place (lines s)
  /\ tool s1 = tool s /\ pdfDoc s1 = pdfDoc s
  /\ canvasSize s1 = canvasSize s
  /\ dragModeRef s1 = dragModeRef s
  /\ lineStyle s1 = lineStyle s /\ lineWidth s1 = lineWidth s
  /\ arrowEnd s1 = arrowEnd s /\ lineColor s1 = color.
Proof.
  intros place. cbv zeta. unfold handleChangeLineColor, seq_.
  destruct (onSelectedLine_frame (lineWithColor color)
              (setLineColor color s) (fun l => eq_refl))
    as (H1 & Ft & Fd & Fc & Fm & Fs & Fw & Fa & Fcol).
  destruct (onSelectedArea_frame (areaWithColor color)
              (onSelectedLine (lineWithColor color) (setLineColor color s)))
    as (G1 & Gt & Gd & Gc & Gm & Gs & Gw & Ga & Gcol).
  splits.
  - rewrite G1. exact H1.
  - rewrite Gt. exact Ft.
  - rewrite Gd. exact Fd.
  - rewrite Gc. exact Fc.
  - rewrite Gm. exact Fm.
  - rewrite Gs. exact Fs.
  - rewrite Gw. exact Fw.
  - rewrite Ga. exact Fa.
  - rewrite Gcol. exact Fcol.
Qed.

Lemma line_styles_frame (style : LineStyle) (color : string) (width : R)
  (arrow : bool) (s : State) :
  let place l := (Line.id l, Line.x1 l, Line.y1 l, Line.x2 l, Line.y2 l) in
  let s1 := handleChangeArrowEnd arrow
              (handleChangeLineWidth width
                 (handleChangeLineColor color
                    (handleChangeLineStyle style s))) in
  map place (lines s1) = map place (lines s)
  /\ tool s1 = tool s /\ pdfDoc s1 = pdfDoc s
  /\ canvasSize s1 = canvasSize s
  /\ dragModeRef s1 = dragModeRef s
  /\ lineStyle s1 = style /\ lineWidth s1 = width
  /\ arrowEnd s1 = arrow /\ lineColor s1 = color.
Proof.
  cbv zeta.
  pose proof (handleChangeLineStyle_frame style s) as A. cbv zeta in A.
  set (sa := handleChangeLineStyle style s) in *.
  pose proof (handleChangeLineColor_frame color sa) as B. cbv zeta in B.
  set (sb := handleChangeLineColor color sa) in *.
  pose proof (handleChangeLineWidth_frame width sb) as C. cbv zeta in C.
  set (sc := handleChangeLineWidth width sb) in *.
  pose proof (handleChangeArrowEnd_frame arrow sc) as D. cbv zeta in D.
  set (sd := handleChangeArrowEnd arrow sc) in *.
  clearbody sa sb sc sd.
  destruct A as (A1 & A2 & A3 & A4 & A5 & A6 & A7 & A8 & A9).
  destruct B as (B1 & B2 & B3 & B4 & B5 & B6 & B7 & B8 & B9).
  destruct C as (C1 & C2 & C3 & C4 & C5 & C6 & C7 & C8 & C9).
  destruct D as (D1 & D2 & D3 & D4 & D5 & D6 & D7 & D8 & D9).
  splits.
  - rewrite D1, C1, B1. exact A1.
  - rewrite D2, C2, B2. exact A2.
  - rewrite D3, C3, B3. exact A3.
  - rewrite D4, C4, B4. exact A4.
  - rewrite D5, C5, B5. exact A5.
  - rewrite D6, C6, B6. exact A6.
  - rewrite D7. exact C7.
  - exact D8.
  - rewrite D9, C9. exact B9.
Qed.

(** X16.  The four line style controls never move, add, remove or re-id a
    line, and a line drawn afterwards carries the four values chosen:
    after setting style, colour, thickness and arrow, a press with the line
    tool inside the canvas appends a line at the pointer with exactly these
    values. *)
Theorem line_styles_drive_creation (style : LineStyle) (color : string)
  (width : R) (arrow : bool) (now : Z) (e : MouseEvent) (rect : DOMRect)
  (doc : PDFDocumentProxy) (size : CanvasSize) (s : State) :
  let w := DOMRect.width rect in
  let h := DOMRect.height rect in
  let px := clientX e - DOMRect.left rect in
  let py := clientY e - DOMRect.top rect in
  let place l := (Line.id l, Line.x1 l, Line.y1 l, Line.x2 l, Line.y2 l) in
  isLine s = true ->
  pdfDoc s = Some doc ->
  canvasSize s = Some size ->
  dragModeRef s = DragMode.none ->
  0 <= px <= w -> 0 <= py <= h ->
  let s1 := handleChangeArrowEnd arrow
              (handleChangeLineWidth width
                 (handleChangeLineColor color
                    (handleChangeLineStyle style s))) in
  let s2 := handleMouseDown now e (Some rect) s1 in
  map place (lines s1) = map place (lines s)
  /\ lines s2
     = lines s1
       ++ [Line.mk now (px / w) (py / h) (px / w) (py / h)
             style width arrow color].
Proof.
  intros w h px py place Htool Hdoc Hsize Hmode Hpx Hpy.
  destruct (line_styles_frame style color width arrow s)
    as (H1 & Ft & Fd & Fc & Fm & Fs & Fw & Fa & Fcol).
  apply tool_is_line in Htool.
  intros s1 s2. split; [exact H1 |].
  unfold s2.
  rewrite (handleMouseDown_line now e rect doc size s1).
  - unfold s1. now rewrite Fs, Fw, Fa, Fcol.
  - unfold s1. now rewrite Ft.
  - unfold s1. now rewrite Fd.
  - unfold s1. now rewrite Fc.
  - unfold s1. now rewrite Fm.
  - exact Hpx.
  - exact Hpy.
Qed.

(** [line_styles_drive_creation]: dashed, black, 3 wide and with an arrow
    are chosen, then a line is begun at (80,100). *)
Lemma line_styles_drive_creation_witness :
  let s1 := handleChangeArrowEnd true
              (handleChangeLineWidth 3
                 (handleChangeLineColor "#000000"
                    (handleChangeLineStyle LineStyle.dashed
                       (loadedPage ToolMode.line)))) in
  lines (handleMouseDown 7 (mkMouseEvent 80 100) (Some page) s1)
  = [Line.mk 7 ((80 - 0) / 800) ((100 - 0) / 1000) ((80 - 0) / 800)
       ((100 - 0) / 1000) LineStyle.dashed 3 true "#000000"].
Proof.
  assert (Hx : 0 <= clientX (mkMouseEvent 80 100) - DOMRect.left page
               <= DOMRect.width page) by (cbn; lra).
  assert (Hy : 0 <= clientY (mkMouseEvent 80 100) - DOMRect.top page
               <= DOMRect.height page) by (cbn; lra).
  cbv zeta.
  rewrite (proj2
             (line_styles_drive_creation LineStyle.dashed "#000000" 3 true 7
                (mkMouseEvent 80 100) page (mkDoc 1)
                (mkCanvasSize 800 1000) (loadedPage ToolMode.line)
                eq_refl eq_refl eq_refl eq_refl Hx Hy)).
  reflexivity.
Defined.

Lemma startLineMove_defaults (e0 : MouseEvent) (rect0 : DOMRect)
  (lineId : Z) (line : Line) (s : State) :
  isLine s || isSelect s = true ->
  find (fun l => (Line.id l =? lineId)%Z) (lines s) = Some line ->
  let s1 := setTool ToolMode.line
              (endPanOrDraw (startLineMove e0 (Some rect0) lineId s)) in
  lines s1 = lines s
  /\ tool s1 = ToolMode.line /\ pdfDoc s1 = pdfDoc s
  /\ canvasSize s1 = canvasSize s
  /\ dragModeRef s1 = DragMode.none
  /\ lineStyle s1 = Line.style line /\ lineWidth s1 = Line.thickness line
  /\ arrowEnd s1 = Line.arrowEnd line /\ lineColor s1 = Line.color line.
Proof.
  intros Htool Hfind. cbv zeta. unfold startLineMove. cbn [notNull negb].
  assert (T : negb (isLine s) && negb (isSelect s) || false = false)
    by (destruct (isLine s), (isSelect s); cbn in *; congruence).
  rewrite T, Hfind. unfold endPanOrDraw.
  destruct (isHand _); cbn; splits; reflexivity.
Qed.

(** X17.  Pressing an existing line makes its style the style of the next
    line drawn: after a press on a line with the select or the line tool,
    the end of the gesture and the choice of the line tool, a press inside
    the canvas appends a line with the style, thickness, arrow and colour of
    the line pressed. *)
Theorem pressed_line_styles_next (e0 e : MouseEvent) (rect0 rect : DOMRect)
  (lineId now : Z) (line : Line) (doc : PDFDocumentProxy)
  (size : CanvasSize) (s : State) :
  let w := DOMRect.width rect in
  let h := DOMRect.height rect in
  let px := clientX e - DOMRect.left rect in
  let py := clientY e - DOMRect.top rect in
  isLine s || isSelect s = true ->
  find (fun l => (Line.id l =? lineId)%Z) (lines s) = Some line ->
  pdfDoc s = Some doc ->
  canvasSize s = Some size ->
  0 <= px <= w -> 0 <= py <= h ->
  let s' := run [StartLineMove e0 (Some rect0) lineId; EndPanOrDraw;
                 SetTool ToolMode.line;
                 HandleMouseDown now e (Some rect)] s in
  lines s'
  = lines s
    ++ [Line.mk now (px / w) (py / h) (px / w) (py / h)
          (Line.style line) (Line.thickness line) (Line.arrowEnd line)
          (Line.color line)].
Proof.
  intros w h px py Htool Hfind Hdoc Hsize Hpx Hpy s'.
  destruct (startLineMove_defaults e0 rect0 lineId line s Htool Hfind)
    as (Fl & Ft & Fd & Fc & Fm & Fs & Fw & Fa & Fcol).
  unfold s'. cbn [run step].
  rewrite (handleMouseDown_line now e rect doc size).
  - now rewrite Fl, Fs, Fw, Fa, Fcol.
  - exact Ft.
  - now rewrite Fd.
  - now rewrite Fc.
  - exact Fm.
  - exact Hpx.
  - exact Hpy.
Qed.

(** [pressed_line_styles_next]: a dashed black arrow is pressed at
    (120,150), then a line is begun at (80,100). *)
Lemma pressed_line_styles_next_witness :
  let l0 := Line.mk 5 0.1 0.1 0.2 0.2 LineStyle.dashed 3 true "#000000" in
  let s := setLines [l0] (loadedPage ToolMode.select) in
  lines (run [StartLineMove (mkMouseEvent 120 150) (Some page) 5;
              EndPanOrDraw; SetTool ToolMode.line;
              HandleMouseDown 7 (mkMouseEvent 80 100) (Some page)] s)
  = [l0;
     Line.mk 7 ((80 - 0) / 800) ((100 - 0) / 1000) ((80 - 0) / 800)
       ((100 - 0) / 1000) LineStyle.dashed 3 true "#000000"].
Proof.
  assert (Hx : 0 <= clientX (mkMouseEvent 80 100) - DOMRect.left page
               <= DOMRect.width page) by (cbn; lra).
  assert (Hy : 0 <= clientY (mkMouseEvent 80 100) - DOMRect.top page
               <= DOMRect.height page) by (cbn; lra).
  cbv zeta.
  rewrite (pressed_line_styles_next (mkMouseEvent 120 150)
             (mkMouseEvent 80 100) page page 5 7
             (Line.mk 5 0.1 0.1 0.2 0.2 LineStyle.dashed 3 true "#000000")
             (mkDoc 1) (mkCanvasSize 800 1000)
             (setLines
                [Line.mk 5 0.1 0.1 0.2 0.2 LineStyle.dashed 3 true "#000000"]
                (loadedPage ToolMode.select))
             eq_refl eq_refl eq_refl eq_refl Hx Hy).
  reflexivity.
Defined.

Lemma map_fixes {A} (h : A -> A) (l : list A) :
  (forall x, In x l -> h x = x) -> map h l = l.
Proof.
  intros H. rewrite <- (map_id l) at 2. now apply map_ext_in.
Qed.

(** X18.  [handleToggleTextBold] gives the default and every selected text
    box the negated default.  Toggling twice restores the state when the
    selected boxes agreed with the default before, as they do once a box
    was pressed; a box that disagreed is brought in line instead. *)
Theorem toggle_bold_twice (s : State) :
  let s1 := handleToggleTextBold s in
  let s2 := handleToggleTextBold s1 in
  textBold s1 = negb (textBold s)
  /\ (forall sel box,
        selectedTextId s = Some sel -> In box (textBoxes s1) ->
        TextBox.id box = sel -> TextBox.bold box = textBold s1)
  /\ textBold s2 = textBold s
  /\ (forall sel,
        selectedTextId s = Some sel ->
        (forall box, In box (textBoxes s) -> TextBox.id box = sel ->
                     TextBox.bold box = textBold s) ->
        s2 = s)
  /\ (selectedTextId s = None -> textBoxes s1 = textBoxes s).
Proof.
  cbv zeta. unfold handleToggleTextBold, applyTextStyleToSelection.
  splits.
  - now destruct (selectedTextId s).
  - intros sel box E Hin Hid. cbn in Hin |- *. rewrite E in Hin.
    rewrite ?E. cbn in Hin |- *.
    apply in_map_iff in Hin. destruct Hin as [b [Hb _]].
    destruct (TextBox.id b =? sel)%Z eqn:Eb.
    + now subst box.
    + subst box. apply Z.eqb_neq in Eb. contradiction.
  - destruct (selectedTextId s); cbn; apply negb_involutive.
  - intros sel E Hagree. cbn. rewrite E. cbn. rewrite E. cbn.
    rewrite negb_involutive, map_map.
    rewrite map_fixes.
    + now destruct s.
    + intros b Hb. destruct (TextBox.id b =? sel)%Z eqn:Eb.
      * cbn. rewrite Eb. apply Z.eqb_eq in Eb.
        rewrite <- (Hagree b Hb Eb). now destruct b.
      * now rewrite Eb.
  - intros E. cbn. now rewrite E.
Qed.

(** ** What the overlay draws for a line *)

(** The path of a wavy line of the overlay, which asks for the amplitude 4
    and the wavelength 14. *)
Lemma overlay_wavy_path (x1 y1 x2 y2 : R) :
  exists curves cx cy,
    makeWavyPath x1 y1 x2 y2 4 14 = Some (M x1 y1 :: curves)
    /\ (2 <= List.length curves)%nat
    /\ nth_error curves (List.length curves - 1) = Some (Q cx cy x2 y2).
Proof.
  pose proof (wavySegments_ge_2 x1 y1 x2 y2 14) as Hge.
  unfold makeWavyPath.
  destruct (Req_dec_T 14 0) as [E | _]; [lra |].
  cbv zeta.
  set (n := wavySegments x1 y1 x2 y2 14) in *.
  eexists. do 2 eexists. split; [reflexivity |].
  rewrite length_map, upto_length. split; [lia |].
  replace (Z.to_nat n - 1)%nat with (Z.to_nat (n - 1)) by lia.
  rewrite nth_error_map, (upto_nth n n) by lia. cbn [option_map].
  do 2 f_equal; field; apply not_0_IZR; lia.
Qed.

(** X19.  Whatever its style, the overlay draws a line from its first to
    its second endpoint, both scaled to the canvas: a wavy line as a path
    (the call of [makeWavyPath] of the overlay always returns one) that
    starts at the first endpoint and whose last curve ends at the second,
    any other line as a segment between the two, dashed exactly when its
    style is dashed, dotted or dot-dash.  The arrowhead is drawn exactly
    when the line has [arrowEnd], with its tip on the second endpoint. *)
Theorem overlay_line_joins_endpoints (canvasSize : CanvasSize) (line : Line) :
  let x1 := Line.x1 line * cs_width canvasSize in
  let y1 := Line.y1 line * cs_height canvasSize in
  let x2 := Line.x2 line * cs_width canvasSize in
  let y2 := Line.y2 line * cs_height canvasSize in
  match Line.style line with
  | LineStyle.wavy =>
      exists curves cx cy,
        lineMainElement canvasSize line = WavyEl (Some (M x1 y1 :: curves))
        /\ (2 <= List.length curves)%nat
        /\ nth_error curves (List.length curves - 1) = Some (Q cx cy x2 y2)
  | style =>
      exists dash,
        lineMainElement canvasSize line = StraightEl x1 y1 x2 y2 dash
        /\ (dash = None <-> style = LineStyle.solid)
  end
  /\ match lineArrowhead canvasSize line with
     | Some corners =>
         Line.arrowEnd line = true
         /\ exists l r, corners = [(x2, y2); l; r]
     | None => Line.arrowEnd line = false
     end.
Proof.
  cbv zeta. split.
  - unfold lineMainElement.
    destruct (Line.style line) eqn:E; cbn;
      try (eexists; split; [reflexivity |]; split; congruence).
    destruct (overlay_wavy_path
                (Line.x1 line * cs_width canvasSize)
                (Line.y1 line * cs_height canvasSize)
                (Line.x2 line * cs_width canvasSize)
                (Line.y2 line * cs_height canvasSize))
      as (curves & cx & cy & Hp & Hlen & Hlast).
    exists curves, cx, cy. rewrite Hp. now splits.
  - unfold lineArrowhead, getArrowPoints.
    destruct (Line.arrowEnd line); [| reflexivity].
    split; [reflexivity |]. do 2 eexists. reflexivity.
Qed.

(** ** Dash patterns *)

(** X20.  For a positive width every dash pattern, of a line or of the
    outline of an area, is a list of positive lengths of even size, so
    dashes and gaps alternate the same way in every repetition; only the
    solid and the wavy style have no pattern. *)
Theorem dash_patterns_positive (width : R) :
  0 < width ->
  (forall style,
      match getDashArray style width with
      | Some pattern =>
          Forall (fun v => 0 < v) pattern
          /\ Nat.even (List.length pattern) = true
          /\ style <> LineStyle.solid /\ style <> LineStyle.wavy
      | None => style = LineStyle.solid \/ style = LineStyle.wavy
      end)
  /\ (forall style,
        match getOutlineDashArray style width with
        | Some pattern =>
            Forall (fun v => 0 < v) pattern
            /\ Nat.even (List.length pattern) = true
            /\ style <> OutlineStyle.solid
        | None => style = OutlineStyle.solid
        end).
Proof.
  intros Hw. split; intros style; destruct style; cbn;
    try (now left); try (now right); try reflexivity;
    splits; try reflexivity; try congruence;
    repeat (apply Forall_cons; [lra |]); apply Forall_nil.
Qed.

(** [dash_patterns_positive] for the default width 2. *)
Lemma dash_patterns_positive_witness :
  getDashArray LineStyle.dotdash 2 = Some [2; 2 * 1.5; 4 * 2; 2 * 1.5]
  /\ Forall (fun v => 0 < v) [2; 2 * 1.5; 4 * 2; 2 * 1.5].
Proof.
  assert (H : 0 < 2) by lra.
  split; [reflexivity |].
  exact (proj1 (proj1 (dash_patterns_positive 2 H) LineStyle.dotdash)).
Defined.

(** ** The style of an area *)

(** A press with the area tool inside the canvas. *)
Lemma handleMouseDown_area (now : Z) (e : MouseEvent) (rect : DOMRect)
  (doc : PDFDocumentProxy) (size : CanvasSize) (s : State) :
  let w := DOMRect.width rect in
  let h := DOMRect.height rect in
  let px := clientX e - DOMRect.left rect in
  let py := clientY e - DOMRect.top rect in
  tool s = ToolMode.area ->
  pdfDoc s = Some doc ->
  canvasSize s = Some size ->
  areaDragModeRef s = DragMode.none ->
  0 <= px <= w -> 0 <= py <= h ->
  areas (handleMouseDown now e (Some rect) s)
  = areas s
    ++ [AreaShape.mk now (areaShapeType s)
          match areaShapeType s with
          | AreaShapeType.freeform => [Point.mk (px / w) (py / h)]
          | _ => [Point.mk (px / w) (py / h); Point.mk (px / w) (py / h)]
          end
          (areaOutlineStyle s) (areaThickness s) (lineColor s)
          (areaFillOpacity s)].
Proof.
  intros w h px py Htool Hdoc Hsize Hmode Hpx Hpy.
  unfold handleMouseDown, isHand, isLine, isArea, isText.
  rewrite Htool, Hdoc, Hsize, Hmode. fold px py w h.
  rewrite !Rltb_false by lra. unfold Rgtb. rewrite !Rltb_false by lra.
  reflexivity.
Qed.

Lemma tool_is_area (s : State) : isArea s = true -> tool s = ToolMode.area.
Proof. unfold isArea. now destruct (tool s). Qed.

(** X21.  [copyAreaStyleFromSelection] makes the style of the selected area
    the style of the next area drawn: after it, a press with the area tool
    inside the canvas appends an area of the current shape with the outline
    style, thickness, colour and fill opacity of the selected area.  The
    areas themselves, the tool and the selection are not changed by it. *)
Theorem copied_area_style_next (now : Z) (e : MouseEvent) (rect : DOMRect)
  (doc : PDFDocumentProxy) (size : CanvasSize) (sel : Z) (area : AreaShape)
  (s : State) :
  let w := DOMRect.width rect in
  let h := DOMRect.height rect in
  let px := clientX e - DOMRect.left rect in
  let py := clientY e - DOMRect.top rect in
  isArea s = true ->
  selectedAreaId s = Some sel ->
  find (fun a => (AreaShape.id a =? sel)%Z) (areas s) = Some area ->
  pdfDoc s = Some doc ->
  canvasSize s = Some size ->
  areaDragModeRef s = DragMode.none ->
  0 <= px <= w -> 0 <= py <= h ->
  let s1 := copyAreaStyleFromSelection s in
  let s2 := handleMouseDown now e (Some rect) s1 in
  areas s1 = areas s /\ lines s1 = lines s /\ textBoxes s1 = textBoxes s
  /\ selectedIds s1 = selectedIds s /\ tool s1 = tool s
  /\ exists new,
       areas s2 = areas s ++ [new]
       /\ AreaShape.id new = now
       /\ AreaShape.type new = areaShapeType s
       /\ (AreaShape.outlineStyle new, AreaShape.thickness new,
           AreaShape.color new, AreaShape.fillOpacity new)
          = (AreaShape.outlineStyle area, AreaShape.thickness area,
             AreaShape.color area, AreaShape.fillOpacity area).
Proof.
  intros w h px py Htool Hsel Hfind Hdoc Hsize Hmode Hpx Hpy s1 s2.
  apply tool_is_area in Htool.
  assert (E : s1 = (setAreaOutlineStyle (AreaShape.outlineStyle area) ;;
                    setAreaThickness (AreaShape.thickness area) ;;
                    setAreaFillOpacity (AreaShape.fillOpacity area) ;;
                    setLineColor (AreaShape.color area)) s).
  { unfold s1, copyAreaStyleFromSelection. now rewrite Hsel, Hfind. }
  splits; try (rewrite E; reflexivity).
  unfold s2.
  rewrite (handleMouseDown_area now e rect doc size s1);
    try (rewrite E; cbn; assumption); try assumption.
  rewrite E. eexists. split; [reflexivity |]. now splits.
Qed.

(** [copied_area_style_next]: a dashed circle is selected, then a rectangle
    is begun at (80,100). *)
Lemma copied_area_style_next_witness :
  let a0 := AreaShape.mk 3 AreaShapeType.circle
              [Point.mk 0.1 0.1; Point.mk 0.2 0.2] OutlineStyle.dashed 5
              "#000000" 0.5 in
  let s := setSelectedAreaId (Some 3%Z)
             (setAreas [a0] (loadedPage ToolMode.area)) in
  exists new,
    areas (handleMouseDown 7 (mkMouseEvent 80 100) (Some page)
             (copyAreaStyleFromSelection s))
    = [a0; new]
    /\ (AreaShape.outlineStyle new, AreaShape.thickness new,
        AreaShape.color new, AreaShape.fillOpacity new)
       = (OutlineStyle.dashed, 5, "#000000"%string, 0.5).
Proof.
  assert (Hx : 0 <= clientX (mkMouseEvent 80 100) - DOMRect.left page
               <= DOMRect.width page) by (cbn; lra).
  assert (Hy : 0 <= clientY (mkMouseEvent 80 100) - DOMRect.top page
               <= DOMRect.height page) by (cbn; lra).
  cbv zeta.
  destruct (copied_area_style_next 7 (mkMouseEvent 80 100) page (mkDoc 1)
              (mkCanvasSize 800 1000) 3
              (AreaShape.mk 3 AreaShapeType.circle
                 [Point.mk 0.1 0.1; Point.mk 0.2 0.2] OutlineStyle.dashed 5
                 "#000000" 0.5)
              (setSelectedAreaId (Some 3%Z)
                 (setAreas
                    [AreaShape.mk 3 AreaShapeType.circle
                       [Point.mk 0.1 0.1; Point.mk 0.2 0.2]
                       OutlineStyle.dashed 5 "#000000" 0.5]
                    (loadedPage ToolMode.area)))
              eq_refl eq_refl eq_refl eq_refl eq_refl eq_refl Hx Hy)
    as (_ & _ & _ & _ & _ & new & E & _ & _ & St).
  exists new. split; [exact E | exact St].
Defined.

(** ** The keyboard *)

(** X22.  A key press never adds or alters an entity: every line, area and
    text box left was there before.  A key other than Delete and Backspace
    changes nothing, the two keys do the same, and with nothing selected
    no key changes anything. *)
Theorem handleKeyDown_only_removes (key : string) (s : State) :
  let s' := handleKeyDown key s in
  incl (lines s') (lines s) /\ incl (areas s') (areas s)
  /\ incl (textBoxes s') (textBoxes s)
  /\ (key <> "Delete"%string -> key <> "Backspace"%string -> s' = s)
  /\ handleKeyDown "Delete" s = handleKeyDown "Backspace" s
  /\ (hasSelection s = false -> s' = s).
Proof.
  cbv zeta. unfold handleKeyDown, hasSelection.
  assert (D : incl (lines (deleteSelected s)) (lines s)
              /\ incl (areas (deleteSelected s)) (areas s)
              /\ incl (textBoxes (deleteSelected s)) (textBoxes s)).
  { unfold deleteSelected.
    destruct (selectedLineId s); [| destruct (selectedAreaId s);
                                    [| destruct (selectedTextId s)]];
      cbn; splits; try apply incl_refl; apply incl_filter. }
  destruct D as (Dl & Da & Dt).
  splits.
  - destruct (_ && _); [apply incl_refl | exact Dl].
  - destruct (_ && _); [apply incl_refl | exact Da].
  - destruct (_ && _); [apply incl_refl | exact Dt].
  - intros H1 H2. apply String.eqb_neq in H1, H2. now rewrite H1, H2.
  - reflexivity.
  - intros H. destruct (_ && _); [reflexivity |].
    unfold deleteSelected.
    destruct (selectedLineId s); [discriminate |].
    destruct (selectedAreaId s); [discriminate |].
    destruct (selectedTextId s); [discriminate | reflexivity].
Qed.

(** ** The selection never dangles *)

Lemma existsb_id_In {A} (idOf : A -> Z) (i : Z) (l : list A) :
  existsb (fun x => (idOf x =? i)%Z) l = true <-> In i (map idOf l).
Proof.
  rewrite existsb_exists, in_map_iff. split.
  - intros (x & Hx & E). apply Z.eqb_eq in E. now exists x.
  - intros (x & E & Hx). exists x. split; [exact Hx |].
    now apply Z.eqb_eq.
Qed.

Lemma selectionPresent_spec (s : State) :
  selectionPresent s = true
  <-> (forall i, selectedLineId s = Some i -> In i (map Line.id (lines s)))
      /\ (forall i, selectedAreaId s = Some i ->
                    In i (map AreaShape.id (areas s)))
      /\ (forall i, selectedTextId s = Some i ->
                    In i (map TextBox.id (textBoxes s))).
Proof.
  unfold selectionPresent. rewrite !andb_true_iff. split.
  - intros ((Hl & Ha) & Ht). splits; intros i E; rewrite E in *;
      now apply existsb_id_In.
  - intros (Hl & Ha & Ht). splits.
    + destruct (selectedLineId s) as [i |]; [| reflexivity].
      now apply existsb_id_In, Hl.
    + destruct (selectedAreaId s) as [i |]; [| reflexivity].
      now apply existsb_id_In, Ha.
    + destruct (selectedTextId s) as [i |]; [| reflexivity].
      now apply existsb_id_In, Ht.
Qed.

Lemma In_app_id {A} (idOf : A -> Z) (l : list A) (x : A) (i : Z) :
  In i (map idOf l) -> In i (map idOf (l ++ [x])).
Proof. intros H. rewrite map_app. apply in_or_app. now left. Qed.

Lemma In_found_id {A} (idOf : A -> Z) (l : list A) (x : A) (i : Z) :
  find (fun y => (idOf y =? i)%Z) l = Some x -> In i (map idOf l).
Proof.
  intros F. apply find_some in F. destruct F as [Hx E].
  apply Z.eqb_eq in E. subst i. now apply in_map.
Qed.

Lemma In_map_same_id {A} (idOf : A -> Z) (f : A -> A) (l : list A) (i : Z) :
  (forall x, idOf (f x) = idOf x) ->
  In i (map idOf l) -> In i (map idOf (map f l)).
Proof.
  intros Hf H. rewrite map_map.
  now rewrite (map_ext _ idOf Hf).
Qed.

Lemma dragLine_id (mode : DragMode) (dragId : Z) (st : LineDragStart.t)
  (dx dy : R) (l : Line) :
  Line.id (dragLine mode dragId st dx dy l) = Line.id l.
Proof.
  unfold dragLine. destruct (negb _); [reflexivity |]. now destruct mode.
Qed.

Lemma dragArea_id (mode : DragMode) (dragId : Z) (st : AreaDragStart.t)
  (dx dy : R) (a : AreaShape) :
  AreaShape.id (dragArea mode dragId st dx dy a) = AreaShape.id a.
Proof.
  unfold dragArea. cbv zeta. destruct (negb (_ =? _)%Z); [reflexivity |].
  destruct mode; try reflexivity;
    destruct (AreaDragStart.points st) as [| p1 [| p2 more]];
    try reflexivity;
    destruct (negb (isFreeform _)); reflexivity.
Qed.

Lemma dragText_id (mode : TextDragMode) (dragId : Z) (st : TextDragStart.t)
  (dx dy : R) (b : TextBox) :
  TextBox.id (dragText mode dragId st dx dy b) = TextBox.id b.
Proof.
  unfold dragText. destruct (negb _); [reflexivity |]. now destruct mode.
Qed.

Lemma drawLine_id (cur : Z) (nx ny : R) (l : Line) :
  Line.id (drawLine cur nx ny l) = Line.id l.
Proof. unfold drawLine. now destruct (_ =? _)%Z. Qed.

Lemma drawArea_id (cur : Z) (nx ny : R) (a : AreaShape) :
  AreaShape.id (drawArea cur nx ny a) = AreaShape.id a.
Proof.
  unfold drawArea. destruct (negb _); [reflexivity |].
  destruct (isFreeform _); [reflexivity |].
  now destruct (AreaShape.points a).
Qed.

(** Opens the invariant in a hypothesis and in the goal. *)
Ltac present_open H :=
  apply selectionPresent_spec in H;
  let Hl := fresh "Hl" in
  let Ha := fresh "Ha" in
  let Ht := fresh "Ht" in
  destruct H as (Hl & Ha & Ht);
  apply selectionPresent_spec.

Ltac present_field :=
  let i := fresh "i" in
  let E := fresh "E" in
  intros i E; cbn in E |- *;
  first
    [ discriminate E
    | match goal with H : forall j, _ = Some j -> _ |- _ =>
        exact (H i E) end
    | injection E as <-;
      first [ rewrite map_app; apply in_or_app; right; left; reflexivity
            | eapply In_found_id; eassumption ]
    | apply In_app_id;
      match goal with H : forall j, _ = Some j -> _ |- _ =>
        exact (H i E) end ].

Ltac present_close := splits; present_field.

Lemma present_frame (s s' : State) :
  lines s' = lines s -> areas s' = areas s -> textBoxes s' = textBoxes s ->
  selectedLineId s' = selectedLineId s ->
  selectedAreaId s' = selectedAreaId s ->
  selectedTextId s' = selectedTextId s ->
  selectionPresent s = true -> selectionPresent s' = true.
Proof.
  unfold selectionPresent. now intros -> -> -> -> -> ->.
Qed.

Lemma handleMouseDown_present (now : Z) (e : MouseEvent)
  (canvas : option DOMRect) (s : State) :
  selectionPresent s = true ->
  selectionPresent (handleMouseDown now e canvas s) = true.
Proof.
  intros H. unfold handleMouseDown, clearSelection.
  destruct (isHand s); [exact H |].
  destruct canvas as [rect |]; [| present_open H; present_close].
  destruct (canvasSize s); [| present_open H; present_close].
  destruct (pdfDoc s); [| present_open H; present_close].
  cbv zeta.
  destruct (_ || _); [present_open H; present_close |].
  destruct (isLine s && _); [exact H |].
  destruct (isArea s && _); [exact H |].
  destruct (isText s); [present_open H; present_close |].
  destruct (isLine s); [present_open H; present_close |].
  destruct (isArea s); [present_open H; present_close | exact H].
Qed.

Lemma handleMouseMove_present (e : MouseEvent) (canvas : option DOMRect)
  (s : State) :
  selectionPresent s = true ->
  selectionPresent (handleMouseMove e canvas s) = true.
Proof.
  intros H. unfold handleMouseMove.
  destruct (isHand s); [exact H |].
  destruct canvas as [rect |]; [| exact H].
  destruct (canvasSize s); [| exact H].
  present_open H.
  destruct (lineDragActive s) as [[dragId st] |].
  { splits; [| present_field | present_field].
    intros i E. cbn in E |- *.
    apply In_map_same_id; [apply dragLine_id | exact (Hl i E)]. }
  destruct (areaDragActive s) as [[dragId st] |].
  { splits; [present_field | | present_field].
    intros i E. cbn in E |- *.
    apply In_map_same_id; [apply dragArea_id | exact (Ha i E)]. }
  destruct (textDragActive s) as [[dragId st] |].
  { splits; [present_field | present_field |].
    intros i E. cbn in E |- *.
    apply In_map_same_id; [apply dragText_id | exact (Ht i E)]. }
  cbv zeta.
  destruct (lineDrawing s) as [cur |].
  { splits; [| present_field | present_field].
    intros i E. cbn in E |- *.
    apply In_map_same_id; [apply drawLine_id | exact (Hl i E)]. }
  destruct (areaDrawing s) as [cur |]; [| present_close].
  splits; [present_field | | present_field].
  intros i E. cbn in E |- *.
  apply In_map_same_id; [apply drawArea_id | exact (Ha i E)].
Qed.

Lemma endPanOrDraw_present (s : State) :
  selectionPresent s = true -> selectionPresent (endPanOrDraw s) = true.
Proof.
  apply present_frame; unfold endPanOrDraw; destruct (isHand s); reflexivity.
Qed.

Lemma startLineMove_present (e : MouseEvent) (canvas : option DOMRect)
  (id : Z) (s : State) :
  selectionPresent s = true ->
  selectionPresent (startLineMove e canvas id s) = true.
Proof.
  intros H. unfold startLineMove.
  destruct (_ || _); [exact H |].
  destruct (find _ _) eqn:F; [| exact H].
  present_open H. present_close.
Qed.

Lemma startHandleDrag_present (e : MouseEvent) (canvas : option DOMRect)
  (id : Z) (endpoint : Endpoint) (s : State) :
  selectionPresent s = true ->
  selectionPresent (startHandleDrag e canvas id endpoint s) = true.
Proof.
  intros H. unfold startHandleDrag.
  destruct (_ || _); [exact H |].
  destruct (find _ _) eqn:F; [| exact H].
  present_open H. present_close.
Qed.

Lemma startAreaMove_present (e : MouseEvent) (canvas : option DOMRect)
  (id : Z) (s : State) :
  selectionPresent s = true ->
  selectionPresent (startAreaMove e canvas id s) = true.
Proof.
  intros H. unfold startAreaMove.
  destruct (_ || _); [exact H |].
  destruct (find _ _) eqn:F; [| exact H].
  present_open H. present_close.
Qed.

Lemma startAreaHandleDrag_present (e : MouseEvent) (canvas : option DOMRect)
  (id : Z) (endpoint : Endpoint) (s : State) :
  selectionPresent s = true ->
  selectionPresent (startAreaHandleDrag e canvas id endpoint s) = true.
Proof.
  intros H. unfold startAreaHandleDrag.
  destruct (_ || _); [exact H |].
  destruct (find _ _) eqn:F; [| exact H].
  destruct (_ || _); [exact H |].
  present_open H. present_close.
Qed.

Lemma onBox_present (n : nat) (h : TextBox -> State -> State) (s : State) :
  (forall box, In box (textBoxes s) ->
               selectionPresent s = true -> selectionPresent (h box s) = true) ->
  selectionPresent s = true -> selectionPresent (onBox n h s) = true.
Proof.
  intros Hh H. unfold onBox.
  destruct (nth_error (textBoxes s) n) as [box |] eqn:E; [| exact H].
  apply Hh; [| exact H]. eapply nth_error_In. exact E.
Qed.

Lemma textBox_handlers_present (e : MouseEvent) (box : TextBox) (s : State) :
  In box (textBoxes s) ->
  selectionPresent s = true ->
  selectionPresent (textBoxMouseDown e box s) = true
  /\ selectionPresent (textBoxDoubleClick box s) = true
  /\ selectionPresent (textCornerMouseDown e box s) = true.
Proof.
  intros Hbox H.
  pose proof (in_map TextBox.id _ _ Hbox) as Hid.
  unfold textBoxMouseDown, textBoxDoubleClick, textCornerMouseDown.
  destruct (_ && _); [now splits |].
  apply selectionPresent_spec in H. destruct H as (Hl & Ha & Ht).
  splits; apply selectionPresent_spec; splits;
    intros i E; cbn in E |- *; try discriminate E;
    injection E as <-; exact Hid.
Qed.

Lemma deleteSelected_present (s : State) :
  selectionPresent s = true -> selectionPresent (deleteSelected s) = true.
Proof.
  intros H. unfold deleteSelected.
  destruct (selectedLineId s) as [sel |] eqn:SL.
  { present_open H. present_close. }
  destruct (selectedAreaId s) as [sel |] eqn:SA.
  { present_open H. present_close. }
  destruct (selectedTextId s) as [sel |] eqn:ST; [| exact H].
  present_open H. present_close.
Qed.

Lemma duplicateSelected_present (now : Z) (s : State) :
  selectionPresent s = true ->
  selectionPresent (duplicateSelected now s) = true.
Proof.
  intros H. unfold duplicateSelected. cbv zeta.
  destruct (selectedLineId s) as [sel |] eqn:SL.
  { destruct (find _ _); [| exact H]. present_open H. present_close. }
  destruct (selectedAreaId s) as [sel |] eqn:SA.
  { destruct (find _ _); [| exact H]. present_open H. present_close. }
  destruct (selectedTextId s) as [sel |] eqn:ST; [| exact H].
  destruct (find _ _); [| exact H]. present_open H. present_close.
Qed.

Lemma copySelection_present (s : State) :
  selectionPresent s = true -> selectionPresent (copySelection s) = true.
Proof.
  destruct (copySelection_frame s) as (El & Ea & Et & Sl & Sa & St & _).
  now apply present_frame.
Qed.

Lemma pasteClipboard_present (now : Z) (s : State) :
  selectionPresent s = true ->
  selectionPresent (pasteClipboard now s) = true.
Proof.
  intros H. unfold pasteClipboard.
  destruct (clipboard s) as [[line | area | box] |]; [| | | exact H];
    cbv zeta; present_open H; present_close.
Qed.

Lemma handleFileChange_present (loaded : option PDFDocumentProxy)
  (rendered : option CanvasSize) (s : State) :
  selectionPresent s = true ->
  selectionPresent (handleFileChange loaded rendered s) = true.
Proof.
  intros H. unfold handleFileChange.
  destruct loaded; [| exact H].
  present_open H. destruct rendered; present_close.
Qed.

Lemma step_present (a : Action) (s : State) :
  selectionPresent s = true -> selectionPresent (step a s) = true.
Proof.
  destruct a; cbn [step].
  - now apply present_frame.
  - apply handleMouseDown_present.
  - apply handleMouseMove_present.
  - apply endPanOrDraw_present.
  - apply startLineMove_present.
  - apply startHandleDrag_present.
  - apply startAreaMove_present.
  - apply startAreaHandleDrag_present.
  - apply onBox_present. intros box Hbox H.
    now destruct (textBox_handlers_present e box s Hbox H) as (R1 & _ & _).
  - apply onBox_present. intros box Hbox H.
    now destruct (textBox_handlers_present (mkMouseEvent 0 0) box s Hbox H)
      as (_ & R2 & _).
  - apply onBox_present. intros box Hbox H.
    now destruct (textBox_handlers_present e box s Hbox H) as (_ & _ & R3).
  - apply deleteSelected_present.
  - apply duplicateSelected_present.
  - apply copySelection_present.
  - intros H. unfold cutSelection. cbn [seq_].
    now apply deleteSelected_present, copySelection_present.
  - apply pasteClipboard_present.
  - apply handleFileChange_present.
Qed.

Lemma run_present (acts : list Action) (s : State) :
  selectionPresent s = true -> selectionPresent (run acts s) = true.
Proof.
  revert s. induction acts as [| a rest IH]; intros s H; [exact H |].
  cbn [run]. apply IH. now apply step_present.
Qed.

(** The invariant needs the ids and the selections only. *)
Lemma present_ids (s s' : State) :
  map Line.id (lines s') = map Line.id (lines s) ->
  map AreaShape.id (areas s') = map AreaShape.id (areas s) ->
  map TextBox.id (textBoxes s') = map TextBox.id (textBoxes s) ->
  selectedLineId s' = selectedLineId s ->
  selectedAreaId s' = selectedAreaId s ->
  selectedTextId s' = selectedTextId s ->
  selectionPresent s = true -> selectionPresent s' = true.
Proof.
  intros El Ea Et Sl Sa St H. present_open H.
  rewrite El, Ea, Et, Sl, Sa, St. now splits.
Qed.

Lemma map_selected_ids {A} (idOf : A -> Z) (sel : Z) (f : A -> A)
  (l : list A) :
  (forall x, idOf (f x) = idOf x) ->
  map idOf (map (fun x => if (idOf x =? sel)%Z then f x else x) l)
  = map idOf l.
Proof.
  intros Hf. rewrite map_map. apply map_ext. intros x.
  now destruct (idOf x =? sel)%Z.
Qed.

Lemma onSelectedLine_present (f : Line -> Line) (s : State) :
  (forall l, Line.id (f l) = Line.id l) ->
  selectionPresent s = true -> selectionPresent (onSelectedLine f s) = true.
Proof.
  intros Hf. unfold onSelectedLine.
  destruct (selectedLineId s) as [sel |] eqn:E; [| auto].
  apply present_ids; cbn; rewrite ?E; try reflexivity.
  now apply map_selected_ids.
Qed.

Lemma onSelectedArea_present (f : AreaShape -> AreaShape) (s : State) :
  (forall a, AreaShape.id (f a) = AreaShape.id a) ->
  selectionPresent s = true -> selectionPresent (onSelectedArea f s) = true.
Proof.
  intros Hf. unfold onSelectedArea.
  destruct (selectedAreaId s) as [sel |] eqn:E; [| auto].
  apply present_ids; cbn; rewrite ?E; try reflexivity.
  now apply map_selected_ids.
Qed.

Lemma applyTextStyleToSelection_present (partial : TextBox -> TextBox)
  (s : State) :
  (forall b, TextBox.id (partial b) = TextBox.id b) ->
  selectionPresent s = true ->
  selectionPresent (applyTextStyleToSelection partial s) = true.
Proof.
  intros Hf. unfold applyTextStyleToSelection.
  destruct (selectedTextId s) as [sel |] eqn:E; [| auto].
  apply present_ids; cbn; rewrite ?E; try reflexivity.
  now apply map_selected_ids.
Qed.

(** The line controls and the text controls: a default is set, and the
    selected entries are rewritten under their ids. *)
Lemma line_controls_present (s : State) :
  selectionPresent s = true ->
  (forall style, selectionPresent (handleChangeLineStyle style s) = true)
  /\ (forall color, selectionPresent (handleChangeLineColor color s) = true)
  /\ (forall width, selectionPresent (handleChangeLineWidth width s) = true)
  /\ (forall value, selectionPresent (handleChangeArrowEnd value s) = true).
Proof.
  intros H.
  unfold handleChangeLineStyle, handleChangeLineColor, handleChangeLineWidth,
    handleChangeArrowEnd, seq_.
  splits; intros v.
  - apply onSelectedLine_present; [reflexivity |].
    revert H. now apply present_frame.
  - apply onSelectedArea_present; [reflexivity |].
    apply onSelectedLine_present; [reflexivity |].
    revert H. now apply present_frame.
  - apply onSelectedLine_present; [reflexivity |].
    revert H. now apply present_frame.
  - apply onSelectedLine_present; [reflexivity |].
    revert H. now apply present_frame.
Qed.

Lemma text_controls_present (s : State) :
  selectionPresent s = true ->
  (forall color, selectionPresent (handleChangeTextColor color s) = true)
  /\ (forall font, selectionPresent (handleChangeTextFont font s) = true)
  /\ (forall size, selectionPresent (handleChangeTextSize size s) = true)
  /\ selectionPresent (handleToggleTextBold s) = true
  /\ selectionPresent (handleToggleTextItalic s) = true
  /\ selectionPresent (handleToggleTextUnderline s) = true
  /\ (forall color, selectionPresent (handleChangeTextBgColor color s) = true)
  /\ selectionPresent (handleToggleTextBgSolid s) = true.
Proof.
  intros H.
  unfold handleChangeTextColor, handleChangeTextFont, handleChangeTextSize,
    handleToggleTextBold, handleToggleTextItalic, handleToggleTextUnderline,
    handleChangeTextBgColor, handleToggleTextBgSolid, seq_.
  cbv zeta.
  splits; try intros v.
  - apply applyTextStyleToSelection_present; [reflexivity |].
    revert H. now apply present_frame.
  - apply applyTextStyleToSelection_present; [reflexivity |].
    revert H. now apply present_frame.
  - apply applyTextStyleToSelection_present; [reflexivity |].
    revert H. now apply present_frame.
  - eapply present_frame;
      [.. | apply (applyTextStyleToSelection_present
                     (boxWithBold (negb (textBold s))) s
                     (fun b => eq_refl) H)]; reflexivity.
  - eapply present_frame;
      [.. | apply (applyTextStyleToSelection_present
                     (boxWithItalic (negb (textItalic s))) s
                     (fun b => eq_refl) H)]; reflexivity.
  - eapply present_frame;
      [.. | apply (applyTextStyleToSelection_present
                     (boxWithUnderline (negb (textUnderline s))) s
                     (fun b => eq_refl) H)]; reflexivity.
  - apply applyTextStyleToSelection_present; [reflexivity |].
    revert H. now apply present_frame.
  - eapply present_frame;
      [.. | apply (applyTextStyleToSelection_present
                     (boxWithSolidBackground (negb (textBgSolid s))) s
                     (fun b => eq_refl) H)]; reflexivity.
Qed.

Lemma textAreaChange_present (value : string) (box : TextBox) (s : State) :
  selectionPresent s = true ->
  selectionPresent (textAreaChange value box s) = true.
Proof.
  unfold textAreaChange. apply present_ids; cbn; try reflexivity.
  now apply map_selected_ids.
Qed.

(** Navigation and zoom write the page number, the scale and the size of
    the canvas. *)
Lemma view_controls_present (rendered : option CanvasSize) (s : State) :
  selectionPresent s = true ->
  (forall deltaY, selectionPresent (handleWheel deltaY rendered s) = true)
  /\ selectionPresent (handlePrev rendered s) = true
  /\ selectionPresent (handleNext rendered s) = true
  /\ (forall value, selectionPresent (handleGoTo value rendered s) = true)
  /\ selectionPresent (handleZoomOut rendered s) = true
  /\ selectionPresent (handleZoomIn rendered s) = true.
Proof.
  intros H.
  assert (Z : forall newScale,
             selectionPresent (applyZoom newScale rendered s) = true).
  { intros v. revert H.
    apply present_frame; unfold applyZoom, renderPage; frame_cases. }
  assert (G : forall newPage,
             selectionPresent (goToPage newPage rendered s) = true).
  { intros v. revert H.
    apply present_frame; unfold goToPage, renderPage; frame_cases. }
  unfold handleWheel, handlePrev, handleNext, handleGoTo, handleZoomOut,
    handleZoomIn.
  splits; try intros v;
    repeat match goal with
      | |- context [match ?x with _ => _ end] => destruct x
      end; auto.
Qed.

Lemma handle_present (ev : Event) (s : State) :
  selectionPresent s = true -> selectionPresent (handle ev s) = true.
Proof.
  intros H.
  pose proof (line_controls_present s H) as (L1 & L2 & L3 & L4).
  pose proof (text_controls_present s H)
    as (T1 & T2 & T3 & T4 & T5 & T6 & T7 & T8).
  destruct ev; cbn [handle].
  - now apply step_present.
  - unfold handleKeyDown. destruct (_ && _); [exact H |].
    now apply deleteSelected_present.
  - apply L1.
  - apply L2.
  - apply L3.
  - apply L4.
  - revert H. now apply present_frame.
  - revert H. now apply present_frame.
  - revert H. now apply present_frame.
  - revert H. now apply present_frame.
  - unfold copyAreaStyleFromSelection.
    destruct (selectedAreaId s) eqn:E; [| exact H].
    destruct (find _ _); [| exact H].
    revert H. now apply present_frame.
  - apply T1.
  - apply T2.
  - apply T3.
  - exact T4.
  - exact T5.
  - exact T6.
  - apply T7.
  - exact T8.
  - apply onBox_present; [| exact H]. intros box _.
    apply textAreaChange_present.
  - now apply view_controls_present.
  - now apply view_controls_present.
  - now apply view_controls_present.
  - now apply view_controls_present.
  - now apply view_controls_present.
  - now apply view_controls_present.
Qed.

Lemma runEvents_present (evs : list Event) (s : State) :
  selectionPresent s = true -> selectionPresent (runEvents evs s) = true.
Proof.
  revert s. induction evs as [| ev rest IH]; intros s H; [exact H |].
  cbn [runEvents]. apply IH. now apply handle_present.
Qed.

(** A run of actions is a run of handlers. *)
Lemma runEvents_acts (acts : list Action) (s : State) :
  runEvents (map Act acts) s = run acts s.
Proof.
  revert s. induction acts as [| a rest IH]; intros s; [reflexivity |].
  cbn. apply IH.
Qed.

Lemma reachable_by_handlers (s : State) :
  reachable s -> reachableByHandlers s.
Proof.
  intros (acts & ->). exists (map Act acts). symmetry. apply runEvents_acts.
Qed.

(** X23.  The selection never dangles: in every state that a sequence of
    handlers of the component leaves, from its initial state, an id selected
    in a collection is the id of an entry of that collection.  (Two
    collections may have a selection at once, but each names something that
    exists; in particular delete, copy, cut and duplicate always find the
    entity they act on.) *)
Theorem reachable_selection_present (s : State) :
  reachableByHandlers s ->
  (forall i, selectedLineId s = Some i ->
             exists l, find (fun l => (Line.id l =? i)%Z) (lines s) = Some l)
  /\ (forall i, selectedAreaId s = Some i ->
                exists a,
                  find (fun a => (AreaShape.id a =? i)%Z) (areas s) = Some a)
  /\ (forall i, selectedTextId s = Some i ->
                exists b,
                  find (fun b => (TextBox.id b =? i)%Z) (textBoxes s)
                  = Some b).
Proof.
  intros (evs & ->).
  assert (H : selectionPresent (runEvents evs initialState) = true)
    by (now apply runEvents_present).
  unfold selectionPresent in H. rewrite !andb_true_iff in H.
  destruct H as ((Hl & Ha) & Ht).
  splits; intros i E; rewrite E in *; now apply find_of_existsb.
Qed.

(** [reachable_selection_present] after a line was drawn, a text box placed
    and the line pressed: both the line 1 and the text box 2 are selected,
    and both are there. *)
Lemma reachable_selection_present_witness :
  let s := run pressLineAfterText initialState in
  (exists l, find (fun l => (Line.id l =? 1)%Z) (lines s) = Some l)
  /\ (exists b, find (fun b => (TextBox.id b =? 2)%Z) (textBoxes s) = Some b).
Proof.
  cbv zeta.
  assert (R : reachableByHandlers (run pressLineAfterText initialState))
    by (apply reachable_by_handlers; exists pressLineAfterText; reflexivity).
  assert (Sl : selectedLineId (run pressLineAfterText initialState)
               = Some 1%Z) by (eval_run; reflexivity).
  assert (St : selectedTextId (run pressLineAfterText initialState)
               = Some 2%Z) by (eval_run; reflexivity).
  destruct (reachable_selection_present _ R) as (Hl & _ & Ht).
  split; [exact (Hl _ Sl) | exact (Ht _ St)].
Defined.
